(** * AlphaWolf server: Telegram init-data verification, progress routes, ad metrics

  A shallow embedding of the parts of the server that its specification
  makes statements about:

  - [TelegramBotService.verifyTelegramData] (src/services/telegramBot.js),
  - the [telegramAuth] middleware (src/index.js),
  - the progress router (routes/progress.js),
  - [AdService.getAdMetrics] (services/adService.js).

  JavaScript strings are kept in their UTF-8 encoding, as Rocq [string]s
  (sequences of bytes); this is the form in which Node's [crypto] module
  hashes them.  Code that can throw is written in a small exception monad,
  code that talks to a database in a state-and-exception monad over an
  explicit store. *)

From Stdlib Require Import ZArith List String Ascii Lia Bool QArith.
From Stdlib Require Import Sorting.Sorted Sorting.Permutation.
From stdpp Require Import base gmap strings list.

Set Warnings "-register-all".
Local Open Scope Z_scope.

(** ** Bytes and strings *)

Module Bytes.

(** A byte is an integer in [0, 255]; a [Buffer] is a list of bytes. *)
Definition of_ascii (c : ascii) : Z := Z.of_N (N_of_ascii c).

Definition to_ascii (b : Z) : ascii := ascii_of_N (Z.to_N (b mod 256)).

(** [Buffer.from(s, 'utf8')]: strings are already held as UTF-8. *)
Fixpoint of_string (s : string) : list Z :=
  match s with
  | EmptyString => []
  | String c rest => of_ascii c :: of_string rest
  end.

Fixpoint to_string (l : list Z) : string :=
  match l with
  | [] => EmptyString
  | b :: rest => String (to_ascii b) (to_string rest)
  end.

Definition hex_digit (n : Z) : ascii :=
  if n <? 10 then ascii_of_N (Z.to_N (48 + n)) else ascii_of_N (Z.to_N (87 + n)).

(** [buf.toString('hex')]: two lower-case digits per byte. *)
Fixpoint to_hex (l : list Z) : string :=
  match l with
  | [] => EmptyString
  | b :: rest =>
      String (hex_digit ((b mod 256) / 16))
        (String (hex_digit (b mod 16)) (to_hex rest))
  end.

(** Value of a hexadecimal digit, either case. *)
Definition hex_value (c : ascii) : option Z :=
  let n := of_ascii c in
  if (48 <=? n) && (n <=? 57) then Some (n - 48)
  else if (97 <=? n) && (n <=? 102) then Some (n - 87)
  else if (65 <=? n) && (n <=? 70) then Some (n - 55)
  else None.

(** Big-endian value of a string of hexadecimal digits (other
    characters are skipped). *)
Fixpoint hex_number (acc : Z) (s : string) : Z :=
  match s with
  | EmptyString => acc
  | String c rest =>
      match hex_value c with
      | Some d => hex_number (16 * acc + d) rest
      | None => hex_number acc rest
      end
  end.

End Bytes.

(** ** SHA-256 and HMAC (FIPS 180-4, RFC 2104), as provided by Node's crypto *)

Module Crypto.

Definition mask32 : Z := 4294967295.
Definition add32 (x y : Z) : Z := Z.land (x + y) mask32.
Definition rotr (n x : Z) : Z :=
  Z.lor (Z.shiftr x n) (Z.land (Z.shiftl x (32 - n)) mask32).
Definition xor3 (x y z : Z) : Z := Z.lxor (Z.lxor x y) z.

Definition Ch (x y z : Z) : Z :=
  Z.lxor (Z.land x y) (Z.land (Z.lxor x mask32) z).
Definition Maj (x y z : Z) : Z :=
  xor3 (Z.land x y) (Z.land x z) (Z.land y z).
Definition bigSigma0 (x : Z) : Z := xor3 (rotr 2 x) (rotr 13 x) (rotr 22 x).
Definition bigSigma1 (x : Z) : Z := xor3 (rotr 6 x) (rotr 11 x) (rotr 25 x).
Definition smallSigma0 (x : Z) : Z := xor3 (rotr 7 x) (rotr 18 x) (Z.shiftr x 3).
Definition smallSigma1 (x : Z) : Z := xor3 (rotr 17 x) (rotr 19 x) (Z.shiftr x 10).

(** Round constants: the first 32 bits of the fractional parts of the
    cube roots of the first 64 primes. *)
Definition round_constants : list Z :=
  Eval vm_compute in
    List.map (Bytes.hex_number 0)
      [ "428a2f98"; "71374491"; "b5c0fbcf"; "e9b5dba5";
        "3956c25b"; "59f111f1"; "923f82a4"; "ab1c5ed5";
        "d807aa98"; "12835b01"; "243185be"; "550c7dc3";
        "72be5d74"; "80deb1fe"; "9bdc06a7"; "c19bf174";
        "e49b69c1"; "efbe4786"; "0fc19dc6"; "240ca1cc";
        "2de92c6f"; "4a7484aa"; "5cb0a9dc"; "76f988da";
        "983e5152"; "a831c66d"; "b00327c8"; "bf597fc7";
        "c6e00bf3"; "d5a79147"; "06ca6351"; "14292967";
        "27b70a85"; "2e1b2138"; "4d2c6dfc"; "53380d13";
        "650a7354"; "766a0abb"; "81c2c92e"; "92722c85";
        "a2bfe8a1"; "a81a664b"; "c24b8b70"; "c76c51a3";
        "d192e819"; "d6990624"; "f40e3585"; "106aa070";
        "19a4c116"; "1e376c08"; "2748774c"; "34b0bcb5";
        "391c0cb3"; "4ed8aa4a"; "5b9cca4f"; "682e6ff3";
        "748f82ee"; "78a5636f"; "84c87814"; "8cc70208";
        "90befffa"; "a4506ceb"; "bef9a3f7"; "c67178f2" ]%string.

(** Initial hash value: square roots of the first 8 primes. *)
Definition initial_hash : list Z :=
  Eval vm_compute in
    List.map (Bytes.hex_number 0)
      [ "6a09e667"; "bb67ae85"; "3c6ef372"; "a54ff53a";
        "510e527f"; "9b05688c"; "1f83d9ab"; "5be0cd19" ]%string.

(** Big-endian encoding of [x] on [n] bytes. *)
Fixpoint be_bytes (n : nat) (x : Z) : list Z :=
  match n with
  | O => []
  | S k => Z.land (Z.shiftr x (8 * Z.of_nat k)) 255 :: be_bytes k x
  end.

(** Padding: a 1 bit, zeros up to 56 mod 64 bytes, the bit length on 8 bytes. *)
Definition pad (msg : list Z) : list Z :=
  let len := Z.of_nat (length msg) in
  let zeros := Z.to_nat ((55 - len) mod 64) in
  msg ++ [128] ++ repeat 0 zeros ++ be_bytes 8 (8 * len).

(** The sixteen big-endian words of a 64-byte block. *)
Fixpoint words_of (n : nat) (block : list Z) : list Z :=
  match n with
  | O => []
  | S k =>
      match block with
      | a :: b :: c :: d :: rest =>
          (Z.shiftl a 24 + Z.shiftl b 16 + Z.shiftl c 8 + d) :: words_of k rest
      | _ => []
      end
  end.

(** Message schedule, kept newest word first: [w] holds W(t-1), W(t-2), ... *)
Fixpoint extend_schedule (n : nat) (w : list Z) : list Z :=
  match n with
  | O => w
  | S k =>
      let next :=
        add32 (add32 (smallSigma1 (nth 1 w 0)) (nth 6 w 0))
              (add32 (smallSigma0 (nth 14 w 0)) (nth 15 w 0)) in
      extend_schedule k (next :: w)
  end.

Definition schedule (block : list Z) : list Z :=
  rev (extend_schedule 48 (rev (words_of 16 block))).

Record registers := Regs { ra : Z; rb : Z; rc : Z; rd : Z; re : Z; rf : Z; rg : Z; rh : Z }.

Definition round (r : registers) (kw : Z * Z) : registers :=
  let t1 := add32 (add32 (add32 (rh r) (bigSigma1 (re r)))
                         (add32 (Ch (re r) (rf r) (rg r)) (fst kw))) (snd kw) in
  let t2 := add32 (bigSigma0 (ra r)) (Maj (ra r) (rb r) (rc r)) in
  Regs (add32 t1 t2) (ra r) (rb r) (rc r) (add32 (rd r) t1) (re r) (rf r) (rg r).

Definition regs_of (h : list Z) : registers :=
  Regs (nth 0 h 0) (nth 1 h 0) (nth 2 h 0) (nth 3 h 0)
       (nth 4 h 0) (nth 5 h 0) (nth 6 h 0) (nth 7 h 0).

Definition regs_list (r : registers) : list Z :=
  [ra r; rb r; rc r; rd r; re r; rf r; rg r; rh r].

Definition compress (h : list Z) (block : list Z) : list Z :=
  let r := fold_left round (combine round_constants (schedule block)) (regs_of h) in
  List.map (fun p => add32 (fst p) (snd p)) (combine h (regs_list r)).

Fixpoint blocks (n : nat) (h : list Z) (data : list Z) : list Z :=
  match n with
  | O => h
  | S k => blocks k (compress h (firstn 64 data)) (skipn 64 data)
  end.

Definition sha256 (msg : list Z) : list Z :=
  let padded := pad msg in
  let h := blocks (Nat.div (length padded) 64) initial_hash padded in
  flat_map (be_bytes 4) h.

(** HMAC with block size 64: keys longer than a block are hashed first. *)
Definition hmac_key_block (key : list Z) : list Z :=
  let k := if (64 <? Z.of_nat (length key)) then sha256 key else key in
  k ++ repeat 0 (64 - length k)%nat.

Definition hmac_sha256 (key msg : list Z) : list Z :=
  let k := hmac_key_block key in
  let ipad := List.map (Z.lxor 54) k in
  let opad := List.map (Z.lxor 92) k in
  sha256 (opad ++ sha256 (ipad ++ msg)).

End Crypto.

(** ** JavaScript values, exceptions and the JSON parser *)

Module JS.

(** The values a parsed init-data user can hold.  A number is kept as the
    exact decimal [mantissa * 10 ^ exponent] that its literal denotes. *)
Inductive value : Type :=
| Undefined
| Null
| Bool (b : bool)
| Number (mantissa exponent : Z)
| Str (s : string)
| Array (items : list value)
| Object (props : list (string * value)).

(** A thrown [Error]: its class name and its message.  What the services
    and the libraries throw are such objects; the message texts given to
    the runtime's own errors below are indicative. *)
Record Error : Type := mkError { name : string; message : string }.

Definition SyntaxError (msg : string) : Error := mkError "SyntaxError" msg.
Definition TypeError (msg : string) : Error := mkError "TypeError" msg.
Definition PlainError (msg : string) : Error := mkError "Error" msg.

(** The completion of an evaluation: a value, or a thrown error. *)
Inductive completion (A : Type) : Type :=
| Normal (a : A)
| Throw (e : Error).
Arguments Normal {A} a.
Arguments Throw {A} e.

Definition bind {A B} (c : completion A) (k : A -> completion B) : completion B :=
  match c with
  | Normal a => k a
  | Throw e => Throw e
  end.

(** [try { body } catch (error) { handler }] *)
Definition try_catch {A} (body : completion A) (handler : Error -> completion A)
  : completion A :=
  match body with
  | Normal a => Normal a
  | Throw e => handler e
  end.

(** Truthiness of what [URLSearchParams.get] returns: [null] and the
    empty string are falsy. *)
Definition truthy (s : option string) : bool :=
  match s with
  | Some (String _ _) => true
  | _ => false
  end.

(** Own properties of an object, first binding of the key. *)
Fixpoint lookup_prop (k : string) (props : list (string * value)) : value :=
  match props with
  | [] => Undefined
  | (k', v) :: rest => if String.eqb k k' then v else lookup_prop k rest
  end.

(** [v.k] for a key that no prototype defines ([id], [username], ...):
    reading a property of [null] or [undefined] throws, an object gives
    its own property, every other value gives [undefined]. *)
Definition get_property (v : value) (k : string) : completion value :=
  match v with
  | Undefined | Null =>
      Throw (TypeError ("Cannot read properties of null (reading '" +:+ k +:+ "')"))
  | Object props => Normal (lookup_prop k props)
  | _ => Normal Undefined
  end.

(** Setting a property: a repeated key keeps its place and takes the
    new value. *)
Fixpoint set_prop (k : string) (v : value) (props : list (string * value))
  : list (string * value) :=
  match props with
  | [] => [(k, v)]
  | (k', v') :: rest =>
      if String.eqb k k' then (k', v) :: rest else (k', v') :: set_prop k v rest
  end.

End JS.

#[global] Instance completion_bind : MBind JS.completion :=
  fun A B k c => JS.bind c k.
#[global] Instance completion_ret : MRet JS.completion := @JS.Normal.

(** *** JSON.parse (ECMA-404) *)

Module JSON.

Import JS.

Definition is_ws (c : ascii) : bool :=
  let n := Bytes.of_ascii c in
  (n =? 32) || (n =? 9) || (n =? 10) || (n =? 13).

Definition is_digit (c : ascii) : bool :=
  let n := Bytes.of_ascii c in (48 <=? n) && (n <=? 57).

Fixpoint skip_ws (s : string) : string :=
  match s with
  | String c rest => if is_ws c then skip_ws rest else s
  | EmptyString => s
  end.

(** UTF-8 encoding of a code point (a lone surrogate is encoded on three
    bytes like any other code point of its range). *)
Definition utf8_encode (cp : Z) : list Z :=
  if cp <? 128 then [cp]
  else if cp <? 2048 then [192 + cp / 64; 128 + cp mod 64]
  else if cp <? 65536 then [224 + cp / 4096; 128 + (cp / 64) mod 64; 128 + cp mod 64]
  else [240 + cp / 262144; 128 + (cp / 4096) mod 64;
        128 + (cp / 64) mod 64; 128 + cp mod 64].

(** Four hexadecimal digits. *)
Definition hex4 (s : string) : option (Z * string) :=
  match s with
  | String a (String b (String c (String d rest))) =>
      match Bytes.hex_value a, Bytes.hex_value b, Bytes.hex_value c, Bytes.hex_value d with
      | Some x, Some y, Some z, Some w => Some (4096 * x + 256 * y + 16 * z + w, rest)
      | _, _, _, _ => None
      end
  | _ => None
  end.

Definition simple_escape (c : ascii) : option Z :=
  let n := Bytes.of_ascii c in
  if n =? 34 then Some 34            (* quotation mark *)
  else if n =? 92 then Some 92       (* reverse solidus *)
  else if n =? 47 then Some 47       (* solidus *)
  else if n =? 98 then Some 8        (* b: backspace *)
  else if n =? 102 then Some 12      (* f: form feed *)
  else if n =? 110 then Some 10      (* n: line feed *)
  else if n =? 114 then Some 13      (* r: carriage return *)
  else if n =? 116 then Some 9       (* t: tab *)
  else None.

(** The characters of a string literal after its opening quote; the
    result is the decoded string and what follows the closing quote. *)
Fixpoint string_chars (fuel : nat) (s : string) (acc : list Z) : option (string * string) :=
  match fuel with
  | O => None
  | S fuel' =>
      match s with
      | EmptyString => None
      | String c rest =>
          let n := Bytes.of_ascii c in
          if n =? 34 then Some (Bytes.to_string (rev acc), rest)
          else if n <? 32 then None
          else if n =? 92 then
            match rest with
            | EmptyString => None
            | String e rest' =>
                if Bytes.of_ascii e =? 117 then
                  match hex4 rest' with
                  | None => None
                  | Some (hi, after) =>
                      let paired :=
                        if (55296 <=? hi) && (hi <=? 56319) then
                          match after with
                          | String b1 (String b2 after') =>
                              if (Bytes.of_ascii b1 =? 92) && (Bytes.of_ascii b2 =? 117) then
                                match hex4 after' with
                                | Some (lo, after'') =>
                                    if (56320 <=? lo) && (lo <=? 57343)
                                    then Some (65536 + (hi - 55296) * 1024 + (lo - 56320), after'')
                                    else None
                                | None => None
                                end
                              else None
                          | _ => None
                          end
                        else None in
                      match paired with
                      | Some (cp, after'') =>
                          string_chars fuel' after'' (rev (utf8_encode cp) ++ acc)
                      | None => string_chars fuel' after (rev (utf8_encode hi) ++ acc)
                      end
                  end
                else
                  match simple_escape e with
                  | Some b => string_chars fuel' rest' (b :: acc)
                  | None => None
                  end
            end
          else string_chars fuel' rest (n :: acc)
      end
  end.

(** A run of decimal digits: its value continued from [acc], how many
    digits were read, and the rest. *)
Fixpoint digits (s : string) (acc : Z) (count : Z) : Z * Z * string :=
  match s with
  | String c rest =>
      if is_digit c then digits rest (10 * acc + (Bytes.of_ascii c - 48)) (count + 1)
      else (acc, count, s)
  | EmptyString => (acc, count, s)
  end.

(** number = [-] int [frac] [exp] *)
Definition number (s : string) : option (value * string) :=
  let '(negative, s1) :=
    match s with
    | String "-" rest => (true, rest)
    | _ => (false, s)
    end in
  match s1 with
  | String c rest1 =>
      if is_digit c then
        let '(int_part, s2) :=
          if Bytes.of_ascii c =? 48 then (0, rest1)
          else let '(v, _, r) := digits s1 0 0 in (v, r) in
        let frac :=
          match s2 with
          | String "." r =>
              let '(v, n, r') := digits r int_part 0 in
              if n =? 0 then None else Some (v, n, r')
          | _ => Some (int_part, 0, s2)
          end in
        match frac with
        | None => None
        | Some (m, nfrac, s3) =>
            let signed := if negative then - m else m in
            let with_exp (r : string) :=
              let '(esign, r1) :=
                match r with
                | String "+" r' => (1, r')
                | String "-" r' => (-1, r')
                | _ => (1, r)
                end in
              let '(e, n, r2) := digits r1 0 0 in
              if n =? 0 then None else Some (Number signed (esign * e - nfrac), r2) in
            match s3 with
            | String "e" r => with_exp r
            | String "E" r => with_exp r
            | _ => Some (Number signed (- nfrac), s3)
            end
        end
      else None
  | EmptyString => None
  end.

(** A literal name ([true], [false], [null]) at the head of [s]. *)
Fixpoint literal (word s : string) : option string :=
  match word with
  | EmptyString => Some s
  | String w word' =>
      match s with
      | String c rest => if Ascii.eqb w c then literal word' rest else None
      | EmptyString => None
      end
  end.

(** value, the elements of an array after its first one, and the members
    of an object after its first one. *)
Fixpoint parse_value (fuel : nat) (s : string) : option (value * string) :=
  match fuel with
  | O => None
  | S fuel' =>
      match skip_ws s with
      | EmptyString => None
      | String c rest =>
          let n := Bytes.of_ascii c in
          if n =? 123 then                       (* { *)
            match skip_ws rest with
            | String "}" after => Some (Object [], after)
            | body => parse_members fuel' body []
            end
          else if n =? 91 then                   (* [ *)
            match skip_ws rest with
            | String "]" after => Some (Array [], after)
            | body => parse_elements fuel' body []
            end
          else if n =? 34 then
            match string_chars (String.length rest) rest [] with
            | Some (str, after) => Some (Str str, after)
            | None => None
            end
          else if n =? 116 then option_map (fun r => (Bool true, r)) (literal "true" (String c rest))
          else if n =? 102 then option_map (fun r => (Bool false, r)) (literal "false" (String c rest))
          else if n =? 110 then option_map (fun r => (Null, r)) (literal "null" (String c rest))
          else number (String c rest)
      end
  end
with parse_elements (fuel : nat) (s : string) (acc : list value) : option (value * string) :=
  match fuel with
  | O => None
  | S fuel' =>
      match parse_value fuel' s with
      | None => None
      | Some (v, after) =>
          match skip_ws after with
          | String "," more => parse_elements fuel' more (v :: acc)
          | String "]" more => Some (Array (rev (v :: acc)), more)
          | _ => None
          end
      end
  end
with parse_members (fuel : nat) (s : string) (acc : list (string * value))
  : option (value * string) :=
  match fuel with
  | O => None
  | S fuel' =>
      match skip_ws s with
      | String c key_start =>
          if Bytes.of_ascii c =? 34 then
            match string_chars (String.length key_start) key_start [] with
            | None => None
            | Some (key, after_key) =>
                match skip_ws after_key with
                | String ":" after_colon =>
                    match parse_value fuel' after_colon with
                    | None => None
                    | Some (v, after) =>
                        match skip_ws after with
                        | String "," more => parse_members fuel' more (set_prop key v acc)
                        | String "}" more => Some (Object (set_prop key v acc), more)
                        | _ => None
                        end
                    end
                | _ => None
                end
            end
          else None
      | EmptyString => None
      end
  end.

(** [JSON.parse(text)]: one value, surrounded by white space only;
    [None] stands for the [SyntaxError] that is thrown otherwise. *)
Definition parse (text : string) : option value :=
  match parse_value (2 * String.length text + 2) text with
  | Some (v, rest) =>
      match skip_ws rest with
      | EmptyString => Some v
      | _ => None
      end
  | None => None
  end.

End JSON.


(** ** URLSearchParams (WHATWG URL standard, application/x-www-form-urlencoded) *)

Module URLSearchParams.

(** The object's state: its list of name-value pairs, in order. *)
Definition t : Type := list (string * string).

(** *** Parsing *)

(** Split at every occurrence of the byte [sep]. *)
Fixpoint split (sep : Z) (s : list Z) (current : list Z) : list (list Z) :=
  match s with
  | [] => [rev current]
  | b :: rest =>
      if b =? sep then rev current :: split sep rest []
      else split sep rest (b :: current)
  end.

(** Split at the first occurrence of [=]; without one the value is empty. *)
Fixpoint name_value (s : list Z) (name : list Z) : list Z * list Z :=
  match s with
  | [] => (rev name, [])
  | b :: rest => if b =? 61 then (rev name, rest) else name_value rest (b :: name)
  end.

Definition plus_to_space (b : Z) : Z := if b =? 43 then 32 else b.

(** Percent-decoding: a [%] that is not followed by two hexadecimal
    digits stands for itself. *)
Fixpoint percent_decode (fuel : nat) (s : list Z) : list Z :=
  match fuel with
  | O => []
  | S fuel' =>
      match s with
      | [] => []
      | b :: rest =>
          if b =? 37 then
            match rest with
            | h :: l :: rest' =>
                match Bytes.hex_value (Bytes.to_ascii h), Bytes.hex_value (Bytes.to_ascii l) with
                | Some x, Some y => (16 * x + y) :: percent_decode fuel' rest'
                | _, _ => b :: percent_decode fuel' rest
                end
            | _ => b :: percent_decode fuel' rest
            end
          else b :: percent_decode fuel' rest
      end
  end.

(** The state of the UTF-8 decoder between two bytes: how many
    continuation bytes are still needed, the bytes of the sequence read
    so far, and the range allowed for the next byte. *)
Record decoder := Decoder { needed : nat; seen : list Z; lower : Z; upper : Z }.

Definition idle : decoder := Decoder 0 [] 128 191.
Definition replacement : list Z := [239; 191; 189].

(** A byte met while no sequence is open. *)
Definition lead (b : Z) : list Z * decoder :=
  if b <=? 127 then ([b], idle)
  else if (194 <=? b) && (b <=? 223) then ([], Decoder 1 [b] 128 191)
  else if (224 <=? b) && (b <=? 239) then
    ([], Decoder 2 [b] (if b =? 224 then 160 else 128) (if b =? 237 then 159 else 191))
  else if (240 <=? b) && (b <=? 244) then
    ([], Decoder 3 [b] (if b =? 240 then 144 else 128) (if b =? 244 then 143 else 191))
  else (replacement, idle).

Definition step (d : decoder) (b : Z) : list Z * decoder :=
  match needed d with
  | O => lead b
  | S k =>
      if (lower d <=? b) && (b <=? upper d) then
        match k with
        | O => (seen d ++ [b], idle)
        | S _ => ([], Decoder k (seen d ++ [b]) 128 191)
        end
      else
        let '(out, d') := lead b in (replacement ++ out, d')
  end.

(** UTF-8 decode without BOM, with the result held in UTF-8 again: well
    formed sequences are kept, every ill-formed one becomes U+FFFD. *)
Fixpoint utf8_decode (d : decoder) (s : list Z) : list Z :=
  match s with
  | [] => match needed d with O => [] | S _ => replacement end
  | b :: rest => let '(out, d') := step d b in out ++ utf8_decode d' rest
  end.

Definition decode_component (s : list Z) : string :=
  Bytes.to_string
    (utf8_decode idle (percent_decode (S (length s)) (List.map plus_to_space s))).

Definition parse_pairs (sequences : list (list Z)) : t :=
  flat_map
    (fun bytes =>
       match bytes with
       | [] => []
       | _ => let '(n, v) := name_value bytes [] in
              [(decode_component n, decode_component v)]
       end)
    sequences.

(** [new URLSearchParams(init)] for a string [init]: a leading [?] is
    dropped, then the string is parsed. *)
Definition parse (init : string) : t :=
  let bytes := Bytes.of_string init in
  let bytes := match bytes with 63 :: rest => rest | _ => bytes end in
  parse_pairs (split 38 bytes []).

(** *** Methods *)

(** [get(name)]: the value of the first pair with that name, else [null]. *)
Fixpoint get (name : string) (data : t) : option string :=
  match data with
  | [] => None
  | (k, v) :: rest => if String.eqb k name then Some v else get name rest
  end.

(** [delete(name)]: removes every pair with that name. *)
Definition delete (name : string) (data : t) : t :=
  List.filter (fun kv => negb (String.eqb (fst kv) name)) data.

(** [entries()]: the pairs, in order. *)
Definition entries (data : t) : list (string * string) := data.

End URLSearchParams.

(** ** Array.prototype.sort and join *)

Module Array.

(** Insertion of [x] in front of the first element it does not come
    after.  [compareFn a b > 0] means that [a] comes after [b]. *)
Fixpoint insert {A} (compareFn : A -> A -> Z) (x : A) (l : list A) : list A :=
  match l with
  | [] => [x]
  | y :: rest =>
      if compareFn x y <=? 0 then x :: y :: rest
      else y :: insert compareFn x rest
  end.

(** [array.sort(compareFn)]: the sort is stable (ECMAScript 2019), so
    for a consistent comparator the result is that of inserting the
    elements from the last to the first, equal ones keeping their order. *)
Definition sort {A} (compareFn : A -> A -> Z) (l : list A) : list A :=
  fold_right (insert compareFn) [] l.

(** [array.join(separator)] on an array of strings. *)
Definition join (separator : string) (l : list string) : string :=
  String.concat separator l.

(** [a] does not come after [b] for the comparator. *)
Definition not_after {A} (compareFn : A -> A -> Z) (a b : A) : Prop := compareFn a b <= 0.

End Array.

(** ** services/telegramBot.js: verifyTelegramData *)

Module TelegramBotService.

(** The user object that [verifyTelegramData] builds; a field that the
    parsed JSON does not have is [undefined]. *)
Record TelegramUser : Type := mkUser {
  id : JS.value;
  username : JS.value;
  first_name : JS.value;
  last_name : JS.value
}.

(** The returned object [{ user }]; [None] is [null]. *)
Record VerifyResult : Type := mkResult { user : option TelegramUser }.

(** The line feed character, as a string. *)
Definition newline : string := String "010"%char EmptyString.

Section Service.

(** The runtime: the URL and Intl libraries, the crypto module, the JSON
    object and the process environment.  Module [Node] below gives the
    instances used to run the service. *)
Variable newURLSearchParams : string -> URLSearchParams.t.
Variable localeCompare : string -> string -> Z.
Variable hmac_sha256 : list Z -> list Z -> list Z.
Variable JSON_parse : string -> option JS.value.
Variable TELEGRAM_BOT_TOKEN : option string.

(** [crypto.createHmac('sha256', key).update(data).digest()]: [update]
    throws ERR_INVALID_ARG_TYPE when [data] is [undefined]. *)
Definition createHmac_update_digest (key : list Z) (data : option string)
  : JS.completion (list Z) :=
  match data with
  | Some s => JS.Normal (hmac_sha256 key (Bytes.of_string s))
  | None => JS.Throw (JS.TypeError "ERR_INVALID_ARG_TYPE")
  end.

(** [JSON.parse(text)], throwing a SyntaxError on ill-formed text. *)
Definition JSON_parse_or_throw (text : string) : JS.completion JS.value :=
  match JSON_parse text with
  | Some v => JS.Normal v
  | None => JS.Throw (JS.SyntaxError "Unexpected token in JSON")
  end.

(** [Array.from(data.entries()).sort(([a], [b]) => a.localeCompare(b))
      .map(([key, value]) => `${key}=${value}`).join('\n')] *)
Definition dataCheckString (data : URLSearchParams.t) : string :=
  Array.join newline
    (List.map (fun kv => fst kv +:+ "=" +:+ snd kv)
       (Array.sort (fun a b => localeCompare (fst a) (fst b))
          (URLSearchParams.entries data))).

(** The two HMAC computations, up to the hexadecimal digest. *)
Definition calculatedHash (data : URLSearchParams.t) : JS.completion string :=
  secretKey ← createHmac_update_digest (Bytes.of_string "WebAppData") TELEGRAM_BOT_TOKEN;
  digest ← createHmac_update_digest secretKey (Some (dataCheckString data));
  JS.Normal (Bytes.to_hex digest).

(** [a !== b] for a string [a] and a string-or-null [b]. *)
Definition strict_ne (a : string) (b : option string) : bool :=
  match b with
  | Some s => negb (String.eqb a s)
  | None => true
  end.

(** [data.get('user') ? JSON.parse(data.get('user')).field : null] *)
Definition user_field (data : URLSearchParams.t) (field : string)
  : JS.completion JS.value :=
  if JS.truthy (URLSearchParams.get "user" data) then
    parsed ← JSON_parse_or_throw (default EmptyString (URLSearchParams.get "user" data));
    JS.get_property parsed field
  else JS.Normal JS.Null.

(** The object literal [{ id: ..., username: ..., first_name: ...,
    last_name: ... }], its fields evaluated in order. *)
Definition parse_user (data : URLSearchParams.t) : JS.completion TelegramUser :=
  i ← user_field data "id";
  u ← user_field data "username";
  f ← user_field data "first_name";
  l ← user_field data "last_name";
  JS.Normal (mkUser i u f l).

(** The body of the [try] block. *)
Definition verifyTelegramData_try (initData : string) : JS.completion VerifyResult :=
  let data := newURLSearchParams initData in
  let hash := URLSearchParams.get "hash" data in
  let data := URLSearchParams.delete "hash" data in
  calculated ← calculatedHash data;
  if strict_ne calculated hash then JS.Throw (JS.PlainError "Invalid hash")
  else
    u ← parse_user data;
    JS.Normal (mkResult (Some u)).

(** [async verifyTelegramData(initData)]: what the returned promise
    settles to.  The [catch] block logs the error and returns
    [{ user: null }]. *)
Definition verifyTelegramData (initData : string) : JS.completion VerifyResult :=
  JS.try_catch (verifyTelegramData_try initData)
    (fun error => JS.Normal (mkResult None)).


(** What correctly signed init data gives, by its [user] parameter:
    without one (or with an empty one) a user whose fields are all
    [null]; with one that is the JSON text of an object, the user read
    from it; with the JSON text of another value but [null], a user whose
    fields are all [undefined]; otherwise [null]. *)
Definition signed_user (user_text : option string) : option TelegramUser :=
  match user_text with
  | None | Some EmptyString => Some (mkUser JS.Null JS.Null JS.Null JS.Null)
  | Some text =>
      match JSON_parse text with
      | None | Some JS.Null | Some JS.Undefined => None
      | Some (JS.Object props) =>
          Some (mkUser (JS.lookup_prop "id" props) (JS.lookup_prop "username" props)
                  (JS.lookup_prop "first_name" props) (JS.lookup_prop "last_name" props))
      | Some _ => Some (mkUser JS.Undefined JS.Undefined JS.Undefined JS.Undefined)
      end
  end.

End Service.

End TelegramBotService.

(** ** The stores and the handler monad *)

Module Store.

(** A row of the Supabase table [users]. *)
Record UserRow : Type := mkRow {
  row_id : Z;
  telegram_id : JS.value;
  row_username : JS.value;
  row_first_name : JS.value;
  row_last_name : JS.value;
  balance : Z;
  row_level : string;
  level_points : Z
}.

Record Achievement : Type := mkAchievement {
  icon : string;
  achievement_name : string;
  description : string
}.

(** A [UserLevel] document of the MongoDB collection. *)
Record UserLevel : Type := mkUserLevel {
  userId : string;
  level : Z;
  experience : Z;
  experienceToNextLevel : Z;
  streak : Z;
  lastActive : Z;
  achievements : list Achievement
}.

(** The persistent state: the [users] table with its next serial id, and
    the [UserLevel] collection. *)
Record t : Type := mkStore {
  users : list UserRow;
  next_user_id : Z;
  userLevels : list UserLevel
}.

End Store.

Module Handler.

Import Store.

(** Calls made to [telegramService], in order. *)
Inductive Call : Type :=
| HandleLevelUp (userId : string) (level : Z)
| SyncUserProgress (userId : string).

Record state : Type := mkState { store : Store.t; calls : list Call }.

(** A handler step: it may change the state, and completes or throws. *)
Definition M (A : Type) : Type := state -> JS.completion A * state.

Definition ret {A} (a : A) : M A := fun s => (JS.Normal a, s).
Definition throw {A} (e : JS.Error) : M A := fun s => (JS.Throw e, s).

Definition bind {A B} (m : M A) (k : A -> M B) : M B :=
  fun s =>
    match m s with
    | (JS.Normal a, s') => k a s'
    | (JS.Throw e, s') => (JS.Throw e, s')
    end.

(** [try { body } catch (error) { handler }]: the effects of the body up
    to the throw stay. *)
Definition try_catch {A} (body : M A) (handler : JS.Error -> M A) : M A :=
  fun s =>
    match body s with
    | (JS.Normal a, s') => (JS.Normal a, s')
    | (JS.Throw e, s') => handler e s'
    end.

(** A computation that does not touch the state. *)
Definition pure {A} (c : JS.completion A) : M A := fun s => (c, s).

(** An operation of the database client or of a document. *)
Definition on_store {A} (op : Store.t -> JS.completion A * Store.t) : M A :=
  fun s => let '(r, st) := op (store s) in (r, mkState st (calls s)).

(** A call to [telegramService]: recorded, then run. *)
Definition call {A} (c : Call) (op : Store.t -> JS.completion A * Store.t) : M A :=
  fun s =>
    let '(r, st) := op (store s) in (r, mkState st (calls s ++ [c])).

(** An HTTP response: status and JSON body. *)
Inductive body : Type :=
| JsonError (error : string)
| JsonMessage (message : string)
| JsonFailure (message : string) (error : string)
| JsonUserLevel (doc : UserLevel)
| JsonAchievements (unlocked : list Achievement).

Record Response : Type := mkResponse { status : Z; json : body }.

End Handler.

#[global] Instance handler_bind : MBind Handler.M := fun A B k m => Handler.bind m k.
#[global] Instance handler_ret : MRet Handler.M := @Handler.ret.

(** ** src/index.js: the telegramAuth middleware *)

Module Index.

Import Store Handler.

(** The error object of a Supabase response. *)
Record PostgrestError : Type := mkPgError { code : string; pg_message : string }.

(** A Supabase response [{ data, error }]. *)
Record Result (A : Type) : Type := mkResult { data : option A; error : option PostgrestError }.
Arguments mkResult {A} data error.
Arguments data {A} r.
Arguments error {A} r.

(** What [.single()] reports when the rows selected are not exactly one. *)
Definition no_single_row : PostgrestError :=
  mkPgError "PGRST116" "JSON object requested, multiple (or no) rows returned".

Definition thrown (e : PostgrestError) : JS.Error := JS.mkError "PostgrestError" (pg_message e).

(** Equality of two stored values. *)
Fixpoint value_eqb (a b : JS.value) : bool :=
  match a, b with
  | JS.Undefined, JS.Undefined => true
  | JS.Null, JS.Null => true
  | JS.Bool x, JS.Bool y => Bool.eqb x y
  | JS.Number m e, JS.Number m' e' => (m =? m') && (e =? e')
  | JS.Str s, JS.Str s' => String.eqb s s'
  | JS.Array xs, JS.Array ys =>
      (fix all2 (xs ys : list JS.value) : bool :=
         match xs, ys with
         | [], [] => true
         | x :: xs', y :: ys' => value_eqb x y && all2 xs' ys'
         | _, _ => false
         end) xs ys
  | JS.Object ps, JS.Object qs =>
      (fix all2 (ps qs : list (string * JS.value)) : bool :=
         match ps, qs with
         | [], [] => true
         | (k, v) :: ps', (k', v') :: qs' => String.eqb k k' && value_eqb v v' && all2 ps' qs'
         | _, _ => false
         end) ps qs
  | _, _ => false
  end.

(** The filter [.eq('telegram_id', value)] on one row: a filter for
    [null] or [undefined] selects nothing. *)
Definition eq_telegram_id (filter : JS.value) (row : UserRow) : bool :=
  match filter with
  | JS.Undefined | JS.Null => false
  | _ => value_eqb (telegram_id row) filter
  end.

(** A field of the inserted object as the column stores it: a field that
    is [undefined] is left out of the request and the column is null. *)
Definition to_column (v : JS.value) : JS.value :=
  match v with
  | JS.Undefined => JS.Null
  | _ => v
  end.

(** What the middleware does with the request: it answers, or it calls
    [next()] with [req.user = { id, telegramId }] and [req.token]. *)
Inductive outcome : Type :=
| Responded (r : Response)
| Next (userId : Z) (telegramId : JS.value) (token : string).

Definition invalid_telegram_data : outcome :=
  Responded (mkResponse 401 (JsonError "Invalid Telegram data")).
Definition authentication_failed : outcome :=
  Responded (mkResponse 401 (JsonError "Authentication failed")).

Section TelegramAuth.

(** The runtime of [TelegramBotService], as above. *)
Variable newURLSearchParams : string -> URLSearchParams.t.
Variable localeCompare : string -> string -> Z.
Variable hmac_sha256 : list Z -> list Z -> list Z.
Variable JSON_parse : string -> option JS.value.
Variable TELEGRAM_BOT_TOKEN : option string.

(** The failure, if any, that the database reports for the select and
    for the insert of this request, and [jwt.sign] with the process's
    [JWT_SECRET] (it throws without one). *)
Variable select_failure : option PostgrestError.
Variable insert_failure : option PostgrestError.
Variable jwt_sign : Z -> JS.value -> JS.completion string.

(** [supabase.from('users').select('*').eq('telegram_id', value).single()] *)
Definition select_single (value : JS.value) (st : Store.t)
  : JS.completion (Result UserRow) * Store.t :=
  match select_failure with
  | Some e => (JS.Normal (mkResult None (Some e)), st)
  | None =>
      match List.filter (eq_telegram_id value) (users st) with
      | [row] => (JS.Normal (mkResult (Some row) None), st)
      | _ => (JS.Normal (mkResult None (Some no_single_row)), st)
      end
  end.

(** The row that the insert of [telegramAuth] asks for:
    [{ telegram_id: user.id, username: user.username,
       first_name: user.first_name, last_name: user.last_name,
       balance: 0, level: 'Alpha Pup', level_points: 0 }],
    with the id that the table gives it. *)
Definition new_user_row (serial : Z) (user : TelegramBotService.TelegramUser) : UserRow :=
  mkRow serial
    (to_column (TelegramBotService.id user))
    (to_column (TelegramBotService.username user))
    (to_column (TelegramBotService.first_name user))
    (to_column (TelegramBotService.last_name user))
    0 "Alpha Pup" 0.

(** [supabase.from('users').insert([row]).select().single()] *)
Definition insert_single (user : TelegramBotService.TelegramUser) (st : Store.t)
  : JS.completion (Result UserRow) * Store.t :=
  match insert_failure with
  | Some e => (JS.Normal (mkResult None (Some e)), st)
  | None =>
      let row := new_user_row (next_user_id st) user in
      (JS.Normal (mkResult (Some row) None),
       mkStore (users st ++ [row]) (next_user_id st + 1) (userLevels st))
  end.

(** The "get or create user" part: the id of the user's row. *)
Definition get_or_create_user (user : TelegramBotService.TelegramUser) : M Z :=
  selected ← on_store (select_single (TelegramBotService.id user));
  _ ← match error selected with
      | Some userError =>
          if negb (String.eqb (code userError) "PGRST116")
          then throw (thrown userError) else ret tt
      | None => ret tt
      end;
  match data selected with
  | None =>
      created ← on_store (insert_single user);
      match error created with
      | Some createError => throw (thrown createError)
      | None =>
          match data created with
          | Some newUser => ret (row_id newUser)
          | None => throw (JS.TypeError "Cannot read properties of null (reading 'id')")
          end
      end
  | Some existingUser => ret (row_id existingUser)
  end.

(** The body of the [try] block; [initData] is the request's
    [x-telegram-init-data] header, if it has one. *)
Definition telegramAuth_try (initData : option string) : M outcome :=
  if negb (JS.truthy initData) then
    ret (Responded (mkResponse 401 (JsonError "No Telegram data provided")))
  else
    verified ← pure (TelegramBotService.verifyTelegramData
                       newURLSearchParams localeCompare hmac_sha256 JSON_parse
                       TELEGRAM_BOT_TOKEN (default EmptyString initData));
    match TelegramBotService.user verified with
    | None => ret invalid_telegram_data
    | Some user =>
        userId ← get_or_create_user user;
        token ← pure (jwt_sign userId (TelegramBotService.id user));
        ret (Next userId (TelegramBotService.id user) token)
    end.

(** [telegramAuth(req, res, next)] *)
Definition telegramAuth (initData : option string) : M outcome :=
  try_catch (telegramAuth_try initData) (fun error => ret authentication_failed).

(** The store after the insert of a row for [user]. *)
Definition with_new_user (user : TelegramBotService.TelegramUser) (s : state) : state :=
  mkState
    (mkStore (users (store s) ++ [new_user_row (next_user_id (store s)) user])
       (next_user_id (store s) + 1) (userLevels (store s)))
    (calls s).

(** The select finds no row: the database reports nothing else than that. *)
Definition select_finds_none (user : TelegramBotService.TelegramUser) (s : state) : Prop :=
  (select_failure = None
   /\ List.filter (eq_telegram_id (TelegramBotService.id user)) (users (store s)) = [])
  \/ (exists e, select_failure = Some e /\ code e = "PGRST116"%string).

End TelegramAuth.

End Index.

(** ** routes/progress.js *)

Module Progress.

Import Store Handler.

Section Routes.

(** The failure, if any, of the collection for the query and for the
    save of this request. *)
Variable findOne_failure : option JS.Error.
Variable save_failure : option JS.Error.

(** The schema's defaults for a new document. *)
Variable UserLevel_defaults : UserLevel.

(** The document methods and the Telegram service, whose code is not
    part of the sources.  A method gets the document and gives back the
    document as it has changed it. *)
Variable addExperience : JS.value -> UserLevel -> Store.t -> JS.completion UserLevel * Store.t.
Variable updateStreak : UserLevel -> Store.t -> JS.completion UserLevel * Store.t.
Variable handleLevelUp : string -> Z -> Store.t -> JS.completion unit * Store.t.
Variable syncUserProgress : string -> Store.t -> JS.completion unit * Store.t.

(** [UserLevel.findOne({ userId })] *)
Definition findOne (uid : string) (st : Store.t)
  : JS.completion (option UserLevel) * Store.t :=
  match findOne_failure with
  | Some e => (JS.Throw e, st)
  | None => (JS.Normal (List.find (fun doc => String.eqb (userId doc) uid) (userLevels st)), st)
  end.

(** [new UserLevel({ userId })] *)
Definition new_UserLevel (uid : string) : UserLevel :=
  mkUserLevel uid
    (level UserLevel_defaults) (experience UserLevel_defaults)
    (experienceToNextLevel UserLevel_defaults) (streak UserLevel_defaults)
    (lastActive UserLevel_defaults) (achievements UserLevel_defaults).

(** [doc.save()] for a new document: it is inserted in the collection. *)
Definition save (doc : UserLevel) (st : Store.t) : JS.completion unit * Store.t :=
  match save_failure with
  | Some e => (JS.Throw e, st)
  | None => (JS.Normal tt, mkStore (users st) (next_user_id st) (userLevels st ++ [doc]))
  end.

(** [res.json(body)] *)
Definition ok (b : body) : Response := mkResponse 200 b.

(** [res.status(500).json({ message, error: error.message })] *)
Definition failure (message : string) (e : JS.Error) : Response :=
  mkResponse 500 (JsonFailure message (JS.message e)).

(** [router.get('/progress', ...)] *)
Definition get_progress_try (uid : string) : M Response :=
  found ← on_store (findOne uid);
  userLevel ← match found with
              | Some doc => ret doc
              | None =>
                  let doc := new_UserLevel uid in
                  _ ← on_store (save doc);
                  ret doc
              end;
  ret (ok (JsonUserLevel userLevel)).

Definition get_progress (uid : string) : M Response :=
  try_catch (get_progress_try uid)
    (fun error => ret (failure "Error fetching progress" error)).

(** The document that [POST /experience] works on. *)
Definition found_or_new (uid : string) (found : option UserLevel) : UserLevel :=
  match found with
  | Some doc => doc
  | None => new_UserLevel uid
  end.

(** [router.post('/experience', ...)]; [req_body] is [req.body]. *)
Definition post_experience_try (uid : string) (req_body : JS.value) : M Response :=
  amount ← pure (JS.get_property req_body "amount");
  found ← on_store (findOne uid);
  let userLevel := found_or_new uid found in
  let oldLevel := level userLevel in
  userLevel ← on_store (addExperience amount userLevel);
  userLevel ← on_store (updateStreak userLevel);
  _ ← (if level userLevel >? oldLevel
       then call (HandleLevelUp uid (level userLevel)) (handleLevelUp uid (level userLevel))
       else ret tt);
  ret (ok (JsonUserLevel userLevel)).

Definition post_experience (uid : string) (req_body : JS.value) : M Response :=
  try_catch (post_experience_try uid req_body)
    (fun error => ret (failure "Error updating experience" error)).

(** [router.post('/sync-telegram', ...)] *)
Definition post_sync_telegram_try (uid : string) : M Response :=
  _ ← call (SyncUserProgress uid) (syncUserProgress uid);
  ret (ok (JsonMessage "Progress synced with Telegram")).

Definition post_sync_telegram (uid : string) : M Response :=
  try_catch (post_sync_telegram_try uid)
    (fun error => ret (failure "Error syncing progress" error)).

(** [router.get('/achievements', ...)] *)
Definition get_achievements_try (uid : string) : M Response :=
  found ← on_store (findOne uid);
  match found with
  | None => ret (mkResponse 404 (JsonMessage "User progress not found"))
  | Some userLevel => ret (ok (JsonAchievements (achievements userLevel)))
  end.

Definition get_achievements (uid : string) : M Response :=
  try_catch (get_achievements_try uid)
    (fun error => ret (failure "Error fetching achievements" error)).

(** The handler answers what its [try] block answers, and answers an
    error thrown there with status 500 and the given message. *)
Definition catches (message : string) (body_ handler : M Response) (s : state) : Prop :=
  match body_ s with
  | (JS.Normal r, s') => handler s = (JS.Normal r, s')
  | (JS.Throw e, s') =>
      handler s = (JS.Normal (mkResponse 500 (JsonFailure message (JS.message e))), s')
  end.

(** The calls that a request adds to those made before. *)
Definition calls_added (before after : state) (added : list Call) : Prop :=
  calls after = calls before ++ added.

End Routes.

End Progress.

(** ** JavaScript numbers *)

Module JSNumber.

(** A number is finite, NaN or an infinity.  A finite number is held as
    the rational it is. *)
Inductive t : Type :=
| Finite (q : Q)
| NaN
| Infinity (negative : bool).

(** Rounding to binary64: the nearest number with a 53-bit significand,
    ties to even.  The exponent range is left out (no overflow to an
    infinity, no subnormal numbers): the quotients and products of the
    array lengths computed here are far inside it. *)
Definition round (q : Q) : Q :=
  let n := Z.abs (Qnum q) in
  let d := Z.pos (Qden q) in
  if n =? 0 then 0%Q
  else
    let e0 := Z.log2 n - Z.log2 d - 52 in
    let scaled (e : Z) : Z * Z :=
      (n * 2 ^ Z.max 0 (- e), d * 2 ^ Z.max 0 e) in
    let e := if fst (scaled e0) / snd (scaled e0) <? 2 ^ 52 then e0 - 1 else e0 in
    let '(num, den) := scaled e in
    let m := num / den in
    let r := num mod den in
    let m := if (den <? 2 * r) || ((den =? 2 * r) && Z.odd m) then m + 1 else m in
    let m := if Qnum q <? 0 then - m else m in
    Qred (Qmake (m * 2 ^ Z.max 0 e) (Z.to_pos (2 ^ Z.max 0 (- e)))).

(** [array.length], as a number: an integer below 2^32, held exactly. *)
Definition of_length {A} (l : list A) : t := Finite (inject_Z (Z.of_nat (length l))).

Definition is_negative (q : Q) : bool := Qnum q <? 0.
Definition is_zero (q : Q) : bool := Qnum q =? 0.

(** [a / b]: a division by zero gives NaN or an infinity. *)
Definition div (a b : t) : t :=
  match a, b with
  | NaN, _ | _, NaN => NaN
  | Infinity _, Infinity _ => NaN
  | Infinity s, Finite y => Infinity (xorb s (is_negative y))
  | Finite _, Infinity _ => Finite 0
  | Finite x, Finite y =>
      if is_zero y then (if is_zero x then NaN else Infinity (is_negative x))
      else Finite (round (x / y))
  end.

(** [a * b] *)
Definition mul (a b : t) : t :=
  match a, b with
  | NaN, _ | _, NaN => NaN
  | Infinity s, Infinity s' => Infinity (xorb s s')
  | Infinity s, Finite y | Finite y, Infinity s =>
      if is_zero y then NaN else Infinity (xorb s (is_negative y))
  | Finite x, Finite y => Finite (round (x * y))
  end.

Definition is_finite (a : t) : bool :=
  match a with
  | Finite _ => true
  | _ => false
  end.

End JSNumber.

(** ** services/adService.js: getAdMetrics *)

Module AdService.

(** A MongoDB ObjectId, held as the hexadecimal string that [toString()]
    returns. *)
Record ObjectId : Type := mkObjectId { toString : string }.

#[global] Instance ObjectId_eq_dec : EqDecision ObjectId.
Proof. solve_decision. Defined.

#[global] Instance toString_inj : Inj (=) (=) toString.
Proof. intros [a] [b]; simpl; congruence. Qed.

(** An entry of an ad's view or click log. *)
Record LogEntry : Type := mkEntry { userId : ObjectId; timestamp : Z }.

(** The fields of an [Ad] document that the metrics read. *)
Record Ad : Type := mkAd { views : list LogEntry; clicks : list LogEntry }.

Record Metrics : Type := mkMetrics {
  totalViews : nat;
  totalClicks : nat;
  uniqueViewers : nat;
  uniqueClickers : nat;
  ctr : JSNumber.t
}.

(** [new Set(values).size] *)
Definition Set_size (values : list string) : nat :=
  size (list_to_set values : gset string).

(** The number of different users in a log. *)
Definition distinct_users (log : list LogEntry) : nat :=
  length (remove_dups (List.map userId log)).

Section Service.

(** [Ad.findById(adId)]: the document, [null], or a database error. *)
Variable findById : string -> JS.completion (option Ad).

(** [async getAdMetrics(adId)] *)
Definition getAdMetrics (adId : string) : JS.completion Metrics :=
  found ← findById adId;
  match found with
  | None => JS.Throw (JS.PlainError "Ad not found")
  | Some ad =>
      JS.Normal
        (mkMetrics
           (length (views ad))
           (length (clicks ad))
           (Set_size (List.map (fun v => toString (userId v)) (views ad)))
           (Set_size (List.map (fun c => toString (userId c)) (clicks ad)))
           (if (0 <? length (views ad))%nat
            then JSNumber.mul
                   (JSNumber.div (JSNumber.of_length (clicks ad)) (JSNumber.of_length (views ad)))
                   (JSNumber.Finite 100)
            else JSNumber.Finite 0))
  end.

End Service.

End AdService.

(** ** models/UserLevel.js: updateStreak *)

Module UserLevelModel.

Import Store Handler.

Section Streak.

(** The day, as a day number, on which a time falls for the server, and
    the time of the request. *)
Variable calendarDay : Z -> Z.
Variable now : Z.

(** The count from which a streak starts again. *)
Variable restart : Z.

(** Modelled from the spec: the method [updateStreak] of the [UserLevel]
    model, whose file (models/UserLevel.js) is not among the sources.
    The spec has "streak increment/reset on consecutive vs. skipped days"
    and "Streak: count of consecutive active days": activity on the day
    after the last active day adds one to the streak, activity after one
    or more skipped days starts the streak again, and activity on the
    last active day itself leaves the streak as it is.  The time of the
    activity becomes the last active time. *)
Definition updateStreak (doc : UserLevel) : UserLevel :=
  let days := calendarDay now - calendarDay (lastActive doc) in
  mkUserLevel (userId doc) (level doc) (experience doc) (experienceToNextLevel doc)
    (if days =? 1 then streak doc + 1
     else if 1 <? days then restart
     else streak doc)
    now (achievements doc).

(** The method as the route calls it on a document. *)
Definition updateStreak_method (doc : UserLevel) (st : Store.t)
  : JS.completion UserLevel * Store.t :=
  (JS.Normal (updateStreak doc), st).

End Streak.

End UserLevelModel.

(** ** The runtime used to run the service *)

Module Node.

(** Comparison of two strings by their bytes.  [String.prototype.localeCompare]
    orders strings by the collation of the host's locale; on names made
    of lower-case ASCII letters and underscores, as those of Telegram's
    init data, that order is the one given here. *)
Fixpoint compare_bytes (a b : list Z) : Z :=
  match a, b with
  | [], [] => 0
  | [], _ :: _ => -1
  | _ :: _, [] => 1
  | x :: a', y :: b' =>
      if x <? y then -1 else if y <? x then 1 else compare_bytes a' b'
  end.

Definition localeCompare (a b : string) : Z :=
  compare_bytes (Bytes.of_string a) (Bytes.of_string b).

Definition verifyTelegramData (token : option string) (initData : string)
  : JS.completion TelegramBotService.VerifyResult :=
  TelegramBotService.verifyTelegramData
    URLSearchParams.parse localeCompare Crypto.hmac_sha256 JSON.parse token initData.

Definition calculatedHash (token : option string) (data : URLSearchParams.t)
  : JS.completion string :=
  TelegramBotService.calculatedHash localeCompare Crypto.hmac_sha256 token data.

(** A bot token, in the format BotFather issues them. *)
Definition example_token : string := "123456789:AAExampleBotTokenForProofs".

(** Init data signed with [example_token].  Its data-check string has
    the lines [auth_date=1700000000], [query_id=AAE] and [user=] followed
    by the JSON text of an object with the id 42, the username wolf and
    the first_name Alpha. *)
Definition signed_init_data : string :=
  "query_id=AAE&user=%7B%22id%22%3A42%2C%22username%22%3A%22wolf%22%2C%22first_name%22%3A%22Alpha%22%7D&auth_date=1700000000&hash=d30c2c9d0e183c60ae5c8a47c88390ef6cf25e240f3ff27b3ddbb3f4de62b7de".

(** The same with another [auth_date]. *)
Definition tampered_init_data : string :=
  "query_id=AAE&user=%7B%22id%22%3A42%2C%22username%22%3A%22wolf%22%2C%22first_name%22%3A%22Alpha%22%7D&auth_date=1700000001&hash=d30c2c9d0e183c60ae5c8a47c88390ef6cf25e240f3ff27b3ddbb3f4de62b7de".

(** Init data signed with [example_token] whose [user] parameter is the
    single character [{]: its data-check string is [auth_date=1700000000]
    and [user={]. *)
Definition signed_init_data_bad_user : string :=
  "auth_date=1700000000&user=%7B&hash=a935d296e879c204f544f654536b4dd0c6c40db24626e61f18875709847b9bf3".

(** Init data signed with [example_token] that has no [user] parameter:
    its data-check string is [auth_date=1700000000]. *)
Definition signed_init_data_no_user : string :=
  "auth_date=1700000000&hash=1e558598d457df97e7ac39c32146d8c174c428e439d0d7bd7d9e0e0c134c179c".

(** The middleware on this runtime. *)
Definition telegramAuth (token : option string)
    (select_failure insert_failure : option Index.PostgrestError)
    (jwt_sign : Z -> JS.value -> JS.completion string) (initData : option string)
  : Handler.M Index.outcome :=
  Index.telegramAuth URLSearchParams.parse localeCompare Crypto.hmac_sha256 JSON.parse
    token select_failure insert_failure jwt_sign initData.

End Node.

(** ** Instances of the missing methods, for running the routes *)

Module Sample.

Import Store Handler.

(** Defaults of a new document: level 1, 100 points to the next level. *)
Definition defaults : UserLevel := mkUserLevel "" 1 0 100 0 0 [].

(** An [addExperience] for the runs below: it adds a whole amount, and
    moves to the next level when the points to the next level are
    reached.  The method's own code (models/UserLevel.js) is not among
    the sources; the properties of the route are proved for every such
    method, and this one only serves to run it. *)
Definition addExperience (amount : JS.value) (doc : UserLevel) (st : Store.t)
  : JS.completion UserLevel * Store.t :=
  match amount with
  | JS.Number gained 0 =>
      let total := experience doc + gained in
      if experienceToNextLevel doc <=? total then
        (JS.Normal (mkUserLevel (userId doc) (level doc + 1)
                      (total - experienceToNextLevel doc) (experienceToNextLevel doc)
                      (streak doc) (lastActive doc) (achievements doc)), st)
      else
        (JS.Normal (mkUserLevel (userId doc) (level doc) total (experienceToNextLevel doc)
                      (streak doc) (lastActive doc) (achievements doc)), st)
  | _ => (JS.Throw (JS.TypeError "amount must be a number"), st)
  end.

(** A [handleLevelUp] (services/telegramService.js, not among the
    sources either) that delivers. *)
Definition handleLevelUp (uid : string) (newLevel : Z) (st : Store.t)
  : JS.completion unit * Store.t :=
  (JS.Normal tt, st).

(** Days of 86400000 milliseconds, counted from the epoch. *)
Definition calendarDay (time : Z) : Z := time / 86400000.

(** 2023-11-14 22:13:20 UTC, and the day before at noon. *)
Definition now : Z := 1700000000000.
Definition yesterday_noon : Z := 1699876800000.

Definition updateStreak : UserLevel -> Store.t -> JS.completion UserLevel * Store.t :=
  UserLevelModel.updateStreak_method calendarDay now 1.

(** A user at level 1 with 40 points, a streak of 3, active the day before. *)
Definition wolf : UserLevel := mkUserLevel "wolf" 1 40 100 3 yesterday_noon [].

Definition state0 : state := mkState (mkStore [] 1 [wolf]) [].

(** The body [{ "amount": n }]. *)
Definition amount_body (n : Z) : JS.value := JS.Object [("amount"%string, JS.Number n 0)].

Definition jwt_sign (userId : Z) (telegramId : JS.value) : JS.completion string :=
  JS.Normal "header.payload.signature"%string.

(** An ad seen three times by two users and clicked once. *)
Definition ad : AdService.Ad :=
  AdService.mkAd
    [AdService.mkEntry (AdService.mkObjectId "65a1") 1;
     AdService.mkEntry (AdService.mkObjectId "65a2") 2;
     AdService.mkEntry (AdService.mkObjectId "65a1") 3]
    [AdService.mkEntry (AdService.mkObjectId "65a2") 4].

Definition findById (adId : string) : JS.completion (option AdService.Ad) :=
  if String.eqb adId "ad1" then JS.Normal (Some ad) else JS.Normal None.

End Sample.

(** ** Hexadecimal digests *)

Module Hex.

(** A lower-case hexadecimal digit: [0-9a-f]. *)
Definition is_lower_hex (c : ascii) : bool :=
  let n := Bytes.of_ascii c in
  ((48 <=? n) && (n <=? 57)) || ((97 <=? n) && (n <=? 102)).

Fixpoint all_lower_hex (s : string) : bool :=
  match s with
  | EmptyString => true
  | String c rest => is_lower_hex c && all_lower_hex rest
  end.

End Hex.

(** ** More init data for the runs *)

Module Inputs.

(** [Node.signed_init_data] with its hash in upper case. *)
Definition upper_case_hash : string :=
  "query_id=AAE&user=%7B%22id%22%3A42%2C%22username%22%3A%22wolf%22%2C%22first_name%22%3A%22Alpha%22%7D&auth_date=1700000000&hash=D30C2C9D0E183C60AE5C8A47C88390EF6CF25E240F3FF27B3DDBB3F4DE62B7DE".

(** [Node.signed_init_data] followed by a second [hash] parameter. *)
Definition second_hash : string :=
  "query_id=AAE&user=%7B%22id%22%3A42%2C%22username%22%3A%22wolf%22%2C%22first_name%22%3A%22Alpha%22%7D&auth_date=1700000000&hash=d30c2c9d0e183c60ae5c8a47c88390ef6cf25e240f3ff27b3ddbb3f4de62b7de&hash=00".

(** The parameters of [Node.signed_init_data], last to first. *)
Definition reversed : string :=
  "hash=d30c2c9d0e183c60ae5c8a47c88390ef6cf25e240f3ff27b3ddbb3f4de62b7de&auth_date=1700000000&user=%7B%22id%22%3A42%2C%22username%22%3A%22wolf%22%2C%22first_name%22%3A%22Alpha%22%7D&query_id=AAE".

End Inputs.

(** ** services/adService.js: the ads and the users it works on *)

(** [a + b] on numbers, for [+=]. *)
Module NumberOps.

Definition add (a b : JSNumber.t) : JSNumber.t :=
  match a, b with
  | JSNumber.NaN, _ | _, JSNumber.NaN => JSNumber.NaN
  | JSNumber.Infinity s, JSNumber.Infinity s' =>
      if Bool.eqb s s' then JSNumber.Infinity s else JSNumber.NaN
  | JSNumber.Infinity s, JSNumber.Finite _ | JSNumber.Finite _, JSNumber.Infinity s =>
      JSNumber.Infinity s
  | JSNumber.Finite x, JSNumber.Finite y => JSNumber.Finite (JSNumber.round (x + y))
  end.

End NumberOps.

Module Ads.

(** The fields of an [Ad] document that the service reads or writes.
    The schema (models/Ad.js) is not among the sources: [status], [type]
    and [rewardType] are held as strings, [targetLevel] and
    [rewardAmount] as numbers, the two dates as milliseconds, as the
    comparisons and the additions of the service take them.  [log] holds
    the [views] and the [clicks]. *)
Record AdDoc : Type := mkAdDoc {
  status : string;
  type : string;
  targetLevel : Z;
  startDate : Z;
  endDate : Z;
  rewardType : string;
  rewardAmount : JSNumber.t;
  log : AdService.Ad
}.

(** The fields of a [User] document that the service reads or writes. *)
Record User : Type := mkUser {
  level : Z;
  points : JSNumber.t;
  premiumDays : JSNumber.t
}.

(** The two collections, each document under its [_id]. *)
Record DB : Type := mkDB { ads : gmap string AdDoc; users : gmap string User }.

(** An asynchronous method of the service, run alone: it may change the
    collections, and resolves or rejects. *)
Definition M (A : Type) : Type := DB -> JS.completion A * DB.

Definition ret {A} (a : A) : M A := fun db => (JS.Normal a, db).
Definition throw {A} (e : JS.Error) : M A := fun db => (JS.Throw e, db).
Definition bind {A B} (m : M A) (k : A -> M B) : M B :=
  fun db =>
    match m db with
    | (JS.Normal a, db') => k a db'
    | (JS.Throw e, db') => (JS.Throw e, db')
    end.

End Ads.

#[global] Instance ads_bind : MBind Ads.M := fun A B k m => Ads.bind m k.
#[global] Instance ads_ret : MRet Ads.M := @Ads.ret.

Module AdServiceMethods.

Import Ads.

(** [$sample: { size: 1 }]: one of the documents, any of them, when there
    is one; [choice] stands for the draw. *)
Definition sample {A} (choice : nat) (docs : list A) : list A :=
  match nth_error docs (choice mod length docs) with
  | Some doc => [doc]
  | None => []
  end.

Section Service.

(** The failure, if any, that the database reports for each operation of
    the call. *)
Variable find_ad_failure : option JS.Error.
Variable find_user_failure : option JS.Error.
Variable aggregate_failure : option JS.Error.
Variable save_ad_failure : option JS.Error.
Variable save_user_failure : option JS.Error.

(** When both saves of [Promise.all] fail: whether it is the ad's that
    rejects first. *)
Variable ad_rejects_first : bool.

(** The values of [new Date()]: the two of [getAdForUser]'s pipeline, in
    the order they are taken, and the one of a log entry. *)
Variable now_start : Z.
Variable now_end : Z.
Variable now : Z.

(** The draw of [$sample]. *)
Variable choice : nat.

(** [Ad.findById(adId)] *)
Definition Ad_findById (adId : string) : M (option AdDoc) :=
  fun db =>
    match find_ad_failure with
    | Some e => (JS.Throw e, db)
    | None => (JS.Normal (ads db !! adId), db)
    end.

(** [User.findById(userId)] *)
Definition User_findById (userId : AdService.ObjectId) : M (option User) :=
  fun db =>
    match find_user_failure with
    | Some e => (JS.Throw e, db)
    | None => (JS.Normal (users db !! AdService.toString userId), db)
    end.

(** [ad.save()] and [user.save()]: the document replaces the stored one. *)
Definition Ad_save (adId : string) (ad : AdDoc) : M unit :=
  fun db =>
    match save_ad_failure with
    | Some e => (JS.Throw e, db)
    | None => (JS.Normal tt, mkDB (<[adId := ad]> (ads db)) (users db))
    end.

Definition User_save (userId : AdService.ObjectId) (user : User) : M unit :=
  fun db =>
    match save_user_failure with
    | Some e => (JS.Throw e, db)
    | None =>
        (JS.Normal tt, mkDB (ads db) (<[AdService.toString userId := user]> (users db)))
    end.

(** The [$match] stage of [getAdForUser]. *)
Definition matches (adType : string) (user : User) (ad : AdDoc) : bool :=
  String.eqb (status ad) "active"
  && String.eqb (type ad) adType
  && (targetLevel ad <=? level user)
  && (startDate ad <=? now_start)
  && (now_end <=? endDate ad).

(** [Ad.aggregate([{ $match: ... }, { $sample: { size: 1 } }])] *)
Definition Ad_aggregate (adType : string) (user : User) : M (list (string * AdDoc)) :=
  fun db =>
    match aggregate_failure with
    | Some e => (JS.Throw e, db)
    | None =>
        (JS.Normal
           (sample choice
              (List.filter (fun doc => matches adType user (snd doc))
                 (map_to_list (ads db)))),
         db)
    end.

(** [async getAdForUser(userId, adType)]: the ad, with its [_id], or [null]. *)
Definition getAdForUser (userId : AdService.ObjectId) (adType : string)
  : M (option (string * AdDoc)) :=
  user ← User_findById userId;
  match user with
  | None => throw (JS.PlainError "User not found")
  | Some user =>
      ad ← Ad_aggregate adType user;
      ret (head ad)
  end.

(** [log.push({ userId, timestamp: new Date() })] *)
Definition push (userId : AdService.ObjectId) (entries : list AdService.LogEntry)
  : list AdService.LogEntry :=
  entries ++ [AdService.mkEntry userId now].

Definition with_log (ad : AdDoc) (log' : AdService.Ad) : AdDoc :=
  mkAdDoc (status ad) (type ad) (targetLevel ad) (startDate ad) (endDate ad)
    (rewardType ad) (rewardAmount ad) log'.

(** [async recordAdClick(adId, userId)] *)
Definition recordAdClick (adId : string) (userId : AdService.ObjectId) : M AdDoc :=
  found ← Ad_findById adId;
  match found with
  | None => throw (JS.PlainError "Ad not found")
  | Some ad =>
      let ad := with_log ad (AdService.mkAd (AdService.views (log ad))
                               (push userId (AdService.clicks (log ad)))) in
      _ ← Ad_save adId ad;
      ret ad
  end.

(** The reward of [processAdReward]:
    [if (ad.rewardType === 'points') user.points += ad.rewardAmount;
     else if (ad.rewardType === 'premium') user.premiumDays += ad.rewardAmount;] *)
Definition grant (ad : AdDoc) (user : User) : User :=
  if String.eqb (rewardType ad) "points" then
    mkUser (level user) (NumberOps.add (points user) (rewardAmount ad)) (premiumDays user)
  else if String.eqb (rewardType ad) "premium" then
    mkUser (level user) (points user) (NumberOps.add (premiumDays user) (rewardAmount ad))
  else user.

(** [Promise.all([ad.save(), user.save()])]: both saves are started, the
    ad's first, and each runs to its end; the whole rejects when one of
    them does, with the error of the one that rejects first. *)
Definition save_both (adId : string) (ad : AdDoc) (userId : AdService.ObjectId)
    (user : User) : M unit :=
  fun db =>
    let '(saved_ad, db1) := Ad_save adId ad db in
    let '(saved_user, db2) := User_save userId user db1 in
    match saved_ad, saved_user with
    | JS.Normal _, JS.Normal _ => (JS.Normal tt, db2)
    | JS.Throw e, JS.Normal _ | JS.Normal _, JS.Throw e => (JS.Throw e, db2)
    | JS.Throw e, JS.Throw e' => (JS.Throw (if ad_rejects_first then e else e'), db2)
    end.

(** [async processAdReward(adId, userId)] *)
Definition processAdReward (adId : string) (userId : AdService.ObjectId)
  : M (AdDoc * User) :=
  found ← Ad_findById adId;
  match found with
  | None => throw (JS.PlainError "Ad not found")
  | Some ad =>
      found ← User_findById userId;
      match found with
      | None => throw (JS.PlainError "User not found")
      | Some user =>
          let ad := with_log ad (AdService.mkAd (push userId (AdService.views (log ad)))
                                   (AdService.clicks (log ad))) in
          let user := grant ad user in
          _ ← save_both adId ad userId user;
          ret (ad, user)
      end
  end.

(** [async updateAdStatus(adId, status)] *)
Definition updateAdStatus (adId : string) (status' : string) : M AdDoc :=
  found ← Ad_findById adId;
  match found with
  | None => throw (JS.PlainError "Ad not found")
  | Some ad =>
      let ad := mkAdDoc status' (type ad) (targetLevel ad) (startDate ad) (endDate ad)
                  (rewardType ad) (rewardAmount ad) (log ad) in
      _ ← Ad_save adId ad;
      ret ad
  end.

(** [async getAdMetrics(adId)] on the stored ads. *)
Definition getAdMetrics (adId : string) (db : DB) : JS.completion AdService.Metrics :=
  AdService.getAdMetrics
    (fun id =>
       match fst (Ad_findById id db) with
       | JS.Normal found => JS.Normal (log <$> found)
       | JS.Throw e => JS.Throw e
       end) adId.

End Service.

End AdServiceMethods.

(** ** Ads and users for running the ad service *)

Module SampleAds.

Import Ads.

Definition alice : AdService.ObjectId := AdService.mkObjectId "65a1".
Definition carol : AdService.ObjectId := AdService.mkObjectId "65a3".

(** A video ad for every level, open from 2023-07-22 to 2024-03-09, that
    pays 50 points; it has the views and the clicks of [Sample.ad]. *)
Definition video : AdDoc :=
  mkAdDoc "active" "video" 1 1690000000000 1710000000000 "points"
    (JSNumber.Finite 50) Sample.ad.

(** A banner for level 5 and above, with a reward type that the service
    does not know, not seen yet. *)
Definition banner : AdDoc :=
  mkAdDoc "active" "banner" 5 1690000000000 1710000000000 "badge"
    (JSNumber.Finite 1) (AdService.mkAd [] []).

(** Alice, at level 3 with 10 points, and Carol, at level 1. *)
Definition db : DB :=
  mkDB
    (<["ad1" := video]> (<["ad2" := banner]> ∅))
    (<["65a1" := mkUser 3 (JSNumber.Finite 10) (JSNumber.Finite 0)]>
       (<["65a3" := mkUser 1 (JSNumber.Finite 0) (JSNumber.Finite 0)]> ∅)).

End SampleAds.

(** ** index.js: the error handling middleware *)

Module ErrorHandler.

(** Truthiness of a value. *)
Definition truthy (v : JS.value) : bool :=
  match v with
  | JS.Undefined | JS.Null => false
  | JS.Bool b => b
  | JS.Number mantissa _ => negb (mantissa =? 0)
  | JS.Str EmptyString => false
  | JS.Str (String _ _) => true
  | JS.Array _ | JS.Object _ => true
  end.

(** [v === 'text'] *)
Definition is_string (v : JS.value) (text : string) : bool :=
  match v with
  | JS.Str s => String.eqb s text
  | _ => false
  end.

(** [a || b] *)
Definition or_else (a b : JS.value) : JS.value := if truthy a then a else b.

(** What the handler passes to [res.status] and to [res.json]. *)
Record Response : Type := mkResponse { status : JS.value; json : list (string * JS.value) }.

Section Handler.

(** [process.env.NODE_ENV] *)
Variable NODE_ENV : option string.

Definition development : bool :=
  match NODE_ENV with
  | Some env => String.eqb env "development"
  | None => false
  end.

(** [errorHandler(err, req, res, next)].  An [Error] is held as the
    object of the properties it answers to ([name], [message], [stack],
    [status]).  The first step is the argument of [console.error]. *)
Definition errorHandler (err : JS.value) : JS.completion Response :=
  _ ← JS.get_property err "stack";
  name ← JS.get_property err "name";
  if is_string name "ValidationError" then
    message ← JS.get_property err "message";
    JS.Normal (mkResponse (JS.Number 400 0)
                 [("error", JS.Str "Validation Error"); ("details", message)])
  else if is_string name "UnauthorizedError" then
    JS.Normal (mkResponse (JS.Number 401 0)
                 [("error", JS.Str "Unauthorized");
                  ("message", JS.Str "Invalid token or no token provided")])
  else if is_string name "RateLimitExceeded" then
    JS.Normal (mkResponse (JS.Number 429 0)
                 [("error", JS.Str "Too Many Requests");
                  ("message", JS.Str "Rate limit exceeded. Please try again later.")])
  else
    status ← JS.get_property err "status";
    name ← JS.get_property err "name";
    message ← JS.get_property err "message";
    stack ← (if development then
               stack ← JS.get_property err "stack";
               JS.Normal [("stack"%string, stack)]
             else JS.Normal []);
    JS.Normal (mkResponse (or_else status (JS.Number 500 0))
                 ([("error"%string, or_else name (JS.Str "Internal Server Error"));
                   ("message"%string, or_else message (JS.Str "Something went wrong"))]
                  ++ stack)).

(** Whether the body has the key. *)
Definition has_key (key : string) (r : Response) : bool :=
  existsb (String.eqb key) (List.map fst (json r)).

End Handler.

End ErrorHandler.

(** * Properties *)

(** ** Known answers of the runtime *)

(** FIPS 180-4 examples and RFC 4231 test case 2. *)
Example sha256_abc :
  Bytes.to_hex (Crypto.sha256 (Bytes.of_string "abc"))
  = "ba7816bf8f01cfea414140de5dae2223b00361a396177a9cb410ff61f20015ad"%string.
Proof. vm_compute. reflexivity. Qed.

Example sha256_empty :
  Bytes.to_hex (Crypto.sha256 [])
  = "e3b0c44298fc1c149afbf4c8996fb92427ae41e4649b934ca495991b7852b855"%string.
Proof. vm_compute. reflexivity. Qed.

Example hmac_sha256_rfc4231_2 :
  Bytes.to_hex (Crypto.hmac_sha256 (Bytes.of_string "Jefe")
                  (Bytes.of_string "what do ya want for nothing?"))
  = "5bdcc146bf60754e6a042426089575c75a003f089d2739839dec58b964ec3843"%string.
Proof. vm_compute. reflexivity. Qed.

Example URLSearchParams_parse_example :
  URLSearchParams.parse "user=%7B%7D&a+b=1%zz&&hash=ab=cd&flag"
  = [("user", "{}"); ("a b", "1%zz"); ("hash", "ab=cd"); ("flag", "")]%string.
Proof. vm_compute. reflexivity. Qed.

Example URLSearchParams_ill_formed_utf8 :
  Bytes.of_string (URLSearchParams.decode_component (Bytes.of_string "%C3%28%E2%82%AC%FF"))
  = [239; 191; 189; 40; 226; 130; 172; 239; 191; 189].
Proof. vm_compute. reflexivity. Qed.

Example JSON_parse_user :
  option_map (fun u => (JS.get_property u "id", JS.get_property u "username",
                        JS.get_property u "last_name"))
    (match URLSearchParams.get "user"
             (URLSearchParams.parse
                "user=%7B%22id%22%3A42%2C%22username%22%3A%22wolf%22%2C%22id%22%3A7%7D") with
     | Some text => JSON.parse text
     | None => None
     end)
  = Some (JS.Normal (JS.Number 7 0), JS.Normal (JS.Str "wolf"), JS.Normal JS.Undefined).
Proof. vm_compute. reflexivity. Qed.

Example JSON_parse_rejects :
  List.map (fun s => JSON.parse (URLSearchParams.decode_component (Bytes.of_string s)))
    ["{"; "01"; "[1,]"; "%7B%22a%22%7D"; "nul"; ""; "1 2"; "%22%5Cx%22"; "-"; "1.e3"]%string
  = repeat None 10.
Proof. vm_compute. reflexivity. Qed.

Example JSON_parse_accepts :
  List.map (fun s => JSON.parse (URLSearchParams.decode_component (Bytes.of_string s)))
    [" null "; "-12.50e%2B3"; "[1, [true, false], {}]"; "%22a%5Cu00e9%5Cn%22"; "0"]%string
  = [Some JS.Null; Some (JS.Number (-1250) 1);
     Some (JS.Array [JS.Number 1 0; JS.Array [JS.Bool true; JS.Bool false]; JS.Object []]);
     Some (JS.Str (Bytes.to_string [97; 195; 169; 10])); Some (JS.Number 0 0)].
Proof. vm_compute. reflexivity. Qed.

(** ** URLSearchParams *)

Lemma get_delete_same (name : string) (data : URLSearchParams.t) :
  URLSearchParams.get name (URLSearchParams.delete name data) = None.
Proof.
  induction data as [|[k v] rest IH]; simpl; [reflexivity|].
  destruct (String.eqb k name) eqn:E; simpl; [exact IH|].
  now rewrite E.
Qed.

Lemma get_delete_other (name other : string) (data : URLSearchParams.t) :
  name <> other ->
  URLSearchParams.get name (URLSearchParams.delete other data) = URLSearchParams.get name data.
Proof.
  intros Hne. induction data as [|[k v] rest IH]; simpl; [reflexivity|].
  destruct (String.eqb k other) eqn:E; simpl.
  - apply String.eqb_eq in E. subst k.
    destruct (String.eqb other name) eqn:E'; [|exact IH].
    apply String.eqb_eq in E'. congruence.
  - now rewrite IH.
Qed.

(** ** Array.prototype.sort gives a sorted rearrangement *)

Lemma insert_Permutation {A} (compareFn : A -> A -> Z) (x : A) (l : list A) :
  Permutation (Array.insert compareFn x l) (x :: l).
Proof.
  induction l as [|y rest IH]; simpl.
  - reflexivity.
  - destruct (compareFn x y <=? 0).
    + reflexivity.
    + rewrite IH. apply perm_swap.
Qed.

Lemma sort_Permutation {A} (compareFn : A -> A -> Z) (l : list A) :
  Permutation (Array.sort compareFn l) l.
Proof.
  induction l as [|x rest IH]; simpl.
  - reflexivity.
  - rewrite insert_Permutation. now rewrite IH.
Qed.

Section Consistent.

Context {A : Type} (compareFn : A -> A -> Z).

(** A consistent comparator: of two elements one does not come after
    the other, and "does not come after" is transitive. *)
Hypothesis compare_total : forall a b, 0 < compareFn a b -> compareFn b a <= 0.
Hypothesis compare_trans :
  forall a b c, compareFn a b <= 0 -> compareFn b c <= 0 -> compareFn a c <= 0.

Lemma insert_StronglySorted (x : A) (l : list A) :
  StronglySorted (Array.not_after compareFn) l ->
  StronglySorted (Array.not_after compareFn) (Array.insert compareFn x l).
Proof.
  induction 1 as [|y rest Hsorted IH Hall]; simpl.
  - repeat constructor.
  - destruct (compareFn x y <=? 0) eqn:Hxy.
    + apply Z.leb_le in Hxy.
      constructor; [now constructor|].
      constructor; [exact Hxy|].
      eapply Forall_impl; [exact Hall|].
      intros z Hyz. exact (compare_trans _ _ _ Hxy Hyz).
    + apply Z.leb_gt in Hxy.
      constructor; [exact IH|].
      rewrite (insert_Permutation compareFn x rest).
      constructor; [apply compare_total; exact Hxy | exact Hall].
Qed.

Lemma sort_StronglySorted (l : list A) :
  StronglySorted (Array.not_after compareFn) (Array.sort compareFn l).
Proof.
  induction l as [|x rest IH]; simpl.
  - constructor.
  - now apply insert_StronglySorted.
Qed.

End Consistent.

(** ** verifyTelegramData *)

Section VerifyTelegramData.

Variable newURLSearchParams : string -> URLSearchParams.t.
Variable localeCompare : string -> string -> Z.
Variable hmac_sha256 : list Z -> list Z -> list Z.
Variable JSON_parse : string -> option JS.value.
Variable TELEGRAM_BOT_TOKEN : option string.

Local Abbreviation verifyTelegramData :=
  (TelegramBotService.verifyTelegramData
     newURLSearchParams localeCompare hmac_sha256 JSON_parse TELEGRAM_BOT_TOKEN).
Local Abbreviation verifyTelegramData_try :=
  (TelegramBotService.verifyTelegramData_try
     newURLSearchParams localeCompare hmac_sha256 JSON_parse TELEGRAM_BOT_TOKEN).
Local Abbreviation calculatedHash :=
  (TelegramBotService.calculatedHash localeCompare hmac_sha256 TELEGRAM_BOT_TOKEN).
Local Abbreviation dataCheckString := (TelegramBotService.dataCheckString localeCompare).
Local Abbreviation parse_user := (TelegramBotService.parse_user JSON_parse).
Local Abbreviation signed_user := (TelegramBotService.signed_user JSON_parse).
Local Abbreviation no_user := (JS.Normal (TelegramBotService.mkResult None)).

Lemma parse_user_signed (data : URLSearchParams.t) :
  parse_user data
  = match signed_user (URLSearchParams.get "user" data) with
    | Some u => JS.Normal u
    | None =>
        JS.Throw
          (match JSON_parse (default EmptyString (URLSearchParams.get "user" data)) with
           | None => JS.SyntaxError "Unexpected token in JSON"
           | Some _ => JS.TypeError "Cannot read properties of null (reading 'id')"
           end)
    end.
Proof.
  unfold TelegramBotService.parse_user, TelegramBotService.user_field,
    TelegramBotService.signed_user, TelegramBotService.JSON_parse_or_throw.
  destruct (URLSearchParams.get "user" data) as [[|c text]|]; simpl; try reflexivity.
  destruct (JSON_parse (String c text)) as [[]|]; reflexivity.
Qed.

Lemma verifyTelegramData_try_mismatch (initData : string) :
  let data := newURLSearchParams initData in
  (forall h, URLSearchParams.get "hash" data = Some h ->
             calculatedHash (URLSearchParams.delete "hash" data) <> JS.Normal h) ->
  exists e, verifyTelegramData_try initData = JS.Throw e.
Proof.
  intros data Hne. unfold TelegramBotService.verifyTelegramData_try. fold data.
  destruct (calculatedHash (URLSearchParams.delete "hash" data)) as [c|e] eqn:Hc; simpl.
  - exists (JS.PlainError "Invalid hash").
    destruct (URLSearchParams.get "hash" data) as [h|] eqn:Hh; simpl; [|reflexivity].
    destruct (String.eqb c h) eqn:E; simpl; [|reflexivity].
    apply String.eqb_eq in E. subst c. now destruct (Hne h).
  - now exists e.
Qed.

Lemma verifyTelegramData_try_match (initData h : string) :
  let data := newURLSearchParams initData in
  URLSearchParams.get "hash" data = Some h ->
  calculatedHash (URLSearchParams.delete "hash" data) = JS.Normal h ->
  verifyTelegramData_try initData
  = JS.bind (parse_user (URLSearchParams.delete "hash" data))
      (fun u => JS.Normal (TelegramBotService.mkResult (Some u))).
Proof.
  intros data Hh Hc. unfold TelegramBotService.verifyTelegramData_try. fold data.
  rewrite Hc, Hh. simpl. now rewrite String.eqb_refl.
Qed.

(** C9.  [verifyTelegramData] returns on every init-data string, and what
    it returns is [{ user }] with a user record or [null]: no error
    leaves it.  In particular it returns [{ user: null }] when the data
    has no [hash] parameter, and when its [user] parameter is not JSON
    text. *)
Theorem verifyTelegramData_never_throws (initData : string) :
  (verifyTelegramData initData = no_user
   \/ exists u, verifyTelegramData initData
                = JS.Normal (TelegramBotService.mkResult (Some u)))
  /\ (URLSearchParams.get "hash" (newURLSearchParams initData) = None ->
      verifyTelegramData initData = no_user)
  /\ (forall text,
        URLSearchParams.get "user" (newURLSearchParams initData) = Some text ->
        text <> EmptyString -> JSON_parse text = None ->
        verifyTelegramData initData = no_user).
Proof.
  split; [|split].
  - unfold TelegramBotService.verifyTelegramData, JS.try_catch.
    destruct (verifyTelegramData_try initData) as [[[u|]]|e]; eauto.
  - intros Hnone. unfold TelegramBotService.verifyTelegramData.
    destruct (verifyTelegramData_try_mismatch initData) as [e He].
    + intros h Hh. congruence.
    + now rewrite He.
  - intros text Huser Hne Hparse.
    unfold TelegramBotService.verifyTelegramData, TelegramBotService.verifyTelegramData_try.
    destruct (calculatedHash _) as [c|e]; simpl; [|reflexivity].
    destruct (TelegramBotService.strict_ne c _); simpl; [reflexivity|].
    rewrite parse_user_signed.
    rewrite get_delete_other by discriminate.
    rewrite Huser. unfold TelegramBotService.signed_user. rewrite Hparse.
    destruct text; [congruence|reflexivity].
Qed.

(** C2.  Init data whose [hash] parameter is not the hexadecimal
    HMAC-SHA256 digest recomputed over the other parameters (tampered
    data, or data without a hash) fails verification: the result is
    [{ user: null }]. *)
Theorem verifyTelegramData_rejects_tampered (initData : string) :
  let data := newURLSearchParams initData in
  (forall h, URLSearchParams.get "hash" data = Some h ->
             calculatedHash (URLSearchParams.delete "hash" data) <> JS.Normal h) ->
  verifyTelegramData initData = no_user.
Proof.
  intros data Hne. unfold TelegramBotService.verifyTelegramData.
  destruct (verifyTelegramData_try_mismatch initData Hne) as [e He].
  now rewrite He.
Qed.

(** C1, as the code has it.  For init data whose [hash] parameter is the
    hexadecimal HMAC-SHA256 digest of its data-check string under the
    key derived from the bot token, [verifyTelegramData] returns the user
    read from the [user] parameter when that is the JSON text of a value
    other than [null]; a user whose four fields are [null] when the
    parameter is missing or empty; and [{ user: null }] when the
    parameter is not JSON text, or is the text of [null]. *)
Theorem verifyTelegramData_signed (initData h : string) :
  let data := newURLSearchParams initData in
  URLSearchParams.get "hash" data = Some h ->
  calculatedHash (URLSearchParams.delete "hash" data) = JS.Normal h ->
  verifyTelegramData initData
  = JS.Normal (TelegramBotService.mkResult (signed_user (URLSearchParams.get "user" data))).
Proof.
  intros data Hh Hc. unfold TelegramBotService.verifyTelegramData.
  rewrite (verifyTelegramData_try_match initData h Hh Hc). fold data.
  rewrite parse_user_signed.
  rewrite get_delete_other by discriminate.
  now destruct (signed_user (URLSearchParams.get "user" data)).
Qed.

(** C4.  The check is the canonical one: with the [hash] pair removed,
    the other pairs are put in the order of their keys and joined as
    [key=value] lines; the secret key is the HMAC-SHA256 of the bot token
    under the key ["WebAppData"]; and the data passes exactly when the
    hexadecimal HMAC-SHA256 of the joined lines under the secret key is
    the [hash] that came with it: then the user is read, and otherwise
    "Invalid hash" is thrown and the result is [{ user: null }]. *)
Theorem verifyTelegramData_canonical_check (initData token : string) :
  (forall a b, 0 < localeCompare a b -> localeCompare b a <= 0) ->
  (forall a b c, localeCompare a b <= 0 -> localeCompare b c <= 0 -> localeCompare a c <= 0) ->
  TELEGRAM_BOT_TOKEN = Some token ->
  let params := newURLSearchParams initData in
  exists sorted : list (string * string),
    Permutation sorted (List.filter (fun kv => negb (String.eqb (fst kv) "hash")) params)
    /\ StronglySorted (fun x y => localeCompare (fst x) (fst y) <= 0) sorted
    /\ let lines := String.concat TelegramBotService.newline
                      (List.map (fun kv => fst kv +:+ "=" +:+ snd kv) sorted) in
       let secretKey := hmac_sha256 (Bytes.of_string "WebAppData") (Bytes.of_string token) in
       let expected := Bytes.to_hex (hmac_sha256 secretKey (Bytes.of_string lines)) in
       (URLSearchParams.get "hash" params = Some expected ->
        verifyTelegramData_try initData
        = JS.bind (parse_user (URLSearchParams.delete "hash" params))
            (fun u => JS.Normal (TelegramBotService.mkResult (Some u))))
       /\ (URLSearchParams.get "hash" params <> Some expected ->
           verifyTelegramData_try initData = JS.Throw (JS.PlainError "Invalid hash")
           /\ verifyTelegramData initData = no_user).
Proof.
  intros Htotal Htrans Htoken params.
  exists (Array.sort (fun a b => localeCompare (fst a) (fst b))
            (URLSearchParams.entries (URLSearchParams.delete "hash" params))).
  split; [apply sort_Permutation|].
  split.
  { apply (sort_StronglySorted (fun a b => localeCompare (fst a) (fst b))).
    - intros a b. apply Htotal.
    - intros a b c. apply Htrans. }
  assert (Hcalc : forall lines secretKey expected,
             lines = dataCheckString (URLSearchParams.delete "hash" params) ->
             secretKey = hmac_sha256 (Bytes.of_string "WebAppData") (Bytes.of_string token) ->
             expected = Bytes.to_hex (hmac_sha256 secretKey (Bytes.of_string lines)) ->
             calculatedHash (URLSearchParams.delete "hash" params) = JS.Normal expected).
  { intros lines secretKey expected -> -> ->.
    unfold TelegramBotService.calculatedHash. rewrite Htoken. reflexivity. }
  intros lines secretKey expected.
  specialize (Hcalc lines secretKey expected eq_refl eq_refl eq_refl).
  split.
  - intros Hh. exact (verifyTelegramData_try_match initData expected Hh Hcalc).
  - intros Hh.
    assert (Hthrow : verifyTelegramData_try initData = JS.Throw (JS.PlainError "Invalid hash")).
    { unfold TelegramBotService.verifyTelegramData_try. fold params. rewrite Hcalc. simpl.
      destruct (URLSearchParams.get "hash" params) as [h|]; simpl; [|reflexivity].
      destruct (String.eqb expected h) eqn:E; simpl; [|reflexivity].
      apply String.eqb_eq in E. congruence. }
    split; [exact Hthrow|].
    unfold TelegramBotService.verifyTelegramData. now rewrite Hthrow.
Qed.

End VerifyTelegramData.

(** ** Handlers *)

(** Unfolds the steps of a handler. *)
Ltac run_handler :=
  unfold mbind, handler_bind, Handler.bind, Handler.try_catch, Handler.on_store,
    Handler.pure, Handler.ret, Handler.throw, Handler.call; simpl.

(** ** telegramAuth *)

Module AuthFacts.

Import Store Handler.

Section TelegramAuth.

Variable newURLSearchParams : string -> URLSearchParams.t.
Variable localeCompare : string -> string -> Z.
Variable hmac_sha256 : list Z -> list Z -> list Z.
Variable JSON_parse : string -> option JS.value.
Variable TELEGRAM_BOT_TOKEN : option string.
Variable select_failure : option Index.PostgrestError.
Variable insert_failure : option Index.PostgrestError.
Variable jwt_sign : Z -> JS.value -> JS.completion string.

Local Abbreviation verifyTelegramData :=
  (TelegramBotService.verifyTelegramData
     newURLSearchParams localeCompare hmac_sha256 JSON_parse TELEGRAM_BOT_TOKEN).
Local Abbreviation telegramAuth :=
  (Index.telegramAuth newURLSearchParams localeCompare hmac_sha256 JSON_parse
     TELEGRAM_BOT_TOKEN select_failure insert_failure jwt_sign).
Local Abbreviation get_or_create_user :=
  (Index.get_or_create_user select_failure insert_failure).
Local Abbreviation select_finds_none := (Index.select_finds_none select_failure).

Lemma get_or_create_user_new (user : TelegramBotService.TelegramUser) (s : state) :
  select_finds_none user s ->
  insert_failure = None ->
  get_or_create_user user s
  = (JS.Normal (next_user_id (store s)), Index.with_new_user user s).
Proof.
  intros Hselect Hinsert.
  unfold Index.get_or_create_user, Index.select_single, Index.insert_single,
    Index.with_new_user.
  rewrite Hinsert.
  destruct Hselect as [[-> Hnone]|[e [-> Hcode]]]; run_handler.
  - rewrite Hnone. reflexivity.
  - rewrite Hcode. reflexivity.
Qed.

Lemma telegramAuth_verified (initData : string) (user : TelegramBotService.TelegramUser)
    (s : state) :
  initData <> EmptyString ->
  verifyTelegramData initData = JS.Normal (TelegramBotService.mkResult (Some user)) ->
  telegramAuth (Some initData) s
  = match get_or_create_user user s with
    | (JS.Normal userId, s') =>
        match jwt_sign userId (TelegramBotService.id user) with
        | JS.Normal token =>
            (JS.Normal (Index.Next userId (TelegramBotService.id user) token), s')
        | JS.Throw _ => (JS.Normal Index.authentication_failed, s')
        end
    | (JS.Throw _, s') => (JS.Normal Index.authentication_failed, s')
    end.
Proof.
  intros Hne Hverified. unfold Index.telegramAuth, Index.telegramAuth_try.
  destruct initData as [|c rest]; [congruence|].
  run_handler. rewrite Hverified. simpl.
  destruct (get_or_create_user user s) as [[userId|e] s']; [|reflexivity].
  destruct (jwt_sign userId (TelegramBotService.id user)); reflexivity.
Qed.

(** A verified user is never answered "Invalid Telegram data". *)
Lemma telegramAuth_verified_not_invalid (initData : string)
    (user : TelegramBotService.TelegramUser) (s : state) :
  initData <> EmptyString ->
  verifyTelegramData initData = JS.Normal (TelegramBotService.mkResult (Some user)) ->
  fst (telegramAuth (Some initData) s) <> JS.Normal Index.invalid_telegram_data.
Proof.
  intros Hne Hverified. rewrite (telegramAuth_verified initData user s Hne Hverified).
  destruct (get_or_create_user user s) as [[userId|e] s']; [|discriminate].
  destruct (jwt_sign userId (TelegramBotService.id user)); discriminate.
Qed.

(** The user row is created on first use. *)
Lemma telegramAuth_creates_user (initData : string)
    (user : TelegramBotService.TelegramUser) (s : state) :
  initData <> EmptyString ->
  verifyTelegramData initData = JS.Normal (TelegramBotService.mkResult (Some user)) ->
  select_finds_none user s ->
  insert_failure = None ->
  let row := Index.new_user_row (next_user_id (store s)) user in
  snd (telegramAuth (Some initData) s) = Index.with_new_user user s
  /\ users (store (Index.with_new_user user s)) = users (store s) ++ [row]
  /\ telegram_id row = Index.to_column (TelegramBotService.id user)
  /\ balance row = 0 /\ row_level row = "Alpha Pup"%string /\ level_points row = 0
  /\ fst (telegramAuth (Some initData) s)
     = match jwt_sign (row_id row) (TelegramBotService.id user) with
       | JS.Normal token =>
           JS.Normal (Index.Next (row_id row) (TelegramBotService.id user) token)
       | JS.Throw _ => JS.Normal Index.authentication_failed
       end.
Proof.
  intros Hne Hverified Hselect Hinsert row.
  rewrite (telegramAuth_verified initData user s Hne Hverified).
  rewrite (get_or_create_user_new user s Hselect Hinsert).
  subst row. simpl.
  destruct (jwt_sign (next_user_id (store s)) (TelegramBotService.id user));
    repeat split; reflexivity.
Qed.

(** An existing user's row is found, and no row is added. *)
Lemma telegramAuth_finds_user (initData : string)
    (user : TelegramBotService.TelegramUser) (row : UserRow) (s : state) :
  initData <> EmptyString ->
  verifyTelegramData initData = JS.Normal (TelegramBotService.mkResult (Some user)) ->
  select_failure = None ->
  List.filter (Index.eq_telegram_id (TelegramBotService.id user)) (users (store s)) = [row] ->
  snd (telegramAuth (Some initData) s) = s.
Proof.
  intros Hne Hverified Hselect Hrow.
  rewrite (telegramAuth_verified initData user s Hne Hverified).
  unfold Index.get_or_create_user, Index.select_single. rewrite Hselect. run_handler.
  rewrite Hrow. simpl. destruct s as [st cs].
  destruct (jwt_sign (row_id row) (TelegramBotService.id user)); reflexivity.
Qed.

End TelegramAuth.

End AuthFacts.

(** ** The progress routes *)

Module ProgressFacts.

Import Store Handler.

Lemma find_app_None {A} (f : A -> bool) (l l' : list A) :
  List.find f l = None -> List.find f (l ++ l') = List.find f l'.
Proof.
  induction l as [|x l IH]; simpl; [reflexivity|].
  destruct (f x); [discriminate|exact IH].
Qed.

Section Routes.

Variable findOne_failure : option JS.Error.
Variable save_failure : option JS.Error.
Variable UserLevel_defaults : UserLevel.
Variable addExperience : JS.value -> UserLevel -> Store.t -> JS.completion UserLevel * Store.t.
Variable updateStreak : UserLevel -> Store.t -> JS.completion UserLevel * Store.t.
Variable handleLevelUp : string -> Z -> Store.t -> JS.completion unit * Store.t.
Variable syncUserProgress : string -> Store.t -> JS.completion unit * Store.t.

Local Abbreviation findOne := (Progress.findOne findOne_failure).
Local Abbreviation new_UserLevel := (Progress.new_UserLevel UserLevel_defaults).
Local Abbreviation found_or_new := (Progress.found_or_new UserLevel_defaults).
Local Abbreviation get_progress :=
  (Progress.get_progress findOne_failure save_failure UserLevel_defaults).
Local Abbreviation get_progress_try :=
  (Progress.get_progress_try findOne_failure save_failure UserLevel_defaults).
Local Abbreviation post_experience :=
  (Progress.post_experience findOne_failure UserLevel_defaults
     addExperience updateStreak handleLevelUp).
Local Abbreviation post_experience_try :=
  (Progress.post_experience_try findOne_failure UserLevel_defaults
     addExperience updateStreak handleLevelUp).
Local Abbreviation post_sync_telegram := (Progress.post_sync_telegram syncUserProgress).
Local Abbreviation post_sync_telegram_try := (Progress.post_sync_telegram_try syncUserProgress).
Local Abbreviation get_achievements := (Progress.get_achievements findOne_failure).
Local Abbreviation get_achievements_try := (Progress.get_achievements_try findOne_failure).
Local Abbreviation same_user uid := (fun doc : UserLevel => String.eqb (userId doc) uid).

Lemma try_catch_catches (message : string) (body_ : M Response) (s : state) :
  Progress.catches message body_
    (try_catch body_ (fun error => ret (Progress.failure message error))) s.
Proof.
  unfold Progress.catches, try_catch. destruct (body_ s) as [[r|e] s']; reflexivity.
Qed.

Lemma get_progress_try_status (uid : string) (s : state) (r : Response) (s' : state) :
  get_progress_try uid s = (JS.Normal r, s') ->
  exists doc, r = mkResponse 200 (JsonUserLevel doc).
Proof.
  unfold Progress.get_progress_try, Progress.findOne, Progress.save. run_handler.
  destruct findOne_failure; [discriminate|].
  destruct (find _ _) as [doc|]; simpl.
  - intros [= <- <-]. eauto.
  - destruct save_failure; [discriminate|]. intros [= <- <-]. eauto.
Qed.

Lemma post_experience_try_status (uid : string) (req_body : JS.value) (s : state)
    (r : Response) (s' : state) :
  post_experience_try uid req_body s = (JS.Normal r, s') ->
  exists doc, r = mkResponse 200 (JsonUserLevel doc).
Proof.
  unfold Progress.post_experience_try, Progress.findOne. run_handler.
  destruct (JS.get_property req_body "amount") as [amount|]; [|discriminate].
  destruct findOne_failure; [discriminate|].
  destruct (addExperience _ _ _) as [[doc1|] st1]; [|discriminate]. simpl.
  destruct (updateStreak _ _) as [[doc2|] st2]; [|discriminate]. simpl.
  destruct (level doc2 >? _); simpl.
  - destruct (handleLevelUp _ _ _) as [[[]|] st3]; [|discriminate].
    intros [= <- <-]. eauto.
  - intros [= <- <-]. eauto.
Qed.

Lemma post_sync_telegram_try_status (uid : string) (s : state) (r : Response) (s' : state) :
  post_sync_telegram_try uid s = (JS.Normal r, s') ->
  r = mkResponse 200 (JsonMessage "Progress synced with Telegram").
Proof.
  unfold Progress.post_sync_telegram_try. run_handler.
  destruct (syncUserProgress _ _) as [[[]|] st]; [|discriminate].
  now intros [= <- <-].
Qed.

Lemma get_achievements_try_status (uid : string) (s : state) (r : Response) (s' : state) :
  get_achievements_try uid s = (JS.Normal r, s') ->
  match List.find (same_user uid) (userLevels (store s)) with
  | Some doc => r = mkResponse 200 (JsonAchievements (achievements doc))
  | None => r = mkResponse 404 (JsonMessage "User progress not found")
  end.
Proof.
  unfold Progress.get_achievements_try, Progress.findOne. run_handler.
  destruct findOne_failure; [discriminate|].
  destruct (find _ _) as [doc|]; simpl; now intros [= <- <-].
Qed.

(** C7.  Each of the four handlers answers in every case, whatever the
    database, the document methods and the Telegram service do: an error
    thrown inside it is answered with status 500 and a JSON body holding
    the route's message and the error's message.  Without an error,
    [GET /progress] and [POST /experience] answer 200 with the document,
    [POST /sync-telegram] answers 200 with its message, and
    [GET /achievements] answers 200 with the achievements, or 404 when
    the user has no document. *)
Theorem progress_routes_catch_errors (uid : string) (req_body : JS.value) (s : state) :
  (Progress.catches "Error fetching progress" (get_progress_try uid) (get_progress uid) s
   /\ forall r s', get_progress_try uid s = (JS.Normal r, s') ->
                   exists doc, r = mkResponse 200 (JsonUserLevel doc))
  /\ (Progress.catches "Error updating experience"
        (post_experience_try uid req_body) (post_experience uid req_body) s
      /\ forall r s', post_experience_try uid req_body s = (JS.Normal r, s') ->
                      exists doc, r = mkResponse 200 (JsonUserLevel doc))
  /\ (Progress.catches "Error syncing progress"
        (post_sync_telegram_try uid) (post_sync_telegram uid) s
      /\ forall r s', post_sync_telegram_try uid s = (JS.Normal r, s') ->
                      r = mkResponse 200 (JsonMessage "Progress synced with Telegram"))
  /\ (Progress.catches "Error fetching achievements"
        (get_achievements_try uid) (get_achievements uid) s
      /\ forall r s', get_achievements_try uid s = (JS.Normal r, s') ->
           match List.find (same_user uid) (userLevels (store s)) with
           | Some doc => r = mkResponse 200 (JsonAchievements (achievements doc))
           | None => r = mkResponse 404 (JsonMessage "User progress not found")
           end).
Proof.
  repeat split; try apply try_catch_catches.
  - apply get_progress_try_status.
  - apply post_experience_try_status.
  - apply post_sync_telegram_try_status.
  - apply get_achievements_try_status.
Qed.

(** [GET /progress] creates the document on first use. *)
Lemma get_progress_creates (uid : string) (s : state) :
  findOne_failure = None ->
  save_failure = None ->
  List.find (same_user uid) (userLevels (store s)) = None ->
  let s' := mkState (mkStore (users (store s)) (next_user_id (store s))
                       (userLevels (store s) ++ [new_UserLevel uid]))
              (calls s) in
  get_progress uid s = (JS.Normal (mkResponse 200 (JsonUserLevel (new_UserLevel uid))), s')
  /\ userId (new_UserLevel uid) = uid
  /\ findOne uid (store s') = (JS.Normal (Some (new_UserLevel uid)), store s').
Proof.
  intros Hfind Hsave Hnone s'. subst s'.
  unfold Progress.get_progress, Progress.get_progress_try, Progress.findOne, Progress.save.
  rewrite Hfind, Hsave. run_handler. rewrite Hnone. simpl.
  repeat split.
  rewrite (find_app_None _ _ _ Hnone). simpl. now rewrite String.eqb_refl.
Qed.

(** [GET /progress] returns an existing document and stores nothing. *)
Lemma get_progress_existing (uid : string) (s : state) (doc : UserLevel) :
  findOne_failure = None ->
  List.find (same_user uid) (userLevels (store s)) = Some doc ->
  get_progress uid s = (JS.Normal (mkResponse 200 (JsonUserLevel doc)), s).
Proof.
  intros Hfind Hsome.
  unfold Progress.get_progress, Progress.get_progress_try, Progress.findOne.
  rewrite Hfind. run_handler. rewrite Hsome. simpl. now destruct s.
Qed.

(** Whatever happens, a request makes at most one call to
    [handleLevelUp], and no other. *)
Lemma post_experience_calls (uid : string) (req_body : JS.value) (s : state) :
  Progress.calls_added s (snd (post_experience uid req_body s)) []
  \/ exists newLevel,
       Progress.calls_added s (snd (post_experience uid req_body s))
         [HandleLevelUp uid newLevel].
Proof.
  unfold Progress.calls_added, Progress.post_experience, Progress.post_experience_try,
    Progress.findOne.
  run_handler.
  destruct (JS.get_property req_body "amount") as [amount|]; simpl;
    [|left; now rewrite app_nil_r].
  destruct findOne_failure; simpl; [left; now rewrite app_nil_r|].
  destruct (addExperience _ _ _) as [[doc1|] st1]; simpl; [|left; now rewrite app_nil_r].
  destruct (updateStreak _ _) as [[doc2|] st2]; simpl; [|left; now rewrite app_nil_r].
  destruct (level doc2 >? _); simpl; [|left; now rewrite app_nil_r].
  right. exists (level doc2).
  destruct (handleLevelUp _ _ _) as [[[]|] st3]; reflexivity.
Qed.

(** C3.  In a request to [POST /experience] whose document methods
    complete, [handleLevelUp] is called exactly once, for the new level,
    when the level after the update is above the level before it, and
    is not called when the level is the same (or lower); nothing else
    is called. *)
Theorem post_experience_notifies_once (uid : string) (req_body amount : JS.value)
    (s : state) (doc1 doc2 : UserLevel) (st1 st2 : Store.t) :
  JS.get_property req_body "amount" = JS.Normal amount ->
  findOne_failure = None ->
  let doc0 := found_or_new uid (List.find (same_user uid) (userLevels (store s))) in
  addExperience amount doc0 (store s) = (JS.Normal doc1, st1) ->
  updateStreak doc1 st1 = (JS.Normal doc2, st2) ->
  Progress.calls_added s (snd (post_experience uid req_body s))
    (if level doc2 >? level doc0 then [HandleLevelUp uid (level doc2)] else [])
  /\ (level doc2 = level doc0 -> calls (snd (post_experience uid req_body s)) = calls s).
Proof.
  intros Hamount Hfind doc0 Hadd Hstreak.
  assert (Hcalls : Progress.calls_added s (snd (post_experience uid req_body s))
            (if level doc2 >? level doc0 then [HandleLevelUp uid (level doc2)] else [])).
  { unfold Progress.calls_added, Progress.post_experience, Progress.post_experience_try,
      Progress.findOne.
    run_handler.
    rewrite Hamount, Hfind. simpl. fold doc0. rewrite Hadd. simpl.
    rewrite Hstreak. simpl.
    destruct (level doc2 >? level doc0); simpl.
    - destruct (handleLevelUp _ _ _) as [[[]|] st3]; reflexivity.
    - now rewrite app_nil_r. }
  split; [exact Hcalls|].
  intros Hsame. unfold Progress.calls_added in Hcalls. rewrite Hcalls, Hsame.
  rewrite Z.gtb_ltb, Z.ltb_irrefl. apply app_nil_r.
Qed.

End Routes.

End ProgressFacts.

(** ** updateStreak in POST /experience *)

Module StreakFacts.

Import Store Handler.

Section Streak.

Variable calendarDay : Z -> Z.
Variable now : Z.
Variable restart : Z.

Local Abbreviation updateStreak := (UserLevelModel.updateStreak calendarDay now restart).
Local Abbreviation updateStreak_method :=
  (UserLevelModel.updateStreak_method calendarDay now restart).

Lemma updateStreak_consecutive (doc : UserLevel) :
  calendarDay now = calendarDay (lastActive doc) + 1 ->
  streak (updateStreak doc) = streak doc + 1.
Proof.
  intros Hday. unfold UserLevelModel.updateStreak. simpl.
  replace (calendarDay now - calendarDay (lastActive doc)) with 1 by lia.
  reflexivity.
Qed.

Lemma updateStreak_skipped (doc : UserLevel) :
  calendarDay (lastActive doc) + 1 < calendarDay now ->
  streak (updateStreak doc) = restart.
Proof.
  intros Hday. unfold UserLevelModel.updateStreak. simpl.
  destruct (_ =? 1) eqn:E; [apply Z.eqb_eq in E; lia|].
  destruct (1 <? _) eqn:E'; [reflexivity|apply Z.ltb_ge in E'; lia].
Qed.

(** C5.  In a request to [POST /experience], after [addExperience] has
    completed with a document, [updateStreak] is applied to it and the
    answer carries the result: when the request falls on the day after
    the document's last active day its streak is one more, and when one
    or more days were skipped its streak has started again. *)
Theorem post_experience_updates_streak
    (UserLevel_defaults : UserLevel)
    (addExperience : JS.value -> UserLevel -> Store.t -> JS.completion UserLevel * Store.t)
    (handleLevelUp : string -> Z -> Store.t -> JS.completion unit * Store.t)
    (uid : string) (req_body amount : JS.value) (s : state)
    (doc1 : UserLevel) (st1 : Store.t) :
  JS.get_property req_body "amount" = JS.Normal amount ->
  addExperience amount
    (Progress.found_or_new UserLevel_defaults uid
       (List.find (fun doc => String.eqb (userId doc) uid) (userLevels (store s))))
    (store s)
  = (JS.Normal doc1, st1) ->
  (forall u l st, exists st', handleLevelUp u l st = (JS.Normal tt, st')) ->
  exists s',
    Progress.post_experience None UserLevel_defaults addExperience updateStreak_method
      handleLevelUp uid req_body s
    = (JS.Normal (mkResponse 200 (JsonUserLevel (updateStreak doc1))), s')
    /\ (calendarDay now = calendarDay (lastActive doc1) + 1 ->
        streak (updateStreak doc1) = streak doc1 + 1)
    /\ (calendarDay (lastActive doc1) + 1 < calendarDay now ->
        streak (updateStreak doc1) = restart).
Proof.
  intros Hamount Hadd Hnotify.
  pose proof (updateStreak_consecutive doc1) as Hnext.
  pose proof (updateStreak_skipped doc1) as Hskip.
  destruct (Hnotify uid (level doc1) st1) as [st' Hsent].
  unfold Progress.post_experience, Progress.post_experience_try, Progress.findOne.
  run_handler. rewrite Hamount. simpl. rewrite Hadd. simpl.
  destruct (level doc1 >? _); simpl.
  - rewrite Hsent. simpl. eexists. split; [reflexivity|]. split; assumption.
  - eexists. split; [reflexivity|]. split; assumption.
Qed.

End Streak.

End StreakFacts.

(** ** Rounding *)

(** The quotients and the percentages that binary64 arithmetic gives for
    1/3, 1/7, 5/9, 123456/7, 1/4294967295 and 3/10. *)
Example round_known_answers :
  List.map (fun cv : Z * Z =>
              let quotient := JSNumber.round (inject_Z (fst cv) / inject_Z (snd cv)) in
              (quotient, JSNumber.round (quotient * 100)))
    [(1, 3); (1, 7); (5, 9); (123456, 7); (1, 4294967295); (3, 10)]
  = [(6004799503160661 # 18014398509481984, 2345624805922133 # 70368744177664);
     (2573485501354569 # 18014398509481984, 2010535547933257 # 140737488355328);
     (2501999792983609 # 4503599627370496, 3909374676536889 # 70368744177664);
     (2423951919977033 # 137438953472, 1893712437482057 # 1073741824);
     (4294967297 # 18446744073709551616, 107374182425 # 4611686018427387904);
     (5404319552844595 # 18014398509481984, 30 # 1)]%Q.
Proof. vm_compute. reflexivity. Qed.

Example round_ties_to_even :
  List.map (fun q => JSNumber.round q)
    [9007199254740993 # 1; 9007199254740995 # 2; 0; - (1 # 3)]%Q
  = [9007199254740992 # 1; 4503599627370498 # 1; 0;
     - (6004799503160661 # 18014398509481984)]%Q.
Proof. vm_compute. reflexivity. Qed.

(** ** getAdMetrics *)

Lemma Set_size_remove_dups (values : list string) :
  AdService.Set_size values = length (remove_dups values).
Proof.
  unfold AdService.Set_size.
  rewrite <- (size_list_to_set (C := gset string) (remove_dups values))
    by apply NoDup_remove_dups.
  f_equal. apply set_eq. intros x.
  rewrite !elem_of_list_to_set. now rewrite elem_of_remove_dups.
Qed.

Lemma remove_dups_fmap_length {A B} `{EqDecision A, EqDecision B}
    (f : A -> B) `{!Inj (=) (=) f} (l : list A) :
  length (remove_dups (f <$> l)) = length (remove_dups l).
Proof.
  induction l as [|x l IH]; simpl; [reflexivity|].
  destruct (decide_rel elem_of (f x) _) as [Hin|Hin],
           (decide_rel elem_of x _) as [Hin'|Hin']; simpl.
  - exact IH.
  - apply (list_elem_of_fmap_inj f) in Hin. contradiction.
  - exfalso. apply Hin. now apply (list_elem_of_fmap_inj f).
  - f_equal. exact IH.
Qed.

Lemma Set_size_distinct_users (log : list AdService.LogEntry) :
  AdService.Set_size
    (List.map (fun entry => AdService.toString (AdService.userId entry)) log)
  = AdService.distinct_users log.
Proof.
  rewrite Set_size_remove_dups. unfold AdService.distinct_users.
  rewrite <- (remove_dups_fmap_length AdService.toString (List.map AdService.userId log)).
  now rewrite <- list_fmap_compose.
Qed.

Lemma of_length_nonzero {A} (l : list A) :
  l <> [] -> JSNumber.is_zero (inject_Z (Z.of_nat (length l))) = false.
Proof.
  intros Hne. unfold JSNumber.is_zero. simpl.
  destruct l; [congruence|]. apply Z.eqb_neq. simpl length. lia.
Qed.

(** C10.  For an ad that is found, the totals are the lengths of the
    two logs and the unique counts are the numbers of different users in
    them; the click-through rate is 0 when there is no view and
    (clicks / views) * 100 otherwise, the quotient and the product each
    rounded as binary64 arithmetic rounds them.  It is a finite number
    in both cases: no division by zero takes place. *)
Theorem getAdMetrics_no_division_by_zero
    (findById : string -> JS.completion (option AdService.Ad))
    (adId : string) (ad : AdService.Ad) :
  findById adId = JS.Normal (Some ad) ->
  exists m : AdService.Metrics,
    AdService.getAdMetrics findById adId = JS.Normal m
    /\ AdService.totalViews m = length (AdService.views ad)
    /\ AdService.totalClicks m = length (AdService.clicks ad)
    /\ AdService.uniqueViewers m = AdService.distinct_users (AdService.views ad)
    /\ AdService.uniqueClickers m = AdService.distinct_users (AdService.clicks ad)
    /\ (AdService.views ad = [] -> AdService.ctr m = JSNumber.Finite 0)
    /\ (AdService.views ad <> [] ->
        AdService.ctr m
        = JSNumber.Finite
            (JSNumber.round
               (JSNumber.round
                  (inject_Z (Z.of_nat (length (AdService.clicks ad)))
                   / inject_Z (Z.of_nat (length (AdService.views ad))))
                * 100)))
    /\ JSNumber.is_finite (AdService.ctr m) = true.
Proof.
  intros Hfound. unfold AdService.getAdMetrics. rewrite Hfound. simpl.
  eexists. split; [reflexivity|]. simpl.
  repeat split; try apply Set_size_distinct_users.
  - intros ->. reflexivity.
  - intros Hne. destruct (AdService.views ad) as [|v rest] eqn:Hviews; [congruence|].
    simpl Nat.ltb. cbv iota.
    unfold JSNumber.of_length, JSNumber.div.
    rewrite (of_length_nonzero (v :: rest)) by discriminate. reflexivity.
  - destruct (AdService.views ad) as [|v rest] eqn:Hviews; [reflexivity|].
    simpl Nat.ltb. cbv iota.
    unfold JSNumber.of_length, JSNumber.div.
    rewrite (of_length_nonzero (v :: rest)) by discriminate. reflexivity.
Qed.

(** ** Records are created on first use *)

(** C8.  [GET /progress], for a user who has no [UserLevel] document,
    makes one for that user, stores it and answers with it.  The
    [telegramAuth] middleware, for a verified user for whom the select
    finds no row, inserts a row with the user's Telegram id and names,
    balance 0, level "Alpha Pup" and 0 level points, and goes on with
    that row's id. *)
Theorem records_created_on_first_use :
  (forall (findOne_failure save_failure : option JS.Error) (defaults : Store.UserLevel)
          (uid : string) (s : Handler.state),
      findOne_failure = None ->
      save_failure = None ->
      List.find (fun doc => String.eqb (Store.userId doc) uid)
        (Store.userLevels (Handler.store s)) = None ->
      let doc := Progress.new_UserLevel defaults uid in
      let s' := Handler.mkState
                  (Store.mkStore (Store.users (Handler.store s))
                     (Store.next_user_id (Handler.store s))
                     (Store.userLevels (Handler.store s) ++ [doc]))
                  (Handler.calls s) in
      Progress.get_progress findOne_failure save_failure defaults uid s
      = (JS.Normal (Handler.mkResponse 200 (Handler.JsonUserLevel doc)), s')
      /\ Store.userId doc = uid
      /\ Progress.findOne findOne_failure uid (Handler.store s')
         = (JS.Normal (Some doc), Handler.store s'))
  /\ (forall newURLSearchParams localeCompare hmac_sha256 JSON_parse TELEGRAM_BOT_TOKEN
             select_failure insert_failure jwt_sign
             (initData : string) (user : TelegramBotService.TelegramUser) (s : Handler.state),
         initData <> EmptyString ->
         TelegramBotService.verifyTelegramData
           newURLSearchParams localeCompare hmac_sha256 JSON_parse TELEGRAM_BOT_TOKEN initData
         = JS.Normal (TelegramBotService.mkResult (Some user)) ->
         Index.select_finds_none select_failure user s ->
         insert_failure = None ->
         let row := Index.new_user_row (Store.next_user_id (Handler.store s)) user in
         let run := Index.telegramAuth newURLSearchParams localeCompare hmac_sha256 JSON_parse
                      TELEGRAM_BOT_TOKEN select_failure insert_failure jwt_sign
                      (Some initData) s in
         Store.users (Handler.store (snd run)) = Store.users (Handler.store s) ++ [row]
         /\ Store.telegram_id row = Index.to_column (TelegramBotService.id user)
         /\ Store.balance row = 0
         /\ Store.row_level row = "Alpha Pup"%string
         /\ Store.level_points row = 0
         /\ fst run
            = match jwt_sign (Store.row_id row) (TelegramBotService.id user) with
              | JS.Normal token =>
                  JS.Normal (Index.Next (Store.row_id row) (TelegramBotService.id user) token)
              | JS.Throw _ => JS.Normal Index.authentication_failed
              end).
Proof.
  split.
  - intros findOne_failure save_failure defaults uid s Hfind Hsave Hnone.
    exact (ProgressFacts.get_progress_creates findOne_failure save_failure defaults uid s
             Hfind Hsave Hnone).
  - intros newURLSearchParams localeCompare hmac_sha256 JSON_parse TELEGRAM_BOT_TOKEN
      select_failure insert_failure jwt_sign initData user s Hne Hverified Hselect Hinsert.
    destruct (AuthFacts.telegramAuth_creates_user newURLSearchParams localeCompare
                hmac_sha256 JSON_parse TELEGRAM_BOT_TOKEN select_failure insert_failure
                jwt_sign initData user s Hne Hverified Hselect Hinsert)
      as (Hstate & Husers & Hid & Hbalance & Hlevel & Hpoints & Hrun).
    cbv zeta. rewrite Hstate. repeat split; assumption.
Qed.

(** ** Runs on the Node runtime *)

Lemma compare_bytes_total (a b : list Z) :
  0 < Node.compare_bytes a b -> Node.compare_bytes b a <= 0.
Proof.
  revert b. induction a as [|x a IH]; intros [|y b]; simpl; try lia.
  destruct (x <? y) eqn:Hxy, (y <? x) eqn:Hyx; try lia.
  apply IH.
Qed.

Lemma compare_bytes_trans (a b c : list Z) :
  Node.compare_bytes a b <= 0 -> Node.compare_bytes b c <= 0 -> Node.compare_bytes a c <= 0.
Proof.
  revert b c. induction a as [|x a IH]; intros [|y b] [|z c]; simpl; try lia.
  destruct (x <? y) eqn:Hxy, (y <? x) eqn:Hyx,
           (y <? z) eqn:Hyz, (z <? y) eqn:Hzy,
           (x <? z) eqn:Hxz, (z <? x) eqn:Hzx; try lia.
  apply IH.
Qed.

Lemma localeCompare_total (a b : string) :
  0 < Node.localeCompare a b -> Node.localeCompare b a <= 0.
Proof. apply compare_bytes_total. Qed.

Lemma localeCompare_trans (a b c : string) :
  Node.localeCompare a b <= 0 -> Node.localeCompare b c <= 0 -> Node.localeCompare a c <= 0.
Proof. apply compare_bytes_trans. Qed.

Example verifyTelegramData_runs_signed :
  Node.verifyTelegramData (Some Node.example_token) Node.signed_init_data
  = JS.Normal (TelegramBotService.mkResult (Some
      (TelegramBotService.mkUser (JS.Number 42 0) (JS.Str "wolf") (JS.Str "Alpha") JS.Undefined))).
Proof. vm_compute. reflexivity. Qed.

Example verifyTelegramData_runs_malformed :
  List.map (Node.verifyTelegramData (Some Node.example_token))
    [""; "%"; "hash"; "hash=%zz&user=%7B"; "&&=&"; "user=%FF%FE"]%string
  = repeat (JS.Normal (TelegramBotService.mkResult None)) 6.
Proof. vm_compute. reflexivity. Qed.

Example verifyTelegramData_runs_without_token :
  Node.verifyTelegramData None Node.signed_init_data
  = JS.Normal (TelegramBotService.mkResult None).
Proof. vm_compute. reflexivity. Qed.

(** The run that shows C1 to fail as it is stated: the [hash] of
    [signed_init_data_bad_user] is the digest of its data-check string, and
    still the result is [{ user: null }], since its [user] parameter is
    not JSON text. *)
Lemma verifyTelegramData_signed_bad_user_is_null :
  let data := URLSearchParams.parse Node.signed_init_data_bad_user in
  URLSearchParams.get "hash" data
  = Some "a935d296e879c204f544f654536b4dd0c6c40db24626e61f18875709847b9bf3"%string
  /\ Node.calculatedHash (Some Node.example_token) (URLSearchParams.delete "hash" data)
     = JS.Normal "a935d296e879c204f544f654536b4dd0c6c40db24626e61f18875709847b9bf3"%string
  /\ URLSearchParams.get "user" data = Some "{"%string
  /\ JSON.parse "{" = None
  /\ Node.verifyTelegramData (Some Node.example_token) Node.signed_init_data_bad_user
     = JS.Normal (TelegramBotService.mkResult None).
Proof.
  cbv zeta. split; [|split; [|split; [|split]]].
  - vm_compute. reflexivity.
  - vm_compute. reflexivity.
  - vm_compute. reflexivity.
  - vm_compute. reflexivity.
  - vm_compute. reflexivity.
Qed.

(** [verifyTelegramData_signed] on [signed_init_data]. *)
Lemma verifyTelegramData_signed_witness :
  Node.verifyTelegramData (Some Node.example_token) Node.signed_init_data
  = JS.Normal (TelegramBotService.mkResult (Some
      (TelegramBotService.mkUser (JS.Number 42 0) (JS.Str "wolf") (JS.Str "Alpha") JS.Undefined))).
Proof.
  assert (Hh : URLSearchParams.get "hash" (URLSearchParams.parse Node.signed_init_data)
               = Some "d30c2c9d0e183c60ae5c8a47c88390ef6cf25e240f3ff27b3ddbb3f4de62b7de"%string)
    by (vm_compute; reflexivity).
  assert (Hc : TelegramBotService.calculatedHash Node.localeCompare Crypto.hmac_sha256
                 (Some Node.example_token)
                 (URLSearchParams.delete "hash" (URLSearchParams.parse Node.signed_init_data))
               = JS.Normal "d30c2c9d0e183c60ae5c8a47c88390ef6cf25e240f3ff27b3ddbb3f4de62b7de"%string)
    by (vm_compute; reflexivity).
  refine (eq_trans
            (verifyTelegramData_signed
               URLSearchParams.parse Node.localeCompare Crypto.hmac_sha256 JSON.parse
               (Some Node.example_token) Node.signed_init_data _ Hh Hc) _).
  vm_compute. reflexivity.
Defined.

(** [verifyTelegramData_rejects_tampered] on [tampered_init_data]. *)
Lemma verifyTelegramData_rejects_tampered_witness :
  Node.verifyTelegramData (Some Node.example_token) Node.tampered_init_data
  = JS.Normal (TelegramBotService.mkResult None).
Proof.
  apply (verifyTelegramData_rejects_tampered
           URLSearchParams.parse Node.localeCompare Crypto.hmac_sha256 JSON.parse
           (Some Node.example_token) Node.tampered_init_data).
  intros h Hh. vm_compute in Hh. injection Hh as <-.
  vm_compute. discriminate.
Defined.

(** [verifyTelegramData_canonical_check] on [signed_init_data]. *)
Lemma verifyTelegramData_canonical_check_witness :
  exists sorted : list (string * string),
    Permutation sorted
      (List.filter (fun kv => negb (String.eqb (fst kv) "hash"))
         (URLSearchParams.parse Node.signed_init_data))
    /\ StronglySorted (fun x y => Node.localeCompare (fst x) (fst y) <= 0) sorted
    /\ let lines := String.concat TelegramBotService.newline
                      (List.map (fun kv => fst kv +:+ "=" +:+ snd kv) sorted) in
       let secretKey := Crypto.hmac_sha256 (Bytes.of_string "WebAppData")
                          (Bytes.of_string Node.example_token) in
       let expected := Bytes.to_hex (Crypto.hmac_sha256 secretKey (Bytes.of_string lines)) in
       (URLSearchParams.get "hash" (URLSearchParams.parse Node.signed_init_data) = Some expected ->
        TelegramBotService.verifyTelegramData_try
          URLSearchParams.parse Node.localeCompare Crypto.hmac_sha256 JSON.parse
          (Some Node.example_token) Node.signed_init_data
        = JS.bind (TelegramBotService.parse_user JSON.parse
                     (URLSearchParams.delete "hash" (URLSearchParams.parse Node.signed_init_data)))
            (fun u => JS.Normal (TelegramBotService.mkResult (Some u))))
       /\ (URLSearchParams.get "hash" (URLSearchParams.parse Node.signed_init_data) <> Some expected ->
           TelegramBotService.verifyTelegramData_try
             URLSearchParams.parse Node.localeCompare Crypto.hmac_sha256 JSON.parse
             (Some Node.example_token) Node.signed_init_data
           = JS.Throw (JS.PlainError "Invalid hash")
           /\ Node.verifyTelegramData (Some Node.example_token) Node.signed_init_data
              = JS.Normal (TelegramBotService.mkResult None)).
Proof.
  exact (verifyTelegramData_canonical_check
           URLSearchParams.parse Node.localeCompare Crypto.hmac_sha256 JSON.parse
           (Some Node.example_token) Node.signed_init_data Node.example_token
           localeCompare_total localeCompare_trans eq_refl).
Defined.

(** C6.  There is init data with a valid hash and no [user] parameter
    (here [signed_init_data_no_user], under [example_token]) for which
    [verifyTelegramData] returns a user object, not [null], whose [id],
    [username], [first_name] and [last_name] are all [null]; and
    [telegramAuth] never answers such a request with "Invalid Telegram
    data", whatever the database and [jwt.sign] do. *)
Theorem telegramAuth_accepts_signed_data_without_user :
  exists initData : string,
    let data := URLSearchParams.parse initData in
    URLSearchParams.get "user" data = None
    /\ (exists h, URLSearchParams.get "hash" data = Some h
                  /\ Node.calculatedHash (Some Node.example_token)
                       (URLSearchParams.delete "hash" data) = JS.Normal h)
    /\ Node.verifyTelegramData (Some Node.example_token) initData
       = JS.Normal (TelegramBotService.mkResult
                      (Some (TelegramBotService.mkUser JS.Null JS.Null JS.Null JS.Null)))
    /\ forall select_failure insert_failure jwt_sign (s : Handler.state),
         fst (Node.telegramAuth (Some Node.example_token) select_failure insert_failure
                jwt_sign (Some initData) s)
         <> JS.Normal Index.invalid_telegram_data.
Proof.
  exists Node.signed_init_data_no_user. cbv zeta.
  assert (Hverified :
            TelegramBotService.verifyTelegramData URLSearchParams.parse Node.localeCompare
              Crypto.hmac_sha256 JSON.parse (Some Node.example_token)
              Node.signed_init_data_no_user
            = JS.Normal (TelegramBotService.mkResult
                           (Some (TelegramBotService.mkUser JS.Null JS.Null JS.Null JS.Null))))
    by (vm_compute; reflexivity).
  split; [vm_compute; reflexivity|].
  split.
  { exists "1e558598d457df97e7ac39c32146d8c174c428e439d0d7bd7d9e0e0c134c179c"%string.
    split; vm_compute; reflexivity. }
  split; [exact Hverified|].
  intros select_failure insert_failure jwt_sign s.
  exact (AuthFacts.telegramAuth_verified_not_invalid URLSearchParams.parse Node.localeCompare
           Crypto.hmac_sha256 JSON.parse (Some Node.example_token)
           select_failure insert_failure jwt_sign Node.signed_init_data_no_user
           (TelegramBotService.mkUser JS.Null JS.Null JS.Null JS.Null) s
           ltac:(discriminate) Hverified).
Qed.

(** ** Runs of the routes *)

(** [post_experience_notifies_once] on a request that takes [wolf] from
    level 1 to level 2. *)
Lemma post_experience_notifies_once_witness :
  Progress.calls_added Sample.state0
    (snd (Progress.post_experience None Sample.defaults Sample.addExperience
            Sample.updateStreak Sample.handleLevelUp "wolf" (Sample.amount_body 60)
            Sample.state0))
    [Handler.HandleLevelUp "wolf" 2].
Proof.
  exact (proj1
           (ProgressFacts.post_experience_notifies_once None Sample.defaults
              Sample.addExperience Sample.updateStreak Sample.handleLevelUp
              "wolf" (Sample.amount_body 60) (JS.Number 60 0) Sample.state0
              (Store.mkUserLevel "wolf" 2 0 100 3 Sample.yesterday_noon [])
              (Store.mkUserLevel "wolf" 2 0 100 4 Sample.now [])
              (Handler.store Sample.state0) (Handler.store Sample.state0)
              eq_refl eq_refl eq_refl eq_refl)).
Defined.

Example post_experience_same_level :
  Progress.post_experience None Sample.defaults Sample.addExperience
    Sample.updateStreak Sample.handleLevelUp "wolf" (Sample.amount_body 10) Sample.state0
  = (JS.Normal (Handler.mkResponse 200
                  (Handler.JsonUserLevel (Store.mkUserLevel "wolf" 1 50 100 4 Sample.now []))),
     Sample.state0).
Proof. vm_compute. reflexivity. Qed.

Example post_experience_without_body :
  exists reason,
    Progress.post_experience None Sample.defaults Sample.addExperience
      Sample.updateStreak Sample.handleLevelUp "wolf" JS.Undefined Sample.state0
    = (JS.Normal (Handler.mkResponse 500
                    (Handler.JsonFailure "Error updating experience" reason)),
       Sample.state0).
Proof. eexists. vm_compute. reflexivity. Qed.

(** [post_experience_updates_streak] on a request made the day after
    [wolf]'s last active day. *)
Lemma post_experience_updates_streak_witness :
  Sample.calendarDay Sample.now = Sample.calendarDay (Store.lastActive Sample.wolf) + 1
  /\ exists s',
       Progress.post_experience None Sample.defaults Sample.addExperience
         Sample.updateStreak Sample.handleLevelUp "wolf" (Sample.amount_body 10) Sample.state0
       = (JS.Normal (Handler.mkResponse 200
                       (Handler.JsonUserLevel
                          (Store.mkUserLevel "wolf" 1 50 100 4 Sample.now []))), s').
Proof.
  split; [reflexivity|].
  destruct (StreakFacts.post_experience_updates_streak Sample.calendarDay Sample.now 1
              Sample.defaults Sample.addExperience Sample.handleLevelUp
              "wolf" (Sample.amount_body 10) (JS.Number 10 0) Sample.state0
              (Store.mkUserLevel "wolf" 1 50 100 3 Sample.yesterday_noon [])
              (Handler.store Sample.state0)
              eq_refl eq_refl
              (fun u l st => ex_intro _ st eq_refl))
    as [s' [Hrun _]].
  exists s'. exact Hrun.
Defined.

(** [records_created_on_first_use] on a first [GET /progress] and on a
    first authenticated request. *)
Lemma records_created_on_first_use_witness :
  Progress.get_progress None None Sample.defaults "cub" Sample.state0
  = (JS.Normal (Handler.mkResponse 200
                  (Handler.JsonUserLevel (Store.mkUserLevel "cub" 1 0 100 0 0 []))),
     Handler.mkState
       (Store.mkStore [] 1 [Sample.wolf; Store.mkUserLevel "cub" 1 0 100 0 0 []]) [])
  /\ Store.users
       (Handler.store
          (snd (Node.telegramAuth (Some Node.example_token) None None Sample.jwt_sign
                  (Some Node.signed_init_data) Sample.state0)))
     = [Store.mkRow 1 (JS.Number 42 0) (JS.Str "wolf") (JS.Str "Alpha") JS.Null
          0 "Alpha Pup" 0].
Proof.
  split.
  - exact (proj1 (proj1 records_created_on_first_use None None Sample.defaults "cub"
                    Sample.state0 eq_refl eq_refl eq_refl)).
  - assert (Hverified :
              TelegramBotService.verifyTelegramData URLSearchParams.parse Node.localeCompare
                Crypto.hmac_sha256 JSON.parse (Some Node.example_token) Node.signed_init_data
              = JS.Normal (TelegramBotService.mkResult (Some
                  (TelegramBotService.mkUser (JS.Number 42 0) (JS.Str "wolf")
                     (JS.Str "Alpha") JS.Undefined))))
      by (vm_compute; reflexivity).
    exact (proj1 (proj2 records_created_on_first_use URLSearchParams.parse Node.localeCompare
                    Crypto.hmac_sha256 JSON.parse (Some Node.example_token) None None
                    Sample.jwt_sign Node.signed_init_data _ Sample.state0
                    ltac:(discriminate) Hverified
                    (or_introl (conj eq_refl eq_refl)) eq_refl)).
Defined.

Example telegramAuth_second_request :
  let first := Node.telegramAuth (Some Node.example_token) None None Sample.jwt_sign
                 (Some Node.signed_init_data) Sample.state0 in
  Node.telegramAuth (Some Node.example_token) None None Sample.jwt_sign
    (Some Node.signed_init_data) (snd first)
  = (JS.Normal (Index.Next 1 (JS.Number 42 0) "header.payload.signature"), snd first).
Proof. vm_compute. reflexivity. Qed.

Example telegramAuth_rejections :
  List.map (fun header => fst (Node.telegramAuth (Some Node.example_token) None None
                                 Sample.jwt_sign header Sample.state0))
    [None; Some ""%string; Some Node.tampered_init_data]
  = [JS.Normal (Index.Responded
                  (Handler.mkResponse 401 (Handler.JsonError "No Telegram data provided")));
     JS.Normal (Index.Responded
                  (Handler.mkResponse 401 (Handler.JsonError "No Telegram data provided")));
     JS.Normal Index.invalid_telegram_data].
Proof. vm_compute. reflexivity. Qed.

(** [getAdMetrics_no_division_by_zero] on [Sample.ad]. *)
Lemma getAdMetrics_no_division_by_zero_witness :
  exists m : AdService.Metrics,
    AdService.getAdMetrics Sample.findById "ad1" = JS.Normal m
    /\ AdService.totalViews m = 3%nat
    /\ AdService.totalClicks m = 1%nat
    /\ AdService.uniqueViewers m = 2%nat
    /\ AdService.uniqueClickers m = 1%nat
    /\ AdService.ctr m = JSNumber.Finite (2345624805922133 # 70368744177664)
    /\ JSNumber.is_finite (AdService.ctr m) = true.
Proof.
  destruct (getAdMetrics_no_division_by_zero Sample.findById "ad1" Sample.ad eq_refl)
    as (m & Hrun & Hviews & Hclicks & Hviewers & Hclickers & _ & Hctr & Hfinite).
  exists m. repeat split; try assumption.
  rewrite Hctr by discriminate. vm_compute. reflexivity.
Defined.

Example getAdMetrics_without_views :
  AdService.getAdMetrics
    (fun _ => JS.Normal (Some (AdService.mkAd [] (AdService.clicks Sample.ad)))) "ad2"
  = JS.Normal (AdService.mkMetrics 0 1 0 1 (JSNumber.Finite 0)).
Proof. vm_compute. reflexivity. Qed.

Example getAdMetrics_not_found :
  AdService.getAdMetrics Sample.findById "ad9" = JS.Throw (JS.PlainError "Ad not found").
Proof. reflexivity. Qed.

(** * Further properties of the code *)

(** ** verifyTelegramData: what the comparison of the hash lets through *)

Lemma hex_digit_lower (n : Z) :
  0 <= n < 16 -> Hex.is_lower_hex (Bytes.hex_digit n) = true.
Proof.
  intros Hn.
  assert (Hall : forallb (fun k => Hex.is_lower_hex (Bytes.hex_digit (Z.of_nat k)))
                   (seq 0 16) = true) by reflexivity.
  rewrite forallb_forall in Hall.
  specialize (Hall (Z.to_nat n)). rewrite Z2Nat.id in Hall by lia.
  apply Hall, in_seq. lia.
Qed.

Lemma to_hex_lower (digest : list Z) : Hex.all_lower_hex (Bytes.to_hex digest) = true.
Proof.
  induction digest as [|b rest IH]; [reflexivity|].
  cbn [Bytes.to_hex Hex.all_lower_hex].
  rewrite IH, !hex_digit_lower; [reflexivity| |].
  - apply Z.mod_pos_bound. lia.
  - split; [apply Z.div_pos; [apply Z.mod_pos_bound|]; lia|].
    apply Z.div_lt_upper_bound; [lia|]. apply Z.mod_pos_bound. lia.
Qed.

Lemma to_hex_length (digest : list Z) :
  String.length (Bytes.to_hex digest) = (2 * length digest)%nat.
Proof.
  induction digest as [|b rest IH]; [reflexivity|].
  cbn [Bytes.to_hex String.length length]. rewrite IH. lia.
Qed.

Lemma get_app_Some (name : string) (data more : URLSearchParams.t) (v : string) :
  URLSearchParams.get name data = Some v ->
  URLSearchParams.get name (data ++ more) = Some v.
Proof.
  induction data as [|[k w] rest IH]; simpl; [discriminate|].
  destruct (String.eqb k name); [trivial|exact IH].
Qed.

Lemma delete_app (name : string) (data more : URLSearchParams.t) :
  URLSearchParams.delete name (data ++ more)
  = URLSearchParams.delete name data ++ URLSearchParams.delete name more.
Proof. unfold URLSearchParams.delete. apply List.filter_app. Qed.

Lemma delete_all (name : string) (more : URLSearchParams.t) :
  Forall (fun kv => fst kv = name) more -> URLSearchParams.delete name more = [].
Proof.
  induction 1 as [|[k v] rest Hk _ IH]; [reflexivity|].
  simpl in *. subst k. now rewrite String.eqb_refl.
Qed.

Section VerifyTelegramDataHash.

Variable newURLSearchParams : string -> URLSearchParams.t.
Variable localeCompare : string -> string -> Z.
Variable hmac_sha256 : list Z -> list Z -> list Z.
Variable JSON_parse : string -> option JS.value.
Variable TELEGRAM_BOT_TOKEN : option string.

Local Abbreviation verifyTelegramData :=
  (TelegramBotService.verifyTelegramData
     newURLSearchParams localeCompare hmac_sha256 JSON_parse TELEGRAM_BOT_TOKEN).
Local Abbreviation calculatedHash :=
  (TelegramBotService.calculatedHash localeCompare hmac_sha256 TELEGRAM_BOT_TOKEN).

Lemma calculatedHash_lower_hex (data : URLSearchParams.t) (h : string) :
  calculatedHash data = JS.Normal h -> Hex.all_lower_hex h = true.
Proof.
  unfold TelegramBotService.calculatedHash, TelegramBotService.createHmac_update_digest.
  destruct TELEGRAM_BOT_TOKEN; simpl; [|discriminate].
  intros [= <-]. apply to_hex_lower.
Qed.

(** X1.  The digest that the hash is compared with is written in
    lower-case hexadecimal digits, and the comparison is exact: init data
    whose [hash] has any other character (an upper-case digit, say) is
    rejected, whatever was signed. *)
Theorem verifyTelegramData_hash_is_lower_case (initData h : string) :
  URLSearchParams.get "hash" (newURLSearchParams initData) = Some h ->
  Hex.all_lower_hex h = false ->
  verifyTelegramData initData = JS.Normal (TelegramBotService.mkResult None).
Proof.
  intros Hh Hlower.
  unfold TelegramBotService.verifyTelegramData, TelegramBotService.verifyTelegramData_try.
  destruct (calculatedHash _) as [c|e] eqn:Hc; simpl; [|reflexivity].
  rewrite Hh. simpl.
  destruct (String.eqb c h) eqn:E; simpl; [|reflexivity].
  apply String.eqb_eq in E. subst c.
  apply calculatedHash_lower_hex in Hc. congruence.
Qed.

(** X2.  Only the first [hash] parameter counts: [hash] parameters that
    follow it are neither compared nor signed, so adding them to init
    data does not change the result. *)
Theorem verifyTelegramData_ignores_later_hashes (initData initData' h : string)
    (more : URLSearchParams.t) :
  URLSearchParams.get "hash" (newURLSearchParams initData) = Some h ->
  Forall (fun kv => fst kv = "hash"%string) more ->
  newURLSearchParams initData' = newURLSearchParams initData ++ more ->
  verifyTelegramData initData' = verifyTelegramData initData.
Proof.
  intros Hh Hmore Hparams.
  unfold TelegramBotService.verifyTelegramData, TelegramBotService.verifyTelegramData_try.
  rewrite Hparams, (get_app_Some _ _ more _ Hh), Hh, delete_app, (delete_all _ _ Hmore).
  now rewrite app_nil_r.
Qed.

(** Without a bot token in the environment nothing verifies: every
    init data gives [{ user: null }]. *)
Lemma verifyTelegramData_needs_token (initData : string) :
  TELEGRAM_BOT_TOKEN = None ->
  verifyTelegramData initData = JS.Normal (TelegramBotService.mkResult None).
Proof.
  intros Htoken.
  unfold TelegramBotService.verifyTelegramData, TelegramBotService.verifyTelegramData_try,
    TelegramBotService.calculatedHash.
  rewrite Htoken. reflexivity.
Qed.

End VerifyTelegramDataHash.

(** ** verifyTelegramData: the order of the parameters *)

Lemma get_In (name v : string) (data : URLSearchParams.t) :
  NoDup (List.map fst data) ->
  (URLSearchParams.get name data = Some v <-> In (name, v) data).
Proof.
  induction data as [|[k w] rest IH]; simpl; intros Hnodup.
  - split; [discriminate|tauto].
  - apply NoDup_cons in Hnodup as [Hfresh Hrest].
    destruct (String.eqb k name) eqn:E.
    + apply String.eqb_eq in E. subst k. split.
      * intros [= ->]. now left.
      * intros [[= ->]|Hin]; [reflexivity|].
        exfalso. apply Hfresh. apply list_elem_of_In.
        change name with (fst (name, v)). now apply in_map.
    + apply String.eqb_neq in E. rewrite (IH Hrest). split.
      * now right.
      * intros [[= -> ->]|Hin]; [congruence|exact Hin].
Qed.

Lemma get_Permutation (name : string) (data data' : URLSearchParams.t) :
  NoDup (List.map fst data) -> Permutation data data' ->
  URLSearchParams.get name data = URLSearchParams.get name data'.
Proof.
  intros Hnodup Hperm.
  assert (Hnodup' : NoDup (List.map fst data')).
  { now rewrite <- Hperm. }
  destruct (URLSearchParams.get name data) as [v|] eqn:Hget.
  - symmetry. apply (get_In _ _ _ Hnodup'). apply (get_In _ _ _ Hnodup) in Hget.
    eapply Permutation_in; eassumption.
  - destruct (URLSearchParams.get name data') as [v|] eqn:Hget'; [|reflexivity].
    apply (get_In _ _ _ Hnodup') in Hget'.
    apply (Permutation_in _ (Permutation_sym Hperm)) in Hget'.
    apply (get_In _ _ _ Hnodup) in Hget'. congruence.
Qed.

Lemma delete_Permutation (name : string) (data data' : URLSearchParams.t) :
  Permutation data data' ->
  Permutation (URLSearchParams.delete name data) (URLSearchParams.delete name data').
Proof.
  unfold URLSearchParams.delete. induction 1; simpl.
  - constructor.
  - destruct (negb _); [now constructor|assumption].
  - destruct (negb (String.eqb (fst x) name)), (negb (String.eqb (fst y) name));
      try reflexivity. apply perm_swap.
  - etransitivity; eassumption.
Qed.

Lemma delete_keys_NoDup (name : string) (data : URLSearchParams.t) :
  NoDup (List.map fst data) -> NoDup (List.map fst (URLSearchParams.delete name data)).
Proof.
  unfold URLSearchParams.delete.
  induction data as [|[k v] rest IH]; simpl; intros Hnodup; [constructor|].
  apply NoDup_cons in Hnodup as [Hfresh Hrest].
  destruct (negb (String.eqb k name)); simpl; [|now apply IH].
  apply NoDup_cons. split; [|now apply IH].
  intros Hin. apply Hfresh.
  apply list_elem_of_In in Hin. apply list_elem_of_In.
  apply in_map_iff in Hin as [[k' v'] [Hk Hin]]. simpl in Hk. subst k'.
  apply filter_In in Hin as [Hin _].
  change k with (fst (k, v')). now apply in_map.
Qed.

Section SortedOnce.

Variable compareKeys : string -> string -> Z.

Local Abbreviation before :=
  (fun x y : string * string => compareKeys (fst x) (fst y) <= 0).

(** Two sorted arrangements of the same pairs are the same list, when no
    key occurs twice and different keys do not compare as equal. *)
Lemma sorted_arrangement_unique (l l' : list (string * string)) :
  (forall a b, In a (List.map fst l) -> In b (List.map fst l) ->
               compareKeys a b <= 0 -> compareKeys b a <= 0 -> a = b) ->
  NoDup (List.map fst l) ->
  Permutation l l' ->
  StronglySorted before l -> StronglySorted before l' ->
  l = l'.
Proof.
  revert l'. induction l as [|x l IH]; intros l' Hantisym Hnodup Hperm Hsorted Hsorted'.
  - apply Permutation_nil in Hperm. now subst.
  - destruct l' as [|y l'].
    { apply Permutation_sym, Permutation_nil in Hperm. discriminate. }
    apply StronglySorted_inv in Hsorted as [Hsorted Hx].
    apply StronglySorted_inv in Hsorted' as [Hsorted' Hy].
    simpl in Hnodup. apply NoDup_cons in Hnodup as [Hfresh Hnodup].
    assert (Hxy : x = y).
    { assert (Hyin : In y (x :: l))
        by (apply (Permutation_in _ (Permutation_sym Hperm)); now left).
      assert (Hxin : In x (y :: l')) by (apply (Permutation_in _ Hperm); now left).
      destruct Hyin as [->|Hyin]; [reflexivity|].
      destruct Hxin as [->|Hxin]; [reflexivity|].
      exfalso. apply Hfresh. apply list_elem_of_In.
      rewrite Forall_forall in Hx, Hy.
      assert (Hkeys : fst x = fst y).
      { apply Hantisym.
        - now left.
        - right. now apply in_map.
        - apply Hx. now apply list_elem_of_In.
        - apply Hy. now apply list_elem_of_In. }
      rewrite Hkeys. now apply in_map. }
    subst y. f_equal.
    apply IH; try assumption.
    + intros a b Ha Hb. apply Hantisym; now right.
    + now apply Permutation_cons_inv in Hperm.
Qed.

End SortedOnce.

Section VerifyTelegramDataOrder.

Variable newURLSearchParams : string -> URLSearchParams.t.
Variable localeCompare : string -> string -> Z.
Variable hmac_sha256 : list Z -> list Z -> list Z.
Variable JSON_parse : string -> option JS.value.
Variable TELEGRAM_BOT_TOKEN : option string.

Local Abbreviation verifyTelegramData :=
  (TelegramBotService.verifyTelegramData
     newURLSearchParams localeCompare hmac_sha256 JSON_parse TELEGRAM_BOT_TOKEN).
Local Abbreviation dataCheckString := (TelegramBotService.dataCheckString localeCompare).

Hypothesis compare_total : forall a b, 0 < localeCompare a b -> localeCompare b a <= 0.
Hypothesis compare_trans :
  forall a b c, localeCompare a b <= 0 -> localeCompare b c <= 0 -> localeCompare a c <= 0.

Lemma dataCheckString_Permutation (data data' : URLSearchParams.t) :
  (forall a b, In a (List.map fst data) -> In b (List.map fst data) ->
               localeCompare a b <= 0 -> localeCompare b a <= 0 -> a = b) ->
  NoDup (List.map fst data) ->
  Permutation data data' ->
  dataCheckString data = dataCheckString data'.
Proof.
  intros Hantisym Hnodup Hperm. unfold TelegramBotService.dataCheckString.
  do 2 f_equal. unfold URLSearchParams.entries.
  set (compareFn := fun a b : string * string => localeCompare (fst a) (fst b)).
  pose proof (sort_Permutation compareFn data) as Hsort.
  pose proof (sort_Permutation compareFn data') as Hsort'.
  apply (sorted_arrangement_unique localeCompare).
  - intros a b Ha Hb. apply Hantisym.
    + eapply Permutation_in; [apply Permutation_map; exact Hsort|exact Ha].
    + eapply Permutation_in; [apply Permutation_map; exact Hsort|exact Hb].
  - now rewrite Hsort.
  - rewrite Hsort, Hsort'. exact Hperm.
  - apply (sort_StronglySorted compareFn).
    + intros a b. apply compare_total.
    + intros a b c. apply compare_trans.
  - apply (sort_StronglySorted compareFn).
    + intros a b. apply compare_total.
    + intros a b c. apply compare_trans.
Qed.

(** X4.  The result does not depend on the order in which the
    parameters come: two init-data strings with the same parameters,
    each name once, give the same result (the comparator being
    consistent, and not taking two of the names for equal). *)
Theorem verifyTelegramData_any_order (initData initData' : string) :
  let data := newURLSearchParams initData in
  (forall a b, In a (List.map fst data) -> In b (List.map fst data) ->
               localeCompare a b <= 0 -> localeCompare b a <= 0 -> a = b) ->
  NoDup (List.map fst data) ->
  Permutation data (newURLSearchParams initData') ->
  verifyTelegramData initData' = verifyTelegramData initData.
Proof.
  intros data Hantisym Hnodup Hperm.
  unfold TelegramBotService.verifyTelegramData, TelegramBotService.verifyTelegramData_try.
  fold data.
  rewrite <- (get_Permutation "hash" _ _ Hnodup Hperm).
  assert (Hdcs : dataCheckString (URLSearchParams.delete "hash" data)
                 = dataCheckString (URLSearchParams.delete "hash"
                                      (newURLSearchParams initData'))).
  { apply dataCheckString_Permutation.
    - intros a b Ha Hb. apply Hantisym.
      + apply in_map_iff in Ha as [kv [<- Hin]]. apply filter_In in Hin as [Hin _].
        now apply in_map.
      + apply in_map_iff in Hb as [kv [<- Hin]]. apply filter_In in Hin as [Hin _].
        now apply in_map.
    - now apply delete_keys_NoDup.
    - now apply delete_Permutation. }
  assert (Huser : TelegramBotService.parse_user JSON_parse
                    (URLSearchParams.delete "hash" (newURLSearchParams initData'))
                  = TelegramBotService.parse_user JSON_parse
                      (URLSearchParams.delete "hash" data)).
  { unfold TelegramBotService.parse_user, TelegramBotService.user_field.
    rewrite <- (get_Permutation "user" (URLSearchParams.delete "hash" data)
                  (URLSearchParams.delete "hash" (newURLSearchParams initData'))).
    - reflexivity.
    - now apply delete_keys_NoDup.
    - now apply delete_Permutation. }
  unfold TelegramBotService.calculatedHash. rewrite <- Hdcs, Huser. reflexivity.
Qed.

End VerifyTelegramDataOrder.

(** ** Runs for the properties of verifyTelegramData *)

Lemma of_ascii_inj (c c' : ascii) : Bytes.of_ascii c = Bytes.of_ascii c' -> c = c'.
Proof.
  unfold Bytes.of_ascii. intros H. apply N2Z.inj in H.
  rewrite <- (ascii_N_embedding c), <- (ascii_N_embedding c'). now f_equal.
Qed.

Lemma of_string_inj (s s' : string) : Bytes.of_string s = Bytes.of_string s' -> s = s'.
Proof.
  revert s'. induction s as [|c s IH]; intros [|c' s']; simpl; try discriminate;
    [reflexivity|].
  intros [= Hc Hs]. f_equal; [now apply of_ascii_inj|now apply IH].
Qed.

Lemma compare_bytes_antisym (a b : list Z) :
  Node.compare_bytes a b <= 0 -> Node.compare_bytes b a <= 0 -> a = b.
Proof.
  revert b. induction a as [|x a IH]; intros [|y b]; simpl; try lia; [reflexivity|].
  destruct (x <? y) eqn:Hxy, (y <? x) eqn:Hyx; try lia.
  intros Hab Hba. apply Z.ltb_ge in Hxy, Hyx.
  f_equal; [lia|now apply IH].
Qed.

Lemma localeCompare_antisym (a b : string) :
  Node.localeCompare a b <= 0 -> Node.localeCompare b a <= 0 -> a = b.
Proof. intros Hab Hba. apply of_string_inj. now apply compare_bytes_antisym. Qed.

(** [verifyTelegramData_hash_is_lower_case] on the signed data with its
    hash in upper case. *)
Lemma verifyTelegramData_hash_is_lower_case_witness :
  Node.verifyTelegramData (Some Node.example_token) Inputs.upper_case_hash
  = JS.Normal (TelegramBotService.mkResult None).
Proof.
  apply (verifyTelegramData_hash_is_lower_case
           URLSearchParams.parse Node.localeCompare Crypto.hmac_sha256 JSON.parse
           (Some Node.example_token) Inputs.upper_case_hash
           "D30C2C9D0E183C60AE5C8A47C88390EF6CF25E240F3FF27B3DDBB3F4DE62B7DE").
  - vm_compute. reflexivity.
  - vm_compute. reflexivity.
Defined.

(** [verifyTelegramData_ignores_later_hashes] on the signed data followed
    by [hash=00]. *)
Lemma verifyTelegramData_ignores_later_hashes_witness :
  Node.verifyTelegramData (Some Node.example_token) Inputs.second_hash
  = Node.verifyTelegramData (Some Node.example_token) Node.signed_init_data.
Proof.
  apply (verifyTelegramData_ignores_later_hashes
           URLSearchParams.parse Node.localeCompare Crypto.hmac_sha256 JSON.parse
           (Some Node.example_token) Node.signed_init_data Inputs.second_hash
           "d30c2c9d0e183c60ae5c8a47c88390ef6cf25e240f3ff27b3ddbb3f4de62b7de"
           [("hash", "00")]%string).
  - vm_compute. reflexivity.
  - repeat constructor.
  - vm_compute. reflexivity.
Defined.

(** [verifyTelegramData_any_order] on the signed data and on the same
    parameters last to first. *)
Lemma verifyTelegramData_any_order_witness :
  Node.verifyTelegramData (Some Node.example_token) Inputs.reversed
  = Node.verifyTelegramData (Some Node.example_token) Node.signed_init_data.
Proof.
  apply (verifyTelegramData_any_order
           URLSearchParams.parse Node.localeCompare Crypto.hmac_sha256 JSON.parse
           (Some Node.example_token) localeCompare_total localeCompare_trans
           Node.signed_init_data Inputs.reversed).
  - intros a b _ _. apply localeCompare_antisym.
  - apply NoDup_ListNoDup. vm_compute.
    repeat (constructor; [simpl; intuition discriminate|]). constructor.
  - change (Permutation (URLSearchParams.parse Node.signed_init_data)
              (rev (URLSearchParams.parse Node.signed_init_data))).
    apply Permutation_rev.
Defined.

(** ** telegramAuth: every outcome *)

Module AuthMore.

Import Store Handler.


Section TelegramAuth.

Variable newURLSearchParams : string -> URLSearchParams.t.
Variable localeCompare : string -> string -> Z.
Variable hmac_sha256 : list Z -> list Z -> list Z.
Variable JSON_parse : string -> option JS.value.
Variable TELEGRAM_BOT_TOKEN : option string.
Variable select_failure : option Index.PostgrestError.
Variable insert_failure : option Index.PostgrestError.
Variable jwt_sign : Z -> JS.value -> JS.completion string.

Local Abbreviation verifyTelegramData :=
  (TelegramBotService.verifyTelegramData
     newURLSearchParams localeCompare hmac_sha256 JSON_parse TELEGRAM_BOT_TOKEN).
Local Abbreviation telegramAuth :=
  (Index.telegramAuth newURLSearchParams localeCompare hmac_sha256 JSON_parse
     TELEGRAM_BOT_TOKEN select_failure insert_failure jwt_sign).
Local Abbreviation get_or_create_user :=
  (Index.get_or_create_user select_failure insert_failure).
Local Abbreviation no_telegram_data :=
  (Index.Responded (mkResponse 401 (JsonError "No Telegram data provided"))).

(** What "get or create" gives: the id of a row that is in the table
    afterwards, found there or just inserted; or an error, with the
    table as it was. *)
Lemma get_or_create_user_cases (user : TelegramBotService.TelegramUser) (s : state) :
  match get_or_create_user user s with
  | (JS.Normal userId, s') =>
      exists row,
        In row (users (store s')) /\ row_id row = userId
        /\ ((s' = s /\ Index.eq_telegram_id (TelegramBotService.id user) row = true)
            \/ (s' = Index.with_new_user user s
                /\ row = Index.new_user_row (next_user_id (store s)) user))
  | (JS.Throw _, s') => s' = s
  end.
Proof.
  unfold Index.get_or_create_user, Index.select_single, Index.insert_single.
  destruct s as [st cs].
  destruct insert_failure as [ie|], select_failure as [e|]; run_handler; simpl.
  - destruct (String.eqb (Index.code e) "PGRST116"); reflexivity.
  - destruct (List.filter _ (users st)) as [|row [|row' rows]] eqn:Hfilter; simpl;
      try reflexivity.
    exists row.
    assert (Hin : In row (List.filter (Index.eq_telegram_id (TelegramBotService.id user))
                            (users st))) by (rewrite Hfilter; now left).
    apply filter_In in Hin as [Hin Heq].
    split; [exact Hin|]. split; [reflexivity|]. now left.
  - destruct (String.eqb (Index.code e) "PGRST116"); simpl; [|reflexivity].
    exists (Index.new_user_row (next_user_id st) user).
    split; [|split; [reflexivity|right; split; reflexivity]].
    simpl. apply in_or_app. right. now left.
  - destruct (List.filter _ (users st)) as [|row [|row' rows]] eqn:Hfilter; simpl.
    + exists (Index.new_user_row (next_user_id st) user).
    split; [|split; [reflexivity|right; split; reflexivity]].
      simpl. apply in_or_app. right. now left.
    + exists row.
      assert (Hin : In row (List.filter (Index.eq_telegram_id (TelegramBotService.id user))
                              (users st))) by (rewrite Hfilter; now left).
      apply filter_In in Hin as [Hin Heq].
      split; [exact Hin|]. split; [reflexivity|]. now left.
    + exists (Index.new_user_row (next_user_id st) user).
    split; [|split; [reflexivity|right; split; reflexivity]].
      simpl. apply in_or_app. right. now left.
Qed.

Local Abbreviation select_finds_none := (Index.select_finds_none select_failure).

(** X5. [telegramAuth] never throws into the server, whatever the header
    and the database do.  It answers 401 with one of three messages, or
    it calls [next()]; and when it calls [next()], the header carried
    data that [verifyTelegramData] accepted, [req.user.telegramId] is the
    verified user's id, [req.user.id] is the id of a row that is in the
    users table, and [req.token] is what [jwt.sign] made for the two. *)
Theorem telegramAuth_answers_401_or_passes_a_stored_user
    (header : option string) (s : state) :
  exists o s',
    telegramAuth header s = (JS.Normal o, s')
    /\ match o with
       | Index.Responded r =>
           status r = 401
           /\ (json r = JsonError "No Telegram data provided"
               \/ json r = JsonError "Invalid Telegram data"
               \/ json r = JsonError "Authentication failed")
       | Index.Next userId telegramId token =>
           exists initData user row,
             header = Some initData
             /\ verifyTelegramData initData
                = JS.Normal (TelegramBotService.mkResult (Some user))
             /\ telegramId = TelegramBotService.id user
             /\ jwt_sign userId telegramId = JS.Normal token
             /\ In row (users (store s')) /\ row_id row = userId
       end.
Proof.
  unfold Index.telegramAuth, Index.telegramAuth_try.
  destruct header as [[|c rest]|]; simpl.
  - run_handler. eexists _, _. split; [reflexivity|]. simpl. auto.
  - run_handler.
    destruct (verifyTelegramData (String c rest)) as [[[user|]]|e] eqn:Hverified; simpl.
    + pose proof (get_or_create_user_cases user s) as Hcases.
      destruct (get_or_create_user user s) as [[userId|e] s']; simpl.
      * destruct (jwt_sign userId (TelegramBotService.id user)) as [token|e] eqn:Hsign;
          simpl.
        -- eexists _, _. split; [reflexivity|].
           destruct Hcases as [row [Hin [Hid _]]].
           exists (String c rest), user, row.
           repeat split; [exact Hverified|exact Hsign|exact Hin|exact Hid].
        -- eexists _, _. split; [reflexivity|]. simpl. auto.
      * eexists _, _. split; [reflexivity|]. simpl. auto.
    + eexists _, _. split; [reflexivity|]. simpl. auto.
    + eexists _, _. split; [reflexivity|]. simpl. auto.
  - run_handler. eexists _, _. split; [reflexivity|]. simpl. auto.
Qed.

(** X6. When the database fails -- the select reports an error other than
    "no single row" (code PGRST116), or no row is found and the insert
    reports an error -- a request with verified data is answered 401
    "Authentication failed", and the users table is as it was. *)
Theorem telegramAuth_database_failure (initData : string)
    (user : TelegramBotService.TelegramUser) (s : state) :
  initData <> EmptyString ->
  verifyTelegramData initData = JS.Normal (TelegramBotService.mkResult (Some user)) ->
  (exists e, select_failure = Some e /\ Index.code e <> "PGRST116"%string)
  \/ (select_finds_none user s /\ exists e, insert_failure = Some e) ->
  telegramAuth (Some initData) s = (JS.Normal Index.authentication_failed, s).
Proof.
  intros Hne Hverified Hfail.
  rewrite (AuthFacts.telegramAuth_verified _ _ _ _ _ _ _ _ initData user s Hne Hverified).
  unfold Index.get_or_create_user, Index.select_single, Index.insert_single.
  destruct s as [st cs].
  destruct Hfail as [[e [-> Hcode]]|[Hnone [e ->]]]; run_handler.
  - apply String.eqb_neq in Hcode. rewrite Hcode. reflexivity.
  - destruct Hnone as [[-> Hnone]|[e' [-> Hcode]]]; simpl.
    + simpl in Hnone. rewrite Hnone. reflexivity.
    + rewrite Hcode. reflexivity.
Qed.

(** X7. The insert is not undone: when a new user's row has been inserted
    and [jwt.sign] then throws (no JWT_SECRET, say), the request is
    answered 401 "Authentication failed" and the new row stays in the
    users table. *)
Theorem telegramAuth_keeps_the_row_when_signing_fails (initData : string)
    (user : TelegramBotService.TelegramUser) (s : state) (e : JS.Error) :
  initData <> EmptyString ->
  verifyTelegramData initData = JS.Normal (TelegramBotService.mkResult (Some user)) ->
  select_finds_none user s ->
  insert_failure = None ->
  jwt_sign (next_user_id (store s)) (TelegramBotService.id user) = JS.Throw e ->
  telegramAuth (Some initData) s
  = (JS.Normal Index.authentication_failed, Index.with_new_user user s)
  /\ users (store (Index.with_new_user user s))
     = users (store s) ++ [Index.new_user_row (next_user_id (store s)) user].
Proof.
  intros Hne Hverified Hselect Hinsert Hsign.
  rewrite (AuthFacts.telegramAuth_verified _ _ _ _ _ _ _ _ initData user s Hne Hverified).
  rewrite (AuthFacts.get_or_create_user_new _ _ user s Hselect Hinsert).
  rewrite Hsign. split; reflexivity.
Qed.


(** X3. Without a bot token in the environment the middleware lets no
    request through: every request is answered 401, and the database is
    not touched. *)
Theorem telegramAuth_without_bot_token (header : option string) (s : state) :
  TELEGRAM_BOT_TOKEN = None ->
  exists r,
    telegramAuth header s = (JS.Normal (Index.Responded r), s) /\ status r = 401.
Proof.
  intros Htoken.
  pose proof (verifyTelegramData_needs_token newURLSearchParams localeCompare
                hmac_sha256 JSON_parse TELEGRAM_BOT_TOKEN) as Hverify.
  unfold Index.telegramAuth, Index.telegramAuth_try.
  destruct header as [[|c rest]|]; simpl; run_handler.
  - eexists. split; reflexivity.
  - rewrite (Hverify (String c rest) Htoken). simpl. eexists. split; reflexivity.
  - eexists. split; reflexivity.
Qed.

End TelegramAuth.

End AuthMore.

(** The user of [Node.signed_init_data]. *)
Lemma signed_init_data_verified :
  TelegramBotService.verifyTelegramData URLSearchParams.parse Node.localeCompare
    Crypto.hmac_sha256 JSON.parse (Some Node.example_token) Node.signed_init_data
  = JS.Normal (TelegramBotService.mkResult (Some
      (TelegramBotService.mkUser (JS.Number 42 0) (JS.Str "wolf") (JS.Str "Alpha")
         JS.Undefined))).
Proof. exact verifyTelegramData_runs_signed. Qed.

(** [telegramAuth_database_failure] when the database cannot be reached. *)
Lemma telegramAuth_database_failure_witness :
  Node.telegramAuth (Some Node.example_token)
    (Some (Index.mkPgError "08006" "connection failure")) None Sample.jwt_sign
    (Some Node.signed_init_data) Sample.state0
  = (JS.Normal Index.authentication_failed, Sample.state0).
Proof.
  refine (AuthMore.telegramAuth_database_failure URLSearchParams.parse Node.localeCompare
            Crypto.hmac_sha256 JSON.parse (Some Node.example_token)
            (Some (Index.mkPgError "08006" "connection failure")) None Sample.jwt_sign
            Node.signed_init_data
            (TelegramBotService.mkUser (JS.Number 42 0) (JS.Str "wolf") (JS.Str "Alpha")
               JS.Undefined)
            Sample.state0 _ signed_init_data_verified _).
  - discriminate.
  - left. eexists. split; [reflexivity|discriminate].
Defined.

(** [telegramAuth_keeps_the_row_when_signing_fails] for a process without
    a JWT secret. *)
Lemma telegramAuth_keeps_the_row_when_signing_fails_witness :
  Node.telegramAuth (Some Node.example_token) None None
    (fun _ _ => JS.Throw (JS.mkError "Error" "secretOrPrivateKey must have a value"))
    (Some Node.signed_init_data) Sample.state0
  = (JS.Normal Index.authentication_failed,
     Handler.mkState
       (Store.mkStore
          [Store.mkRow 1 (JS.Number 42 0) (JS.Str "wolf") (JS.Str "Alpha") JS.Null
             0 "Alpha Pup" 0] 2 [Sample.wolf]) []).
Proof.
  refine (proj1 (AuthMore.telegramAuth_keeps_the_row_when_signing_fails
            URLSearchParams.parse Node.localeCompare
            Crypto.hmac_sha256 JSON.parse (Some Node.example_token) None None
            (fun _ _ => JS.Throw (JS.mkError "Error" "secretOrPrivateKey must have a value"))
            Node.signed_init_data
            (TelegramBotService.mkUser (JS.Number 42 0) (JS.Str "wolf") (JS.Str "Alpha")
               JS.Undefined)
            Sample.state0 (JS.mkError "Error" "secretOrPrivateKey must have a value")
            _ signed_init_data_verified _ eq_refl eq_refl)).
  - discriminate.
  - left. split; reflexivity.
Defined.


(** [telegramAuth_without_bot_token] on signed data. *)
Lemma telegramAuth_without_bot_token_witness :
  exists r,
    Node.telegramAuth None None None Sample.jwt_sign (Some Node.signed_init_data)
      Sample.state0
    = (JS.Normal (Index.Responded r), Sample.state0)
    /\ Handler.status r = 401.
Proof.
  exact (AuthMore.telegramAuth_without_bot_token URLSearchParams.parse Node.localeCompare
           Crypto.hmac_sha256 JSON.parse None None None Sample.jwt_sign
           (Some Node.signed_init_data) Sample.state0 eq_refl).
Defined.

(** ** The progress routes: what is stored, and when *)

Module ProgressMore.

Import Store Handler.

Section Routes.

Variable findOne_failure : option JS.Error.
Variable save_failure : option JS.Error.
Variable UserLevel_defaults : UserLevel.
Variable addExperience : JS.value -> UserLevel -> Store.t -> JS.completion UserLevel * Store.t.
Variable updateStreak : UserLevel -> Store.t -> JS.completion UserLevel * Store.t.
Variable handleLevelUp : string -> Z -> Store.t -> JS.completion unit * Store.t.

Local Abbreviation new_UserLevel := (Progress.new_UserLevel UserLevel_defaults).
Local Abbreviation found_or_new := (Progress.found_or_new UserLevel_defaults).
Local Abbreviation get_progress :=
  (Progress.get_progress findOne_failure save_failure UserLevel_defaults).
Local Abbreviation post_experience :=
  (Progress.post_experience findOne_failure UserLevel_defaults
     addExperience updateStreak handleLevelUp).
Local Abbreviation get_achievements := (Progress.get_achievements findOne_failure).
Local Abbreviation same_user uid := (fun doc : UserLevel => String.eqb (userId doc) uid).

(** X9. The two GET routes are safe to repeat.  [GET /achievements]
    changes nothing in any case; [GET /progress] changes nothing either,
    unless the user has no document, and then all it does is to add the
    one new document of that user.  Neither calls the Telegram service. *)
Theorem get_routes_store_at_most_one_document (uid : string) (s : state) :
  snd (get_achievements uid s) = s
  /\ (snd (get_progress uid s) = s
      \/ (List.find (same_user uid) (userLevels (store s)) = None
          /\ snd (get_progress uid s)
             = mkState (mkStore (users (store s)) (next_user_id (store s))
                          (userLevels (store s) ++ [new_UserLevel uid]))
                 (calls s))).
Proof.
  destruct s as [st cs]. split.
  - unfold Progress.get_achievements, Progress.get_achievements_try, Progress.findOne.
    run_handler. destruct findOne_failure; simpl; [reflexivity|].
    destruct (find _ _); reflexivity.
  - unfold Progress.get_progress, Progress.get_progress_try, Progress.findOne,
      Progress.save.
    run_handler. destruct findOne_failure; simpl; [now left|].
    destruct (find _ _) eqn:Hfind; simpl; [now left|].
    destruct save_failure; simpl; [now left|]. right. split; reflexivity.
Qed.

(** X10. [GET /progress] twice: when a request has been answered 200, the
    same request on the state it left is answered with the same
    document, and stores nothing -- also when the first request created
    the document. *)
Theorem get_progress_again (uid : string) (s s1 : state) (r : Response) :
  get_progress uid s = (JS.Normal r, s1) ->
  status r = 200 ->
  get_progress uid s1 = (JS.Normal r, s1).
Proof.
  unfold Progress.get_progress, Progress.get_progress_try, Progress.findOne,
    Progress.save.
  destruct s as [st cs]. run_handler.
  destruct findOne_failure; simpl.
  { intros [= <- <-]. discriminate. }
  destruct (find _ (userLevels st)) as [doc|] eqn:Hfind; simpl.
  - intros [= <- <-] _. simpl. rewrite Hfind. reflexivity.
  - destruct save_failure; simpl.
    { intros [= <- <-]. discriminate. }
    intros [= <- <-] _. simpl.
    rewrite (ProgressFacts.find_app_None _ _ _ Hfind). simpl.
    rewrite String.eqb_refl. reflexivity.
Qed.

(** X11. [POST /experience] gives up before it touches anything when the
    request has no body to take [amount] from, or when the query for the
    document fails: the answer is 500 "Error updating experience" with
    the error's message, no document method has run, and the Telegram
    service is not called. *)
Theorem post_experience_fails_early (uid : string) (req_body : JS.value) (s : state)
    (e : JS.Error) :
  JS.get_property req_body "amount" = JS.Throw e
  \/ ((exists amount, JS.get_property req_body "amount" = JS.Normal amount)
      /\ findOne_failure = Some e) ->
  post_experience uid req_body s
  = (JS.Normal (mkResponse 500 (JsonFailure "Error updating experience" (JS.message e))),
     s).
Proof.
  unfold Progress.post_experience, Progress.post_experience_try, Progress.findOne.
  destruct s as [st cs]. run_handler.
  intros [->|[[amount ->] ->]]; reflexivity.
Qed.

(** X12. Nothing is undone when the notification fails: when the level
    has gone up and [handleLevelUp] throws, the request is answered 500
    "Error updating experience", although [addExperience] and
    [updateStreak] have completed; the store is the one they (and the
    failed call) left, not the one before the request. *)
Theorem post_experience_update_stays_when_notification_fails
    (uid : string) (req_body amount : JS.value) (s : state)
    (doc1 doc2 : UserLevel) (st1 st2 st3 : Store.t) (e : JS.Error) :
  JS.get_property req_body "amount" = JS.Normal amount ->
  findOne_failure = None ->
  let doc0 := found_or_new uid (List.find (same_user uid) (userLevels (store s))) in
  addExperience amount doc0 (store s) = (JS.Normal doc1, st1) ->
  updateStreak doc1 st1 = (JS.Normal doc2, st2) ->
  level doc0 < level doc2 ->
  handleLevelUp uid (level doc2) st2 = (JS.Throw e, st3) ->
  post_experience uid req_body s
  = (JS.Normal (mkResponse 500 (JsonFailure "Error updating experience" (JS.message e))),
     mkState st3 (calls s ++ [HandleLevelUp uid (level doc2)])).
Proof.
  intros Hamount Hfind doc0 Hadd Hstreak Hup Hnotify.
  unfold Progress.post_experience, Progress.post_experience_try, Progress.findOne.
  run_handler. rewrite Hamount, Hfind. simpl. fold doc0. rewrite Hadd. simpl.
  rewrite Hstreak. simpl.
  apply Z.gtb_lt in Hup. rewrite Hup. simpl. rewrite Hnotify. reflexivity.
Qed.

End Routes.

End ProgressMore.

(** [get_progress_again] after the request that created the document of
    a new user. *)
Lemma get_progress_again_witness :
  Progress.get_progress None None Sample.defaults "cub"
    (Handler.mkState
       (Store.mkStore [] 1 [Sample.wolf; Store.mkUserLevel "cub" 1 0 100 0 0 []]) [])
  = (JS.Normal (Handler.mkResponse 200
                  (Handler.JsonUserLevel (Store.mkUserLevel "cub" 1 0 100 0 0 []))),
     Handler.mkState
       (Store.mkStore [] 1 [Sample.wolf; Store.mkUserLevel "cub" 1 0 100 0 0 []]) []).
Proof.
  exact (ProgressMore.get_progress_again None None Sample.defaults "cub" Sample.state0
           _ _ eq_refl eq_refl).
Defined.

(** [post_experience_fails_early] for a request without a body. *)
Lemma post_experience_fails_early_witness :
  exists reason,
    Progress.post_experience None Sample.defaults Sample.addExperience Sample.updateStreak
      Sample.handleLevelUp "wolf" JS.Undefined Sample.state0
    = (JS.Normal (Handler.mkResponse 500
                    (Handler.JsonFailure "Error updating experience" reason)),
       Sample.state0).
Proof.
  destruct (JS.get_property JS.Undefined "amount") as [v|e] eqn:Hamount;
    [vm_compute in Hamount; discriminate|].
  exists (JS.message e).
  exact (ProgressMore.post_experience_fails_early None Sample.defaults Sample.addExperience
           Sample.updateStreak Sample.handleLevelUp "wolf" JS.Undefined Sample.state0 e
           (or_introl Hamount)).
Defined.

(** [post_experience_update_stays_when_notification_fails] for a user who
    reaches level 2 while Telegram cannot be reached. *)
Lemma post_experience_update_stays_when_notification_fails_witness :
  Progress.post_experience None Sample.defaults Sample.addExperience Sample.updateStreak
    (fun _ _ st => (JS.Throw (JS.mkError "Error" "ETELEGRAM"), st))
    "wolf" (Sample.amount_body 70) Sample.state0
  = (JS.Normal (Handler.mkResponse 500
                  (Handler.JsonFailure "Error updating experience" "ETELEGRAM")),
     Handler.mkState (Store.mkStore [] 1 [Sample.wolf]) [Handler.HandleLevelUp "wolf" 2]).
Proof.
  refine (ProgressMore.post_experience_update_stays_when_notification_fails
            None Sample.defaults Sample.addExperience Sample.updateStreak
            (fun _ _ st => (JS.Throw (JS.mkError "Error" "ETELEGRAM"), st))
            "wolf" (Sample.amount_body 70) (JS.Number 70 0) Sample.state0
            _ _ _ _ _ (JS.mkError "Error" "ETELEGRAM")
            eq_refl eq_refl eq_refl eq_refl _ eq_refl).
  vm_compute. reflexivity.
Defined.

(** ** services/adService.js: serving, counting and rewarding *)

(** Unfolds the steps of a method of the ad service. *)
Ltac run_ads :=
  unfold mbind, ads_bind, Ads.bind, Ads.ret, Ads.throw; simpl.

Lemma sample_In {A} (choice : nat) (docs : list A) (doc : A) :
  head (AdServiceMethods.sample choice docs) = Some doc -> In doc docs.
Proof.
  unfold AdServiceMethods.sample.
  destruct (nth_error docs _) as [found|] eqn:Hnth; simpl; [|discriminate].
  intros [= <-]. exact (nth_error_In _ _ Hnth).
Qed.

Lemma sample_None {A} (choice : nat) (docs : list A) :
  head (AdServiceMethods.sample choice docs) = None -> docs = [].
Proof.
  unfold AdServiceMethods.sample. destruct docs as [|doc docs]; [reflexivity|].
  destruct (nth_error (doc :: docs) _) as [found|] eqn:Hnth; simpl; [discriminate|].
  apply nth_error_None in Hnth.
  pose proof (Nat.mod_upper_bound choice (length (doc :: docs))) as Hlt.
  simpl in Hnth, Hlt. lia.
Qed.

Lemma Set_size_snoc (values : list string) (value : string) :
  AdService.Set_size (values ++ [value])
  = if decide (value ∈ values) then AdService.Set_size values
    else S (AdService.Set_size values).
Proof.
  unfold AdService.Set_size. rewrite list_to_set_snoc_L.
  destruct (decide (value ∈ values)) as [Hin|Hin].
  - f_equal. apply set_eq. intros x. rewrite elem_of_union, elem_of_singleton.
    rewrite !elem_of_list_to_set. split; [intros [H| ->]; assumption|now left].
  - rewrite size_union, size_singleton; [lia|].
    apply disjoint_singleton_r. now rewrite elem_of_list_to_set.
Qed.

(** The number of different users of a log that gets one more entry. *)
Lemma Set_size_push (entries : list AdService.LogEntry) (entry : AdService.LogEntry) :
  let users_of (l : list AdService.LogEntry) :=
    List.map (fun v => AdService.toString (AdService.userId v)) l in
  ((exists v, In v entries /\ AdService.userId v = AdService.userId entry) ->
   AdService.Set_size (users_of (entries ++ [entry])) = AdService.Set_size (users_of entries))
  /\ ((forall v, In v entries -> AdService.userId v <> AdService.userId entry) ->
      AdService.Set_size (users_of (entries ++ [entry]))
      = S (AdService.Set_size (users_of entries))).
Proof.
  intros users_of. subst users_of. cbv beta.
  rewrite List.map_app. simpl. rewrite Set_size_snoc.
  split.
  - intros [v [Hin Hsame]].
    destruct (decide _) as [_|Hnot]; [reflexivity|].
    exfalso. apply Hnot. apply list_elem_of_In, in_map_iff.
    exists v. split; [now rewrite Hsame|exact Hin].
  - intros Hnew.
    destruct (decide _) as [Hold|_]; [|reflexivity].
    exfalso. apply list_elem_of_In, in_map_iff in Hold as [v [Hsame Hin]].
    apply (Hnew v Hin). now apply (inj AdService.toString).
Qed.

Module AdFacts.

Import Ads.

(** An ad that is served is a stored ad that matches. *)
Lemma getAdForUser_served (find_user_failure aggregate_failure : option JS.Error)
    (now_start now_end : Z) (choice : nat)
    (userId : AdService.ObjectId) (adType : string)
    (db db' : DB) (adId : string) (ad : AdDoc) :
  AdServiceMethods.getAdForUser find_user_failure aggregate_failure
    now_start now_end choice userId adType db
  = (JS.Normal (Some (adId, ad)), db') ->
  ads db !! adId = Some ad
  /\ exists user, AdServiceMethods.matches now_start now_end adType user ad = true.
Proof.
  unfold AdServiceMethods.getAdForUser, AdServiceMethods.User_findById,
    AdServiceMethods.Ad_aggregate.
  run_ads. destruct find_user_failure; [discriminate|].
  destruct (users db !! _) as [user|]; simpl; [|discriminate].
  destruct aggregate_failure; [discriminate|].
  intros [= Hserved _].
  apply sample_In, filter_In in Hserved as [Hin Hmatch].
  split; [now apply list_elem_of_In, elem_of_map_to_list in Hin|].
  now exists user.
Qed.

Section Service.

Variable find_ad_failure : option JS.Error.
Variable find_user_failure : option JS.Error.
Variable aggregate_failure : option JS.Error.
Variable save_ad_failure : option JS.Error.
Variable save_user_failure : option JS.Error.
Variable ad_rejects_first : bool.
Variable now_start : Z.
Variable now_end : Z.
Variable now : Z.
Variable choice : nat.

Local Abbreviation matches := (AdServiceMethods.matches now_start now_end).
Local Abbreviation getAdForUser :=
  (AdServiceMethods.getAdForUser find_user_failure aggregate_failure
     now_start now_end choice).
Local Abbreviation recordAdClick :=
  (AdServiceMethods.recordAdClick find_ad_failure save_ad_failure now).
Local Abbreviation processAdReward :=
  (AdServiceMethods.processAdReward find_ad_failure find_user_failure
     save_ad_failure save_user_failure ad_rejects_first now).
Local Abbreviation updateAdStatus :=
  (AdServiceMethods.updateAdStatus find_ad_failure save_ad_failure).
Local Abbreviation getAdMetrics := (AdServiceMethods.getAdMetrics find_ad_failure).

(** X13. What [getAdForUser] serves to a user: an ad of the collection
    that is active, of the type asked for, for a level not above the
    user's, started and not ended; and it answers [null] only when the
    collection has no such ad.  The collections are as they were. *)
Theorem getAdForUser_serves_a_matching_ad (userId : AdService.ObjectId)
    (adType : string) (db : DB) (user : User) :
  find_user_failure = None ->
  aggregate_failure = None ->
  users db !! AdService.toString userId = Some user ->
  exists served,
    getAdForUser userId adType db = (JS.Normal served, db)
    /\ match served with
       | Some (adId, ad) =>
           ads db !! adId = Some ad
           /\ status ad = "active"%string /\ type ad = adType
           /\ targetLevel ad <= level user
           /\ startDate ad <= now_start /\ now_end <= endDate ad
       | None =>
           forall adId ad, ads db !! adId = Some ad -> matches adType user ad = false
       end.
Proof.
  intros Hfind Haggregate Huser.
  unfold AdServiceMethods.getAdForUser, AdServiceMethods.User_findById,
    AdServiceMethods.Ad_aggregate.
  rewrite Hfind, Haggregate. run_ads. rewrite Huser. simpl.
  eexists. split; [reflexivity|].
  destruct (head _) as [[adId ad]|] eqn:Hserved.
  - apply sample_In, filter_In in Hserved as [Hin Hmatch]. simpl in Hmatch.
    apply list_elem_of_In, elem_of_map_to_list in Hin.
    unfold AdServiceMethods.matches in Hmatch.
    repeat (apply andb_prop in Hmatch as [Hmatch ?]).
    repeat split; try (now apply String.eqb_eq); try (now apply Z.leb_le).
    exact Hin.
  - intros adId ad Hin. apply sample_None in Hserved.
    destruct (matches adType user ad) eqn:Hmatch; [|reflexivity].
    assert (Hfiltered : In (adId, ad)
                          (List.filter (fun doc => matches adType user (snd doc))
                             (map_to_list (ads db)))).
    { apply filter_In. split; [|exact Hmatch].
      now apply list_elem_of_In, elem_of_map_to_list. }
    rewrite Hserved in Hfiltered. destruct Hfiltered.
Qed.

Local Abbreviation viewed userId ad :=
  (AdServiceMethods.with_log ad
     (AdService.mkAd (AdServiceMethods.push now userId (AdService.views (log ad)))
        (AdService.clicks (log ad)))).
Local Abbreviation clicked userId ad :=
  (AdServiceMethods.with_log ad
     (AdService.mkAd (AdService.views (log ad))
        (AdServiceMethods.push now userId (AdService.clicks (log ad))))).

(** What a call of [processAdReward] that resolves has found and done. *)
Lemma processAdReward_resolved (adId : string) (userId : AdService.ObjectId)
    (db db' : DB) (r : AdDoc * User) :
  processAdReward adId userId db = (JS.Normal r, db') ->
  exists ad user,
    find_ad_failure = None
    /\ ads db !! adId = Some ad
    /\ users db !! AdService.toString userId = Some user
    /\ r = (viewed userId ad, AdServiceMethods.grant (viewed userId ad) user)
    /\ db' = mkDB (<[adId := viewed userId ad]> (ads db))
               (<[AdService.toString userId
                  := AdServiceMethods.grant (viewed userId ad) user]> (users db)).
Proof.
  unfold AdServiceMethods.processAdReward, AdServiceMethods.Ad_findById,
    AdServiceMethods.User_findById, AdServiceMethods.save_both,
    AdServiceMethods.Ad_save, AdServiceMethods.User_save.
  run_ads. destruct find_ad_failure; [discriminate|].
  destruct (ads db !! adId) as [ad|]; simpl; [|discriminate].
  destruct find_user_failure; [discriminate|].
  destruct (users db !! _) as [user|]; simpl; [|discriminate].
  destruct save_ad_failure, save_user_failure; simpl; try discriminate.
  intros [= <- <-]. exists ad, user. repeat split.
Qed.

(** What a call of [recordAdClick] that resolves has found and done. *)
Lemma recordAdClick_resolved (adId : string) (userId : AdService.ObjectId)
    (db db' : DB) (r : AdDoc) :
  recordAdClick adId userId db = (JS.Normal r, db') ->
  exists ad,
    find_ad_failure = None
    /\ ads db !! adId = Some ad
    /\ r = clicked userId ad
    /\ db' = mkDB (<[adId := clicked userId ad]> (ads db)) (users db).
Proof.
  unfold AdServiceMethods.recordAdClick, AdServiceMethods.Ad_findById,
    AdServiceMethods.Ad_save.
  run_ads. destruct find_ad_failure; [discriminate|].
  destruct (ads db !! adId) as [ad|]; simpl; [|discriminate].
  destruct save_ad_failure; simpl; [discriminate|].
  intros [= <- <-]. exists ad. repeat split.
Qed.

(** X14. An ad that has been given a status other than 'active' is not
    served any more: after [updateAdStatus] has resolved, a call of
    [getAdForUser], for whatever user and type and at whatever time,
    returns another ad, or none. *)
Theorem updateAdStatus_takes_the_ad_out (adId status' : string) (db db' : DB)
    (updated : AdDoc)
    (find_user_failure' aggregate_failure' : option JS.Error)
    (now_start' now_end' : Z) (choice' : nat)
    (userId : AdService.ObjectId) (adType : string) :
  String.eqb status' "active" = false ->
  updateAdStatus adId status' db = (JS.Normal updated, db') ->
  match fst (AdServiceMethods.getAdForUser find_user_failure' aggregate_failure'
               now_start' now_end' choice' userId adType db') with
  | JS.Normal (Some (served, _)) => String.eqb served adId = false
  | _ => True
  end.
Proof.
  intros Hstatus.
  unfold AdServiceMethods.updateAdStatus, AdServiceMethods.Ad_findById,
    AdServiceMethods.Ad_save.
  run_ads. destruct find_ad_failure; [discriminate|].
  destruct (ads db !! adId) as [ad0|]; simpl; [|discriminate].
  destruct save_ad_failure; simpl; [discriminate|].
  intros [= <- <-].
  destruct (AdServiceMethods.getAdForUser _ _ _ _ _ _ _ _)
    as [[[[served ad]|]|e] db''] eqn:Hcall; simpl; try exact I.
  apply getAdForUser_served in Hcall as [Hstored [user Hmatch]].
  destruct (String.eqb served adId) eqn:Hsame; [|reflexivity].
  apply String.eqb_eq in Hsame. subst served.
  simpl in Hstored. rewrite lookup_insert_eq in Hstored. injection Hstored as <-.
  unfold AdServiceMethods.matches in Hmatch. simpl in Hmatch.
  repeat (apply andb_prop in Hmatch as [Hmatch ?]).
  congruence.
Qed.

(** X15. A rewarded view is counted once: after [processAdReward] has
    resolved, the ad's metrics show one view more and the same clicks,
    and one unique viewer more exactly when the user had not viewed the
    ad before. *)
Theorem processAdReward_counts_one_view (adId : string) (userId : AdService.ObjectId)
    (db db' : DB) (ad : AdDoc) (r : AdDoc * User) :
  ads db !! adId = Some ad ->
  processAdReward adId userId db = (JS.Normal r, db') ->
  exists m m',
    getAdMetrics adId db = JS.Normal m
    /\ getAdMetrics adId db' = JS.Normal m'
    /\ AdService.totalViews m' = S (AdService.totalViews m)
    /\ AdService.totalClicks m' = AdService.totalClicks m
    /\ AdService.uniqueClickers m' = AdService.uniqueClickers m
    /\ ((exists v, In v (AdService.views (log ad)) /\ AdService.userId v = userId) ->
        AdService.uniqueViewers m' = AdService.uniqueViewers m)
    /\ ((forall v, In v (AdService.views (log ad)) -> AdService.userId v <> userId) ->
        AdService.uniqueViewers m' = S (AdService.uniqueViewers m)).
Proof.
  intros Had Hcall.
  apply processAdReward_resolved in Hcall
    as (ad0 & user & Hfind & Had0 & Huser & -> & ->).
  rewrite Had in Had0. injection Had0 as <-.
  unfold AdServiceMethods.getAdMetrics, AdService.getAdMetrics,
    AdServiceMethods.Ad_findById.
  rewrite Hfind. simpl. rewrite lookup_insert_eq, Had. simpl.
  eexists _, _. split; [reflexivity|]. split; [reflexivity|]. simpl.
  unfold AdServiceMethods.push.
  pose proof (Set_size_push (AdService.views (log ad)) (AdService.mkEntry userId now))
    as [Hold Hnew].
  repeat split.
  - rewrite length_app. simpl. lia.
  - exact Hold.
  - exact Hnew.
Qed.

(** X16. A click is counted once: after [recordAdClick] has resolved, the
    ad's metrics show one click more and the same views, and one unique
    clicker more exactly when the user had not clicked the ad before.
    The users are as they were: a click brings no reward. *)
Theorem recordAdClick_counts_one_click (adId : string) (userId : AdService.ObjectId)
    (db db' : DB) (ad r : AdDoc) :
  ads db !! adId = Some ad ->
  recordAdClick adId userId db = (JS.Normal r, db') ->
  users db' = users db
  /\ exists m m',
       getAdMetrics adId db = JS.Normal m
       /\ getAdMetrics adId db' = JS.Normal m'
       /\ AdService.totalClicks m' = S (AdService.totalClicks m)
       /\ AdService.totalViews m' = AdService.totalViews m
       /\ AdService.uniqueViewers m' = AdService.uniqueViewers m
       /\ ((exists c, In c (AdService.clicks (log ad)) /\ AdService.userId c = userId) ->
           AdService.uniqueClickers m' = AdService.uniqueClickers m)
       /\ ((forall c, In c (AdService.clicks (log ad)) -> AdService.userId c <> userId) ->
           AdService.uniqueClickers m' = S (AdService.uniqueClickers m)).
Proof.
  intros Had Hcall.
  apply recordAdClick_resolved in Hcall as (ad0 & Hfind & Had0 & -> & ->).
  rewrite Had in Had0. injection Had0 as <-.
  split; [reflexivity|].
  unfold AdServiceMethods.getAdMetrics, AdService.getAdMetrics,
    AdServiceMethods.Ad_findById.
  rewrite Hfind. simpl. rewrite lookup_insert_eq, Had. simpl.
  eexists _, _. split; [reflexivity|]. split; [reflexivity|]. simpl.
  unfold AdServiceMethods.push.
  pose proof (Set_size_push (AdService.clicks (log ad)) (AdService.mkEntry userId now))
    as [Hold Hnew].
  repeat split.
  - rewrite length_app. simpl. lia.
  - exact Hold.
  - exact Hnew.
Qed.

(** X17. A missing document stops a call before anything is written.
    For an [adId] that is not in the collection, [recordAdClick],
    [updateAdStatus] and [processAdReward] reject with 'Ad not found' (the
    last one also when the user is missing too); for a user that is not
    in the collection, [getAdForUser] and, the ad being there,
    [processAdReward] reject with 'User not found'.  The collections are
    as they were: no view is recorded for an unknown user. *)
Theorem missing_documents_stop_the_call (adId : string) (userId : AdService.ObjectId)
    (status' adType : string) (db : DB) :
  find_ad_failure = None ->
  find_user_failure = None ->
  (ads db !! adId = None ->
   recordAdClick adId userId db = (JS.Throw (JS.PlainError "Ad not found"), db)
   /\ updateAdStatus adId status' db = (JS.Throw (JS.PlainError "Ad not found"), db)
   /\ processAdReward adId userId db = (JS.Throw (JS.PlainError "Ad not found"), db))
  /\ (users db !! AdService.toString userId = None ->
      getAdForUser userId adType db = (JS.Throw (JS.PlainError "User not found"), db)
      /\ (is_Some (ads db !! adId) ->
          processAdReward adId userId db
          = (JS.Throw (JS.PlainError "User not found"), db))).
Proof.
  intros Hfind_ad Hfind_user.
  unfold AdServiceMethods.recordAdClick, AdServiceMethods.updateAdStatus,
    AdServiceMethods.processAdReward, AdServiceMethods.getAdForUser,
    AdServiceMethods.Ad_findById, AdServiceMethods.User_findById.
  rewrite Hfind_ad, Hfind_user. run_ads. split.
  - intros ->. repeat split.
  - intros Huser. split; [now rewrite Huser|].
    intros [ad ->]. simpl. now rewrite Huser.
Qed.

(** X18. The calls that save one document are all or nothing: when
    [recordAdClick] or [updateAdStatus] rejects, for whatever reason,
    the collections are as they were; and [getAdForUser] never changes
    them. *)
Theorem rejected_calls_change_nothing (adId : string) (userId : AdService.ObjectId)
    (status' adType : string) (db : DB) :
  snd (getAdForUser userId adType db) = db
  /\ (forall e db', recordAdClick adId userId db = (JS.Throw e, db') -> db' = db)
  /\ (forall e db', updateAdStatus adId status' db = (JS.Throw e, db') -> db' = db).
Proof.
  unfold AdServiceMethods.recordAdClick, AdServiceMethods.updateAdStatus,
    AdServiceMethods.getAdForUser, AdServiceMethods.Ad_aggregate,
    AdServiceMethods.Ad_findById, AdServiceMethods.User_findById,
    AdServiceMethods.Ad_save.
  run_ads. repeat split.
  - destruct find_user_failure; [reflexivity|].
    destruct (users db !! _); simpl; [|reflexivity].
    destruct aggregate_failure; reflexivity.
  - intros e db'. destruct find_ad_failure; [now intros [= _ <-]|].
    destruct (ads db !! adId); simpl; [|now intros [= _ <-]].
    destruct save_ad_failure; simpl; [now intros [= _ <-]|discriminate].
  - intros e db'. destruct find_ad_failure; [now intros [= _ <-]|].
    destruct (ads db !! adId); simpl; [|now intros [= _ <-]].
    destruct save_ad_failure; simpl; [now intros [= _ <-]|discriminate].
Qed.

(** X19. [processAdReward] is not all or nothing.  Its two saves run side
    by side, and each takes effect on its own: when one of them fails
    the call rejects, and still the other document is stored.  So a
    user can be rewarded for a view that is not recorded (the ad's save
    failed), and a view can be recorded without its reward (the user's
    save failed). *)
Theorem processAdReward_saves_each_document_on_its_own (adId : string)
    (userId : AdService.ObjectId) (db : DB) (ad : AdDoc) (user : User) :
  find_ad_failure = None ->
  find_user_failure = None ->
  ads db !! adId = Some ad ->
  users db !! AdService.toString userId = Some user ->
  is_Some save_ad_failure \/ is_Some save_user_failure ->
  exists e,
    processAdReward adId userId db
    = (JS.Throw e,
       mkDB
         (match save_ad_failure with
          | Some _ => ads db
          | None => <[adId := viewed userId ad]> (ads db)
          end)
         (match save_user_failure with
          | Some _ => users db
          | None =>
              <[AdService.toString userId
                := AdServiceMethods.grant (viewed userId ad) user]> (users db)
          end))
    /\ (save_ad_failure = Some e \/ save_user_failure = Some e).
Proof.
  intros Hfind_ad Hfind_user Had Huser Hfails.
  unfold AdServiceMethods.processAdReward, AdServiceMethods.Ad_findById,
    AdServiceMethods.User_findById, AdServiceMethods.save_both,
    AdServiceMethods.Ad_save, AdServiceMethods.User_save.
  rewrite Hfind_ad, Hfind_user. run_ads. rewrite Had. simpl. rewrite Huser. simpl.
  destruct save_ad_failure as [e|], save_user_failure as [e'|]; simpl.
  - destruct ad_rejects_first; eexists; (split; [destruct db; reflexivity|auto]).
  - eexists; (split; [reflexivity|auto]).
  - eexists; (split; [reflexivity|auto]).
  - destruct Hfails as [[? [=]]|[? [=]]].
Qed.

(** X20. What a rewarded view touches: of the ad only its views (status,
    type, level, dates, reward and clicks are as before), of the user
    only the points or the premium days, never the level; an ad whose
    reward type is neither 'points' nor 'premium' leaves the user as it
    is, and its view is counted all the same.  Every other ad and every
    other user is as before. *)
Theorem processAdReward_touches_one_ad_and_one_user (adId : string)
    (userId : AdService.ObjectId) (db db' : DB) (ad ad' : AdDoc) (user user' : User) :
  ads db !! adId = Some ad ->
  users db !! AdService.toString userId = Some user ->
  processAdReward adId userId db = (JS.Normal (ad', user'), db') ->
  ads db' !! adId = Some ad'
  /\ users db' !! AdService.toString userId = Some user'
  /\ (forall other, other <> adId -> ads db' !! other = ads db !! other)
  /\ (forall other, other <> AdService.toString userId ->
                    users db' !! other = users db !! other)
  /\ ad' = viewed userId ad
  /\ level user' = level user
  /\ (rewardType ad = "points"%string -> premiumDays user' = premiumDays user)
  /\ (rewardType ad = "premium"%string -> points user' = points user)
  /\ (rewardType ad <> "points"%string -> rewardType ad <> "premium"%string ->
      user' = user).
Proof.
  intros Had Huser Hcall.
  apply processAdReward_resolved in Hcall
    as (ad0 & user0 & Hfind & Had0 & Huser0 & [= -> ->] & ->).
  rewrite Had in Had0. injection Had0 as <-.
  rewrite Huser in Huser0. injection Huser0 as <-.
  simpl. unfold AdServiceMethods.grant. simpl.
  split; [apply lookup_insert_eq|]. split; [apply lookup_insert_eq|].
  split; [intros other Hother; now apply lookup_insert_ne|].
  split; [intros other Hother; now apply lookup_insert_ne|].
  split; [reflexivity|].
  destruct (String.eqb (rewardType ad) "points") eqn:Hpoints;
    [|destruct (String.eqb (rewardType ad) "premium") eqn:Hpremium]; simpl.
  - apply String.eqb_eq in Hpoints. repeat split; congruence.
  - apply String.eqb_eq in Hpremium. repeat split; congruence.
  - repeat split.
Qed.

End Service.

End AdFacts.

(** ** getAdMetrics: the unique counts *)

Lemma remove_dups_length_le {A} `{EqDecision A} (l : list A) :
  (length (remove_dups l) <= length l)%nat.
Proof.
  induction l as [|x l IH]; simpl; [lia|].
  destruct (decide_rel elem_of x l); simpl; lia.
Qed.

Lemma remove_dups_nil {A} `{EqDecision A} (l : list A) :
  remove_dups l = [] -> l = [].
Proof.
  destruct l as [|x l]; [reflexivity|]. simpl.
  destruct (decide_rel elem_of x l) as [Hin|Hin]; [|discriminate].
  intros Hnil. apply elem_of_remove_dups in Hin. rewrite Hnil in Hin.
  now apply elem_of_nil in Hin.
Qed.

Lemma Set_size_bounds {A} (f : A -> string) (l : list A) :
  (AdService.Set_size (List.map f l) <= length l)%nat
  /\ (AdService.Set_size (List.map f l) = 0%nat <-> length l = 0%nat).
Proof.
  rewrite Set_size_remove_dups. split.
  - pose proof (remove_dups_length_le (List.map f l)) as Hle.
    now rewrite length_map in Hle.
  - split.
    + intros Hzero. apply length_zero_iff_nil in Hzero.
      apply remove_dups_nil in Hzero. apply map_eq_nil in Hzero. now subst l.
    + intros Hzero. apply length_zero_iff_nil in Hzero. now subst l.
Qed.

Section GetAdMetricsCounts.

Variable findById : string -> JS.completion (option AdService.Ad).

Local Abbreviation getAdMetrics := (AdService.getAdMetrics findById).

(** X21. The metrics that [getAdMetrics] returns hang together: there are
    no more unique viewers than views and no more unique clickers than
    clicks, an ad has no unique viewer (clicker) only when it has no
    view (click), and an ad without clicks has the rate 0. *)
Theorem getAdMetrics_counts_hang_together (adId : string) (m : AdService.Metrics) :
  getAdMetrics adId = JS.Normal m ->
  (AdService.uniqueViewers m <= AdService.totalViews m)%nat
  /\ (AdService.uniqueClickers m <= AdService.totalClicks m)%nat
  /\ (AdService.uniqueViewers m = 0%nat <-> AdService.totalViews m = 0%nat)
  /\ (AdService.uniqueClickers m = 0%nat <-> AdService.totalClicks m = 0%nat)
  /\ (AdService.totalClicks m = 0%nat -> AdService.ctr m = JSNumber.Finite 0).
Proof.
  unfold AdService.getAdMetrics.
  destruct (findById adId) as [[ad|]|e]; simpl; try discriminate.
  intros [= <-]. simpl.
  pose proof (Set_size_bounds (fun v => AdService.toString (AdService.userId v))
                (AdService.views ad)) as [Hviews Hno_views].
  pose proof (Set_size_bounds (fun c => AdService.toString (AdService.userId c))
                (AdService.clicks ad)) as [Hclicks Hno_clicks].
  repeat split; try assumption; try apply Hno_views; try apply Hno_clicks.
  intros Hzero. apply length_zero_iff_nil in Hzero. rewrite Hzero.
  destruct (AdService.views ad) as [|v vs]; [reflexivity|].
  reflexivity.
Qed.

End GetAdMetricsCounts.

(** ** Runs of the ad service *)

(** [getAdForUser_serves_a_matching_ad] for Alice, who asks for a video. *)
Lemma getAdForUser_serves_a_matching_ad_witness :
  exists served,
    AdServiceMethods.getAdForUser None None Sample.now Sample.now 7
      SampleAds.alice "video" SampleAds.db
    = (JS.Normal served, SampleAds.db)
    /\ match served with
       | Some (adId, ad) =>
           Ads.ads SampleAds.db !! adId = Some ad
           /\ Ads.status ad = "active"%string /\ Ads.type ad = "video"%string
           /\ Ads.targetLevel ad <= 3
           /\ Ads.startDate ad <= Sample.now /\ Sample.now <= Ads.endDate ad
       | None =>
           forall adId ad,
             Ads.ads SampleAds.db !! adId = Some ad ->
             AdServiceMethods.matches Sample.now Sample.now "video"
               (Ads.mkUser 3 (JSNumber.Finite 10) (JSNumber.Finite 0)) ad = false
       end.
Proof.
  refine (AdFacts.getAdForUser_serves_a_matching_ad None None Sample.now Sample.now 7
            SampleAds.alice "video" SampleAds.db
            (Ads.mkUser 3 (JSNumber.Finite 10) (JSNumber.Finite 0)) eq_refl eq_refl _).
  vm_compute. reflexivity.
Defined.

Example getAdForUser_runs :
  AdServiceMethods.getAdForUser None None Sample.now Sample.now 7
    SampleAds.alice "video" SampleAds.db
  = (JS.Normal (Some ("ad1"%string, SampleAds.video)), SampleAds.db)
  /\ AdServiceMethods.getAdForUser None None Sample.now Sample.now 7
       SampleAds.alice "banner" SampleAds.db
     = (JS.Normal None, SampleAds.db).
Proof. split; vm_compute; reflexivity. Qed.

(** [updateAdStatus_takes_the_ad_out]: the video is paused, and Alice
    asks for a video. *)
Lemma updateAdStatus_takes_the_ad_out_witness :
  match fst (AdServiceMethods.getAdForUser None None Sample.now Sample.now 7
               SampleAds.alice "video"
               (snd (AdServiceMethods.updateAdStatus None None "ad1" "paused"
                       SampleAds.db))) with
  | JS.Normal (Some (served, _)) => String.eqb served "ad1" = false
  | _ => True
  end.
Proof.
  refine (AdFacts.updateAdStatus_takes_the_ad_out None None "ad1" "paused" SampleAds.db
            (snd (AdServiceMethods.updateAdStatus None None "ad1" "paused" SampleAds.db))
            (Ads.mkAdDoc "paused" "video" 1 1690000000000 1710000000000 "points"
               (JSNumber.Finite 50) Sample.ad)
            None None Sample.now Sample.now 7 SampleAds.alice "video" eq_refl _).
  vm_compute. reflexivity.
Defined.

(** [processAdReward_counts_one_view] for Carol, who sees the video for
    the first time. *)
Lemma processAdReward_counts_one_view_witness :
  let db' := snd (AdServiceMethods.processAdReward None None None None true Sample.now
                    "ad1" SampleAds.carol SampleAds.db) in
  exists m m',
    AdServiceMethods.getAdMetrics None "ad1" SampleAds.db = JS.Normal m
    /\ AdServiceMethods.getAdMetrics None "ad1" db' = JS.Normal m'
    /\ AdService.totalViews m' = S (AdService.totalViews m)
    /\ AdService.totalClicks m' = AdService.totalClicks m
    /\ AdService.uniqueClickers m' = AdService.uniqueClickers m
    /\ ((exists v, In v (AdService.views (Ads.log SampleAds.video))
                   /\ AdService.userId v = SampleAds.carol) ->
        AdService.uniqueViewers m' = AdService.uniqueViewers m)
    /\ ((forall v, In v (AdService.views (Ads.log SampleAds.video)) ->
                   AdService.userId v <> SampleAds.carol) ->
        AdService.uniqueViewers m' = S (AdService.uniqueViewers m)).
Proof.
  refine (AdFacts.processAdReward_counts_one_view None None None None true Sample.now
            "ad1" SampleAds.carol SampleAds.db _ SampleAds.video _ _ _).
  - vm_compute. reflexivity.
  - vm_compute. reflexivity.
Defined.

(** [recordAdClick_counts_one_click] for Alice, who clicks the video for
    the first time. *)
Lemma recordAdClick_counts_one_click_witness :
  let db' := snd (AdServiceMethods.recordAdClick None None Sample.now
                    "ad1" SampleAds.alice SampleAds.db) in
  Ads.users db' = Ads.users SampleAds.db
  /\ exists m m',
       AdServiceMethods.getAdMetrics None "ad1" SampleAds.db = JS.Normal m
       /\ AdServiceMethods.getAdMetrics None "ad1" db' = JS.Normal m'
       /\ AdService.totalClicks m' = S (AdService.totalClicks m)
       /\ AdService.totalViews m' = AdService.totalViews m
       /\ AdService.uniqueViewers m' = AdService.uniqueViewers m
       /\ ((exists c, In c (AdService.clicks (Ads.log SampleAds.video))
                      /\ AdService.userId c = SampleAds.alice) ->
           AdService.uniqueClickers m' = AdService.uniqueClickers m)
       /\ ((forall c, In c (AdService.clicks (Ads.log SampleAds.video)) ->
                      AdService.userId c <> SampleAds.alice) ->
           AdService.uniqueClickers m' = S (AdService.uniqueClickers m)).
Proof.
  refine (AdFacts.recordAdClick_counts_one_click None None Sample.now
            "ad1" SampleAds.alice SampleAds.db _ SampleAds.video _ _ _).
  - vm_compute. reflexivity.
  - vm_compute. reflexivity.
Defined.

(** [missing_documents_stop_the_call]: a click on an ad that is not
    there, and a view by a user who is not there. *)
Lemma missing_documents_stop_the_call_witness :
  AdServiceMethods.recordAdClick None None Sample.now "ad9" SampleAds.alice SampleAds.db
  = (JS.Throw (JS.PlainError "Ad not found"), SampleAds.db)
  /\ AdServiceMethods.processAdReward None None None None true Sample.now
       "ad1" (AdService.mkObjectId "65a9") SampleAds.db
     = (JS.Throw (JS.PlainError "User not found"), SampleAds.db).
Proof.
  split.
  - refine (proj1 (proj1 (AdFacts.missing_documents_stop_the_call None None None None None
                            true Sample.now Sample.now Sample.now 7
                            "ad9" SampleAds.alice "paused" "video" SampleAds.db
                            eq_refl eq_refl) _)).
    vm_compute. reflexivity.
  - refine (proj2 (proj2 (AdFacts.missing_documents_stop_the_call None None None None None
                            true Sample.now Sample.now Sample.now 7
                            "ad1" (AdService.mkObjectId "65a9") "paused" "video"
                            SampleAds.db eq_refl eq_refl) _) _).
    + vm_compute. reflexivity.
    + exists SampleAds.video. vm_compute. reflexivity.
Defined.

(** [processAdReward_saves_each_document_on_its_own]: the ad cannot be
    saved, and Alice has her 50 points. *)
Lemma processAdReward_saves_each_document_on_its_own_witness :
  exists e,
    AdServiceMethods.processAdReward None None
      (Some (JS.mkError "VersionError" "No matching document found")) None true
      Sample.now "ad1" SampleAds.alice SampleAds.db
    = (JS.Throw e,
       Ads.mkDB (Ads.ads SampleAds.db)
         (<["65a1" := Ads.mkUser 3 (JSNumber.Finite 60) (JSNumber.Finite 0)]>
            (Ads.users SampleAds.db)))
    /\ (Some (JS.mkError "VersionError" "No matching document found") = Some e
        \/ None = Some e).
Proof.
  refine (AdFacts.processAdReward_saves_each_document_on_its_own None None
            (Some (JS.mkError "VersionError" "No matching document found")) None true
            Sample.now "ad1" SampleAds.alice SampleAds.db SampleAds.video
            (Ads.mkUser 3 (JSNumber.Finite 10) (JSNumber.Finite 0))
            eq_refl eq_refl _ _ _).
  - vm_compute. reflexivity.
  - vm_compute. reflexivity.
  - left. eexists. reflexivity.
Defined.

(** [processAdReward_touches_one_ad_and_one_user]: Alice sees the banner,
    whose reward type the service does not know. *)
Lemma processAdReward_touches_one_ad_and_one_user_witness :
  let alice := Ads.mkUser 3 (JSNumber.Finite 10) (JSNumber.Finite 0) in
  let seen :=
    Ads.mkAdDoc "active" "banner" 5 1690000000000 1710000000000 "badge"
      (JSNumber.Finite 1)
      (AdService.mkAd [AdService.mkEntry SampleAds.alice Sample.now] []) in
  let db' := Ads.mkDB (<["ad2" := seen]> (Ads.ads SampleAds.db)) (Ads.users SampleAds.db) in
  AdServiceMethods.processAdReward None None None None true Sample.now
    "ad2" SampleAds.alice SampleAds.db
  = (JS.Normal (seen, alice), db')
  /\ Ads.ads db' !! "ad2" = Some seen
  /\ Ads.users db' !! "65a1" = Some alice.
Proof.
  intros alice seen db'.
  assert (Hcall : AdServiceMethods.processAdReward None None None None true Sample.now
                    "ad2" SampleAds.alice SampleAds.db
                  = (JS.Normal (seen, alice), db')) by (vm_compute; reflexivity).
  split; [exact Hcall|].
  pose proof (AdFacts.processAdReward_touches_one_ad_and_one_user None None None None
                true Sample.now "ad2" SampleAds.alice SampleAds.db db'
                SampleAds.banner seen alice alice eq_refl eq_refl Hcall)
    as [Had [Huser _]].
  split; [exact Had|exact Huser].
Defined.

(** [getAdMetrics_counts_hang_together] on [Sample.ad]. *)
Lemma getAdMetrics_counts_hang_together_witness :
  exists m,
    AdService.getAdMetrics Sample.findById "ad1" = JS.Normal m
    /\ (AdService.uniqueViewers m <= AdService.totalViews m)%nat
    /\ (AdService.uniqueClickers m <= AdService.totalClicks m)%nat
    /\ (AdService.uniqueViewers m = 0%nat <-> AdService.totalViews m = 0%nat)
    /\ (AdService.uniqueClickers m = 0%nat <-> AdService.totalClicks m = 0%nat)
    /\ (AdService.totalClicks m = 0%nat -> AdService.ctr m = JSNumber.Finite 0).
Proof.
  eexists. split; [vm_compute; reflexivity|].
  refine (getAdMetrics_counts_hang_together Sample.findById "ad1" _ _).
  vm_compute. reflexivity.
Defined.

(** ** The error handling middleware *)

Section ErrorHandlerFacts.

Variable NODE_ENV : option string.

Local Abbreviation errorHandler := (ErrorHandler.errorHandler NODE_ENV).



(** X22. Outside development the answer never carries the stack trace:
    unless NODE_ENV is 'development', no body that the handler gives to
    [res.json] has a [stack]. *)
Theorem errorHandler_hides_the_stack_outside_development (err : JS.value)
    (r : ErrorHandler.Response) :
  NODE_ENV <> Some "development"%string ->
  errorHandler err = JS.Normal r ->
  ErrorHandler.has_key "stack" r = false.
Proof.
  intros Henv.
  assert (Hdev : ErrorHandler.development NODE_ENV = false).
  { unfold ErrorHandler.development. destruct NODE_ENV as [env|]; [|reflexivity].
    apply String.eqb_neq. congruence. }
  unfold ErrorHandler.errorHandler. rewrite Hdev.
  destruct (JS.get_property err "stack") as [stack|]; simpl; [|discriminate].
  destruct (JS.get_property err "name") as [name|]; simpl; [|discriminate].
  destruct (ErrorHandler.is_string name "ValidationError").
  { destruct (JS.get_property err "message"); simpl; [|discriminate].
    now intros [= <-]. }
  destruct (ErrorHandler.is_string name "UnauthorizedError"); [now intros [= <-]|].
  destruct (ErrorHandler.is_string name "RateLimitExceeded"); [now intros [= <-]|].
  destruct (JS.get_property err "status"); simpl; [|discriminate].
  destruct (JS.get_property err "message"); simpl; [|discriminate].
  now intros [= <-].
Qed.


End ErrorHandlerFacts.

(** [errorHandler_hides_the_stack_outside_development] in production, for
    an error that has a stack. *)
Lemma errorHandler_hides_the_stack_outside_development_witness :
  ErrorHandler.has_key "stack"
    (ErrorHandler.mkResponse (JS.Number 500 0)
       [("error"%string, JS.Str "CastError");
        ("message"%string, JS.Str "Cast to ObjectId failed")])
  = false.
Proof.
  refine (errorHandler_hides_the_stack_outside_development (Some "production"%string)
            (JS.Object [("name"%string, JS.Str "CastError");
                        ("message"%string, JS.Str "Cast to ObjectId failed");
                        ("stack"%string, JS.Str "CastError: Cast to ObjectId failed at model.js")])
            _ _ eq_refl).
  discriminate.
Defined.


Example errorHandler_runs :
  ErrorHandler.errorHandler (Some "development"%string)
    (JS.Object [("message"%string, JS.Str "boom"); ("stack"%string, JS.Str "Error: boom")])
  = JS.Normal
      (ErrorHandler.mkResponse (JS.Number 500 0)
         [("error"%string, JS.Str "Internal Server Error");
          ("message"%string, JS.Str "boom");
          ("stack"%string, JS.Str "Error: boom")])
  /\ ErrorHandler.errorHandler None
       (JS.Object [("name"%string, JS.Str "NotFound"); ("status"%string, JS.Number 404 0)])
     = JS.Normal
         (ErrorHandler.mkResponse (JS.Number 404 0)
            [("error"%string, JS.Str "NotFound");
             ("message"%string, JS.Str "Something went wrong")]).
Proof. split; reflexivity. Qed.
